(** * Sarma AI core: provider adapters, response parser and provider router

    A shallow embedding of [app/services/ai/base.py], [gemini_service.py],
    [openai_service.py], [meal_analyzer.py], [recipe_generator.py] and
    [chat_assistant.py], with the properties of the routing and
    normalisation layer stated over it.

    Conventions.
    - Python [float] is IEEE 754 binary64, computed with the Standard
      Library's [SpecFloat] operations (round to nearest, ties to even).
    - Python [int] is [Z].
    - Python [str] is [string]; texts are taken to be ASCII, one character
      per code point, so [lower], [\d], [\s] and [re.IGNORECASE] are their
      ASCII restrictions.
    - Values whose type is only known at run time (decoded JSON, the
      dictionaries the services return) are [pyval].
    - Code that may raise is written in the exception monad [exc]. *)

From Stdlib Require Import ZArith List String Ascii Bool Lia DecimalString.
From Stdlib Require Import Floats.SpecFloat.
Import ListNotations.

Set Warnings "-register-all".

Local Open Scope string_scope.
Local Open Scope Z_scope.

(** ** Python floats *)

Module PyFloat.

Definition prec : Z := 53.
Definition emax : Z := 1024.

Definition float : Type := spec_float.

Definition add : float -> float -> float := SFadd prec emax.
Definition sub : float -> float -> float := SFsub prec emax.
Definition mul : float -> float -> float := SFmul prec emax.
Definition div : float -> float -> float := SFdiv prec emax.
Definition ltb : float -> float -> bool := SFltb.
Definition leb : float -> float -> bool := SFleb.
Definition eqb : float -> float -> bool := SFeqb.

Definition zero : float := S754_zero false.

(** The float nearest to [n / d], for [d > 0]. *)
Definition of_ratio (neg : bool) (n d : positive) : float :=
  let '(mz, ez, lz) := SFdiv_core_binary prec emax (Zpos n) 0 (Zpos d) 0 in
  binary_round_aux prec emax neg mz ez lz.

(** The float nearest to an integer ([float(n)] short of overflow). *)
Definition of_Z (z : Z) : float := binary_normalize prec emax z 0 false.

(** The float nearest to [(-1)^neg * m * 10^e]: what [float] makes of a
    decimal literal.  Exponents that are certain to overflow or to
    underflow are answered without computing the power of ten. *)
Definition of_decimal (neg : bool) (m : N) (e : Z) : float :=
  match m with
  | N0 => S754_zero neg
  | Npos p =>
      if 400 <? e then S754_infinity neg
      else if e + Z.log2 (Zpos p) <? -1200 then S754_zero neg
      else if 0 <=? e then binary_normalize prec emax (cond_Zopp neg (Zpos p * 10 ^ e)) 0 neg
      else of_ratio neg p (Z.to_pos (10 ^ (- e)))
  end.

(** A decimal literal of the source, [m * 10^e]. *)
Definition lit (m : Z) (e : Z) : float :=
  of_decimal (m <? 0) (Z.abs_N m) e.

(** Python's [min(a, b)] and [max(a, b)]: the first argument is kept
    unless the second compares strictly below (above) it. *)
Definition py_min (a b : float) : float := if ltb b a then b else a.
Definition py_max (a b : float) : float := if ltb a b then b else a.

End PyFloat.

(** ** Python strings *)

Module PyStr.

Definition is_upper (c : ascii) : bool :=
  let n := nat_of_ascii c in (Nat.leb 65 n && Nat.leb n 90)%bool.

Definition lower_char (c : ascii) : ascii :=
  if is_upper c then ascii_of_nat (nat_of_ascii c + 32) else c.

(** [s.lower()] *)
Fixpoint lower (s : string) : string :=
  match s with
  | EmptyString => EmptyString
  | String c s' => String (lower_char c) (lower s')
  end.

(** [len(s)] *)
Definition len (s : string) : Z := Z.of_nat (String.length s).

(** [s.startswith(p)] *)
Definition startswith (s p : string) : bool := String.prefix p s.

(** [needle in hay] *)
Fixpoint contains (needle hay : string) : bool :=
  if String.prefix needle hay then true
  else match hay with
       | EmptyString => false
       | String _ hay' => contains needle hay'
       end.

Definition is_digit (c : ascii) : bool :=
  let n := nat_of_ascii c in (Nat.leb 48 n && Nat.leb n 57)%bool.

Definition digit_val (c : ascii) : N := N.of_nat (nat_of_ascii c - 48).

(** The characters [str.isspace] accepts, which are also those of [\s]. *)
Definition is_space (c : ascii) : bool :=
  let n := nat_of_ascii c in
  (Nat.eqb n 32 || (Nat.leb 9 n && Nat.leb n 13) || (Nat.leb 28 n && Nat.leb n 31))%bool.

Fixpoint lstrip (s : string) : string :=
  match s with
  | String c s' => if is_space c then lstrip s' else s
  | EmptyString => EmptyString
  end.

Fixpoint rstrip (s : string) : string :=
  match s with
  | EmptyString => EmptyString
  | String c s' =>
      match rstrip s' with
      | EmptyString => if is_space c then EmptyString else String c EmptyString
      | r => String c r
      end
  end.

(** [s.strip()] *)
Definition strip (s : string) : string := rstrip (lstrip s).

(** Splitting at every character that satisfies [sep]: [s.split(',')] and
    [re.split(r'[,;]', s)] for one-character separators. *)
Fixpoint split_on (sep : ascii -> bool) (s : string) : list string :=
  match s with
  | EmptyString => [EmptyString]
  | String c s' =>
      if sep c then EmptyString :: split_on sep s'
      else match split_on sep s' with
           | w :: ws => String c w :: ws
           | [] => [String c EmptyString]
           end
  end.

(** The part of [s] that precedes its suffix [rest]. *)
Definition consumed (s rest : string) : string :=
  String.substring 0 (String.length s - String.length rest) s.

End PyStr.

(** ** Exceptions *)

(** The exception classes that occur, each a subclass of [Exception].
    [ProviderError] stands for whatever a provider SDK or the network
    layer raises. *)
Inductive exn_class : Type :=
  | JSONDecodeError
  | ValidationError
  | ValueError
  | KeyError
  | IndexError
  | AttributeError
  | TypeError
  | OverflowError
  | ProviderError.

Record exn : Type := mkExn { exn_cls : exn_class; exn_str : string }.

Inductive exc (A : Type) : Type :=
  | Return (a : A)
  | Raise (e : exn).

Arguments Return {A} a.
Arguments Raise {A} e.

Definition bind {A B : Type} (m : exc A) (k : A -> exc B) : exc B :=
  match m with
  | Return a => k a
  | Raise e => Raise e
  end.

Notation "x <- m ;; k" := (bind m (fun x => k))
  (at level 61, m at next level, right associativity).

Definition raise {A : Type} (c : exn_class) (msg : string) : exc A :=
  Raise (mkExn c msg).

(** [try: body  except <classes>: handler], [handles] deciding the clause. *)
Definition try_except {A : Type} (body : exc A) (handles : exn -> bool)
    (handler : exn -> exc A) : exc A :=
  match body with
  | Return a => Return a
  | Raise e => if handles e then handler e else Raise e
  end.

(** [isinstance(e, ValueError)]: [json.JSONDecodeError] and pydantic's
    [ValidationError] derive from [ValueError]. *)
Definition is_ValueError (e : exn) : bool :=
  match exn_cls e with
  | ValueError | JSONDecodeError | ValidationError => true
  | _ => false
  end.

Definition is_KeyError (e : exn) : bool :=
  match exn_cls e with KeyError => true | _ => false end.

(** [except Exception] and the bare [except] *)
Definition is_Exception (e : exn) : bool := true.


(** ** Run-time values *)

Inductive pyval : Type :=
  | PNone
  | PBool (b : bool)
  | PInt (z : Z)
  | PFloat (f : PyFloat.float)
  | PStr (s : string)
  | PList (l : list pyval)
  | PDict (d : list (string * pyval)).

Definition pydict : Type := list (string * pyval).

(** [d[k] = v]: an existing key keeps its place. *)
Fixpoint dict_set (k : string) (v : pyval) (d : pydict) : pydict :=
  match d with
  | [] => [(k, v)]
  | (k', v') :: d' =>
      if String.eqb k k' then (k, v) :: d' else (k', v') :: dict_set k v d'
  end.

Fixpoint dict_lookup (k : string) (d : pydict) : option pyval :=
  match d with
  | [] => None
  | (k', v) :: d' => if String.eqb k k' then Some v else dict_lookup k d'
  end.

(** [d.get(k, default)] on a dictionary *)
Definition dict_get (d : pydict) (k : string) (default : pyval) : pyval :=
  match dict_lookup k d with
  | Some v => v
  | None => default
  end.

Definition dict_keys (d : pydict) : list string := map fst d.

(** [x.get(k, default)] on any value: only a [dict] has the method. *)
Definition py_get (x : pyval) (k : string) (default : pyval) : exc pyval :=
  match x with
  | PDict d => Return (dict_get d k default)
  | _ => raise AttributeError "object has no attribute 'get'"
  end.

(** Truth value of [x], as [if x] tests it. *)
Definition py_truth (x : pyval) : bool :=
  match x with
  | PNone => false
  | PBool b => b
  | PInt z => negb (z =? 0)
  | PFloat f => negb (PyFloat.eqb f PyFloat.zero)
  | PStr s => negb (String.eqb s "")
  | PList l => match l with [] => false | _ => true end
  | PDict d => match d with [] => false | _ => true end
  end.

(** ** Decimal numerals *)

Module Numeral.

Definition chr (n : nat) : ascii := ascii_of_nat n.
Definition is_chr (n : nat) (c : ascii) : bool := Nat.eqb (nat_of_ascii c) n.

(** A maximal run of decimal digits at the head of [s]: its value added
    to [10^k * acc], the number of digits read, and the rest. *)
Fixpoint digits (s : string) (acc : N) (cnt : nat) : N * nat * string :=
  match s with
  | String c s' =>
      if PyStr.is_digit c then digits s' (acc * 10 + PyStr.digit_val c)%N (S cnt)
      else (acc, cnt, s)
  | EmptyString => (acc, cnt, s)
  end.

(** As [digits], with the single underscores that [float] and [int]
    accept between two digits. *)
Fixpoint digits_us (s : string) (acc : N) (cnt : nat) : N * nat * string :=
  match s with
  | String c s' =>
      if PyStr.is_digit c then
        let acc' := (acc * 10 + PyStr.digit_val c)%N in
        match s' with
        | String u (String d s'' as t) =>
            if (is_chr 95 u && PyStr.is_digit d)%bool then digits_us t acc' (S cnt)
            else digits_us s' acc' (S cnt)
        | _ => digits_us s' acc' (S cnt)
        end
      else (acc, cnt, s)
  | EmptyString => (acc, cnt, s)
  end.

(** An optional sign. *)
Definition sign (s : string) : bool * string :=
  match s with
  | String c s' =>
      if is_chr 45 c then (true, s') else if is_chr 43 c then (false, s') else (false, s)
  | EmptyString => (false, s)
  end.

(** An optional exponent part ([e] or [E], a sign, digits); without one
    the exponent is 0. *)
Definition exponent (dig : string -> N -> nat -> N * nat * string)
    (s : string) : Z * string :=
  match s with
  | String c s' =>
      if (is_chr 101 c || is_chr 69 c)%bool then
        let '(neg, s1) := sign s' in
        let '(v, cnt, s2) := dig s1 0%N O in
        match cnt with
        | O => (0, s)
        | _ => (if neg then - Z.of_N v else Z.of_N v, s2)
        end
      else (0, s)
  | EmptyString => (0, s)
  end.

End Numeral.

(** ** The builtin [float] *)

Definition float_of_string (s : string) : option PyFloat.float :=
  let '(neg, s1) := Numeral.sign (PyStr.strip s) in
  let w := PyStr.lower s1 in
  if (String.eqb w "inf" || String.eqb w "infinity")%bool then Some (S754_infinity neg)
  else if String.eqb w "nan" then Some S754_nan
  else
    let '(ip, ic, s2) := Numeral.digits_us s1 0%N O in
    let '(m, fc, s3) :=
      match s2 with
      | String c r => if Ascii.eqb c "."%char then Numeral.digits_us r ip O else (ip, O, s2)
      | EmptyString => (ip, O, s2)
      end in
    match (ic + fc)%nat with
    | O => None
    | _ =>
        let '(e, s4) := Numeral.exponent Numeral.digits_us s3 in
        if String.eqb s4 "" then Some (PyFloat.of_decimal neg m (e - Z.of_nat fc))
        else None
    end.

(** [float(x)] *)
Definition py_float (x : pyval) : exc PyFloat.float :=
  match x with
  | PFloat f => Return f
  | PInt z =>
      match PyFloat.of_Z z with
      | S754_infinity _ => raise OverflowError "int too large to convert to float"
      | f => Return f
      end
  | PBool b => Return (PyFloat.of_Z (if b then 1 else 0))
  | PStr s =>
      match float_of_string s with
      | Some f => Return f
      | None => raise ValueError "could not convert string to float"
      end
  | PNone | PList _ | PDict _ =>
      raise TypeError "float() argument must be a string or a real number"
  end.

(** ** [json.loads] *)

Module Json.

Local Notation "c == d" := (Ascii.eqb c d%char) (at level 70, no associativity).

Definition quote : ascii := Numeral.chr 34.
Definition backslash : ascii := Numeral.chr 92.

Definition is_ws (c : ascii) : bool :=
  (Numeral.is_chr 32 c || Numeral.is_chr 9 c || Numeral.is_chr 10 c || Numeral.is_chr 13 c)%bool.

Fixpoint skip_ws (s : string) : string :=
  match s with
  | String c s' => if is_ws c then skip_ws s' else s
  | EmptyString => EmptyString
  end.

Definition hex_val (c : ascii) : option N :=
  let n := nat_of_ascii c in
  if PyStr.is_digit c then Some (N.of_nat (n - 48))
  else if (Nat.leb 97 n && Nat.leb n 102)%bool then Some (N.of_nat (n - 87))
  else if (Nat.leb 65 n && Nat.leb n 70)%bool then Some (N.of_nat (n - 55))
  else None.

Definition hex4 (a b c d : ascii) : option N :=
  match hex_val a, hex_val b, hex_val c, hex_val d with
  | Some x, Some y, Some z, Some w => Some (((x * 16 + y) * 16 + z) * 16 + w)%N
  | _, _, _, _ => None
  end.

(** The UTF-8 bytes of a code point below 65536, which is how a
    [\uXXXX] escape is kept in a byte string. *)
Definition utf8 (cp : N) (tail : string) : string :=
  let b (n : N) := ascii_of_N n in
  if (cp <? 128)%N then String (b cp) tail
  else if (cp <? 2048)%N then
    String (b (192 + cp / 64)%N) (String (b (128 + cp mod 64)%N) tail)
  else
    String (b (224 + cp / 4096)%N)
      (String (b (128 + (cp / 64) mod 64)%N) (String (b (128 + cp mod 64)%N) tail)).

Definition simple_escape (c : ascii) : option ascii :=
  if c == quote then Some quote
  else if c == backslash then Some backslash
  else if c == "/" then Some "/"%char
  else if c == "b" then Some (Numeral.chr 8)
  else if c == "f" then Some (Numeral.chr 12)
  else if c == "n" then Some (Numeral.chr 10)
  else if c == "r" then Some (Numeral.chr 13)
  else if c == "t" then Some (Numeral.chr 9)
  else None.

(** The contents of a string literal whose opening quote has been read,
    and what follows its closing quote (strict mode: no raw control
    characters). *)
Fixpoint scan_string (s : string) : option (string * string) :=
  match s with
  | EmptyString => None
  | String c s' =>
      if c == quote then Some (EmptyString, s')
      else if c == backslash then
        match s' with
        | String e s'' =>
            match simple_escape e with
            | Some ch =>
                match scan_string s'' with
                | Some (body, rest) => Some (String ch body, rest)
                | None => None
                end
            | None =>
                if e == "u" then
                  match s'' with
                  | String h1 (String h2 (String h3 (String h4 s4))) =>
                      match hex4 h1 h2 h3 h4, scan_string s4 with
                      | Some cp, Some (body, rest) => Some (utf8 cp body, rest)
                      | _, _ => None
                      end
                  | _ => None
                  end
                else None
            end
        | EmptyString => None
        end
      else if Nat.ltb (nat_of_ascii c) 32 then None
      else
        match scan_string s' with
        | Some (body, rest) => Some (String c body, rest)
        | None => None
        end
  end.

(** A number literal: an optional minus, an integer part without leading
    zeros, an optional fraction and an optional exponent.  It is an [int]
    without fraction and exponent, a [float] otherwise. *)
Definition scan_number (s : string) : option (pyval * string) :=
  let '(neg, s1) :=
    match s with
    | String c r => if c == "-" then (true, r) else (false, s)
    | EmptyString => (false, s)
    end in
  match s1 with
  | String c r =>
      if PyStr.is_digit c then
        let '(ip, _, s2) :=
          if c == "0" then (0%N, 1%nat, r) else Numeral.digits s1 0%N O in
        let '(m, fc, s3) :=
          match s2 with
          | String d r2 =>
              if d == "." then
                match Numeral.digits r2 ip O with
                | (_, O, _) => (ip, O, s2)
                | res => res
                end
              else (ip, O, s2)
          | EmptyString => (ip, O, s2)
          end in
        let '(e, s4) := Numeral.exponent Numeral.digits s3 in
        if (Nat.eqb fc 0 && Nat.eqb (String.length s3) (String.length s4))%bool
        then Some (PInt (if neg then - Z.of_N ip else Z.of_N ip), s4)
        else Some (PFloat (PyFloat.of_decimal neg m (e - Z.of_nat fc)), s4)
      else None
  | EmptyString => None
  end.

Definition drop (n : nat) (s : string) : string :=
  String.substring n (String.length s - n) s.

Definition keyword (kw : string) (v : pyval) (s : string) : option (pyval * string) :=
  if String.prefix kw s then Some (v, drop (String.length kw) s) else None.

Definition scan_atom (s : string) : option (pyval * string) :=
  match s with
  | String c r =>
      if c == quote then
        match scan_string r with
        | Some (str, rest) => Some (PStr str, rest)
        | None => None
        end
      else if c == "n" then keyword "null" PNone s
      else if c == "t" then keyword "true" (PBool true) s
      else if c == "f" then keyword "false" (PBool false) s
      else
        match scan_number s with
        | Some res => Some res
        | None =>
            if c == "N" then keyword "NaN" (PFloat S754_nan) s
            else if c == "I" then keyword "Infinity" (PFloat (S754_infinity false)) s
            else if c == "-" then keyword "-Infinity" (PFloat (S754_infinity true)) s
            else None
        end
  | EmptyString => None
  end.

(** One JSON value at the head of [s].  Every nested call has read at
    least one character, so [fuel] above twice the length of [s] is
    never exhausted ([JsonFuel.loads_fuel] below). *)
Fixpoint scan_value (fuel : nat) (s : string) : option (pyval * string) :=
  match fuel with
  | O => None
  | S fuel' =>
      match s with
      | String c r =>
          if c == "{" then
            match skip_ws r with
            | String c1 r1 =>
                if c1 == "}" then Some (PDict [], r1)
                else scan_members fuel' (String c1 r1) []
            | EmptyString => None
            end
          else if c == "[" then
            match skip_ws r with
            | String c1 r1 =>
                if c1 == "]" then Some (PList [], r1)
                else scan_elements fuel' (String c1 r1) []
            | EmptyString => None
            end
          else scan_atom s
      | EmptyString => None
      end
  end

with scan_elements (fuel : nat) (s : string) (acc : list pyval)
    : option (pyval * string) :=
  match fuel with
  | O => None
  | S fuel' =>
      match scan_value fuel' s with
      | Some (v, r) =>
          match skip_ws r with
          | String c r1 =>
              if c == "," then scan_elements fuel' (skip_ws r1) (acc ++ [v])
              else if c == "]" then Some (PList (acc ++ [v]), r1)
              else None
          | EmptyString => None
          end
      | None => None
      end
  end

with scan_members (fuel : nat) (s : string) (acc : pydict)
    : option (pyval * string) :=
  match fuel with
  | O => None
  | S fuel' =>
      match s with
      | String c r =>
          if c == quote then
            match scan_string r with
            | Some (k, r1) =>
                match skip_ws r1 with
                | String c2 r2 =>
                    if c2 == ":" then
                      match scan_value fuel' (skip_ws r2) with
                      | Some (v, r3) =>
                          match skip_ws r3 with
                          | String c4 r4 =>
                              if c4 == "," then
                                scan_members fuel' (skip_ws r4) (dict_set k v acc)
                              else if c4 == "}" then
                                Some (PDict (dict_set k v acc), r4)
                              else None
                          | EmptyString => None
                          end
                      | None => None
                      end
                    else None
                | EmptyString => None
                end
            | None => None
            end
          else None
      | EmptyString => None
      end
  end.

(** [json.loads(s)] *)
Definition loads (s : string) : exc pyval :=
  match scan_value (2 * String.length s + 2) (skip_ws s) with
  | Some (v, rest) =>
      match skip_ws rest with
      | EmptyString => Return v
      | _ => raise JSONDecodeError "Extra data"
      end
  | None => raise JSONDecodeError "Expecting value"
  end.

End Json.

(** Test inputs are written with apostrophes where the text has double
    quotes. *)
Fixpoint dq (s : string) : string :=
  match s with
  | EmptyString => EmptyString
  | String c s' =>
      String (if Ascii.eqb c "'"%char then Json.quote else c) (dq s')
  end.

(** ** Regular expressions *)

(** The fragment of [re] the parsers use: literal characters, the classes
    [\d], [\s], [.] and [[^\n]], concatenation, greedy [?] on a
    subexpression, greedy [*] and [+] on a single character or class, and
    one capturing group.  Matching is by backtracking, in the order in
    which [re] tries the alternatives, so the match found is the one [re]
    reports. *)
Module Re.

Inductive atom : Type :=
  | Chr (c : ascii)
  | Digit
  | Space
  | AnyChar
  | NotNewline.

Inductive regex : Type :=
  | Eps
  | Atom (a : atom)
  | Seq (r1 r2 : regex)
  | Opt (r : regex)
  | Star (a : atom)
  | Plus (a : atom)
  | Group (r : regex).

(** The literal text [s]. *)
Fixpoint text (s : string) : regex :=
  match s with
  | EmptyString => Eps
  | String c EmptyString => Atom (Chr c)
  | String c s' => Seq (Atom (Chr c)) (text s')
  end.

Fixpoint seq (rs : list regex) : regex :=
  match rs with
  | [] => Eps
  | [r] => r
  | r :: rs' => Seq r (seq rs')
  end.

Record flags : Type := { IGNORECASE : bool; DOTALL : bool }.

Section Matching.

Variable fl : flags.

Definition accepts (a : atom) (c : ascii) : bool :=
  match a with
  | Chr d =>
      if IGNORECASE fl then Ascii.eqb (PyStr.lower_char c) (PyStr.lower_char d)
      else Ascii.eqb c d
  | Digit => PyStr.is_digit c
  | Space => PyStr.is_space c
  | AnyChar => (DOTALL fl || negb (Numeral.is_chr 10 c))%bool
  | NotNewline => negb (Numeral.is_chr 10 c)
  end.

(** A continuation receives what is left of the subject and the text of
    the group, if the group has been closed. *)
Definition cont (R : Type) : Type := string -> option string -> option R.

(** Greedy repetition of one atom: the longest run first, then shorter
    ones. *)
Fixpoint star {R : Type} (a : atom) (s : string) (g : option string)
    (k : cont R) : option R :=
  match s with
  | String c s' =>
      if accepts a c then
        match star a s' g k with
        | Some res => Some res
        | None => k s g
        end
      else k s g
  | EmptyString => k s g
  end.

Fixpoint run {R : Type} (r : regex) (s : string) (g : option string)
    (k : cont R) : option R :=
  match r with
  | Eps => k s g
  | Atom a =>
      match s with
      | String c s' => if accepts a c then k s' g else None
      | EmptyString => None
      end
  | Seq r1 r2 => run r1 s g (fun s' g' => run r2 s' g' k)
  | Opt r1 =>
      match run r1 s g k with
      | Some res => Some res
      | None => k s g
      end
  | Star a => star a s g k
  | Plus a =>
      match s with
      | String c s' => if accepts a c then star a s' g k else None
      | EmptyString => None
      end
  | Group r1 => run r1 s g (fun s' _ => k s' (Some (PyStr.consumed s s')))
  end.

(** A match object: [group()] and [group(1)]. *)
Record match_obj : Type := { group0 : string; group1 : option string }.

(** [re.match]: a match at the start of [s]. *)
Definition match_at (r : regex) (s : string) : option match_obj :=
  run r s None (fun rest g => Some {| group0 := PyStr.consumed s rest; group1 := g |}).

(** [re.search]: the leftmost position at which [r] matches. *)
Fixpoint search_from (r : regex) (s : string) : option match_obj :=
  match match_at r s with
  | Some m => Some m
  | None =>
      match s with
      | String _ s' => search_from r s'
      | EmptyString => None
      end
  end.

End Matching.

Definition search (r : regex) (s : string) (fl : flags) : option match_obj :=
  search_from fl r s.

End Re.

(** ** [base.py] *)

Inductive AIProvider : Type :=
  | GEMINI_FLASH
  | GPT4_VISION
  | CLAUDE_VISION.

(** The value of an enumeration member ([AIProvider] is a [str] enum). *)
Definition provider_value (p : AIProvider) : string :=
  match p with
  | GEMINI_FLASH => "gemini-flash"
  | GPT4_VISION => "gpt4-vision"
  | CLAUDE_VISION => "claude-vision"
  end.

Definition AIProvider_eqb (p q : AIProvider) : bool :=
  match p, q with
  | GEMINI_FLASH, GEMINI_FLASH => true
  | GPT4_VISION, GPT4_VISION => true
  | CLAUDE_VISION, CLAUDE_VISION => true
  | _, _ => false
  end.

Record AIConfig : Type := {
  cfg_provider : AIProvider;
  cfg_model : string;
  cfg_api_key : string;
  cfg_temperature : PyFloat.float;
  cfg_max_tokens : Z;
  cfg_timeout : Z
}.

Record AIResponse : Type := {
  provider : AIProvider;
  model : string;
  content : string;
  confidence : PyFloat.float;
  tokens_used : Z;
  cost_usd : PyFloat.float;
  response_time_ms : Z;
  timestamp : PyFloat.float;
  metadata : option pydict;
  error : option string
}.

(** Keyword arguments the adapters look at. *)
Record Kwargs : Type := {
  kw_detail : option string;
  kw_temperature : option PyFloat.float;
  kw_max_tokens : option Z
}.

Definition no_kwargs : Kwargs :=
  {| kw_detail := None; kw_temperature := None; kw_max_tokens := None |}.

Definition kwargs_get {A : Type} (o : option A) (default : A) : A :=
  match o with Some a => a | None => default end.

(** A chat message, [{"role": ..., "content": ...}]. *)
Definition message : Type := list (string * string).

Fixpoint msg_lookup (k : string) (m : message) : option string :=
  match m with
  | [] => None
  | (k', v) :: m' => if String.eqb k k' then Some v else msg_lookup k m'
  end.

(** [msg[k]] *)
Definition msg_item (m : message) (k : string) : exc string :=
  match msg_lookup k m with
  | Some v => Return v
  | None => raise KeyError k
  end.

(** The abstract base class: the three operations every adapter offers,
    and its pricing function. *)
Class BaseAIService (S : Type) : Type := {
  config : S -> AIConfig;
  analyze_image : S -> string -> string -> Kwargs -> exc AIResponse;
  generate_text : S -> string -> option string -> Kwargs -> exc AIResponse;
  chat : S -> list message -> Kwargs -> exc AIResponse;
  calculate_cost : S -> Z -> Z -> PyFloat.float
}.

Definition uncertainty_phrases : list string :=
  [ "might be"; "could be"; "possibly"; "probably";
    "not sure"; "unclear"; "difficult to tell" ].

(** The loop of [assess_confidence]: 0.1 off for every phrase present. *)
Definition penalise (lower_response : string) (confidence : PyFloat.float)
    (phrase : string) : PyFloat.float :=
  if PyStr.contains phrase lower_response
  then PyFloat.sub confidence (PyFloat.lit 1 (-1))
  else confidence.

(** [BaseAIService.assess_confidence] *)
Definition assess_confidence (response : string) : PyFloat.float :=
  let confidence := PyFloat.lit 8 (-1) in
  let lower_response := PyStr.lower response in
  let confidence := fold_left (penalise lower_response) uncertainty_phrases confidence in
  let confidence :=
    if 200 <? PyStr.len response
    then PyFloat.add confidence (PyFloat.lit 5 (-2))
    else confidence in
  PyFloat.py_max (PyFloat.lit 0 0) (PyFloat.py_min (PyFloat.lit 1 0) confidence).

Record NutritionData : Type := {
  calories : PyFloat.float;
  protein_g : PyFloat.float;
  carbs_g : PyFloat.float;
  fat_g : PyFloat.float;
  fiber_g : option PyFloat.float;
  sugar_g : option PyFloat.float;
  sodium_mg : option PyFloat.float;
  ingredients : list string;
  portions : option (list (string * string));
  meal_type : option string;
  nd_confidence : PyFloat.float;
  notes : option string
}.

(** Field validation of the pydantic models: a value of another type
    than the annotated one is rejected with a [ValidationError]. *)
Definition validate_str (field : string) (v : pyval) : exc string :=
  match v with
  | PStr s => Return s
  | _ => raise ValidationError field
  end.

Definition validate_opt_str (field : string) (v : pyval) : exc (option string) :=
  match v with
  | PNone => Return None
  | PStr s => Return (Some s)
  | _ => raise ValidationError field
  end.

Fixpoint validate_strs (field : string) (l : list pyval) : exc (list string) :=
  match l with
  | [] => Return []
  | v :: l' =>
      s <- validate_str field v ;;
      ss <- validate_strs field l' ;;
      Return (s :: ss)
  end.

Definition validate_str_list (field : string) (v : pyval) : exc (list string) :=
  match v with
  | PList l => validate_strs field l
  | _ => raise ValidationError field
  end.

Fixpoint validate_str_items (field : string) (d : pydict)
    : exc (list (string * string)) :=
  match d with
  | [] => Return []
  | (k, v) :: d' =>
      s <- validate_str field v ;;
      ss <- validate_str_items field d' ;;
      Return ((k, s) :: ss)
  end.

Definition validate_opt_str_dict (field : string) (v : pyval)
    : exc (option (list (string * string))) :=
  match v with
  | PNone => Return None
  | PDict d => items <- validate_str_items field d ;; Return (Some items)
  | _ => raise ValidationError field
  end.

Definition opt_val {A : Type} (f : A -> pyval) (o : option A) : pyval :=
  match o with Some a => f a | None => PNone end.

(** [NutritionData.model_dump()] *)
Definition nutrition_dump (n : NutritionData) : pydict :=
  [ ("calories", PFloat (calories n));
    ("protein_g", PFloat (protein_g n));
    ("carbs_g", PFloat (carbs_g n));
    ("fat_g", PFloat (fat_g n));
    ("fiber_g", opt_val PFloat (fiber_g n));
    ("sugar_g", opt_val PFloat (sugar_g n));
    ("sodium_mg", opt_val PFloat (sodium_mg n));
    ("ingredients", PList (map PStr (ingredients n)));
    ("portions",
      opt_val (fun d => PDict (map (fun kv => (fst kv, PStr (snd kv))) d)) (portions n));
    ("meal_type", opt_val PStr (meal_type n));
    ("confidence", PFloat (nd_confidence n));
    ("notes", opt_val PStr (notes n)) ].

(** ** Adapters: what is shared *)

(** [a / b] on integers, [b > 0]: the nearest float to the quotient.
    Where that is an infinity Python raises OverflowError instead, so
    this is [a / b] for the quotients that fit a float. *)
Definition int_truediv (a : Z) (b : positive) : PyFloat.float :=
  match a with
  | Z0 => PyFloat.zero
  | Zpos p => PyFloat.of_ratio false p b
  | Zneg p => PyFloat.of_ratio true p b
  end.

(** [l[i]] for [i >= 0] *)
Definition list_item {A : Type} (l : list A) (i : nat) : exc A :=
  match nth_error l i with
  | Some a => Return a
  | None => raise IndexError "list index out of range"
  end.

(** [l[-1]] *)
Definition list_last {A : Type} (l : list A) : exc A :=
  match rev l with
  | a :: _ => Return a
  | [] => raise IndexError "list index out of range"
  end.

(** The envelope every [except Exception as e] clause of the adapters
    builds. *)
Definition error_response (cfg : AIConfig) (elapsed_ms : Z)
    (now : PyFloat.float) (e : exn) : AIResponse :=
  {| provider := cfg_provider cfg;
     model := cfg_model cfg;
     content := "";
     confidence := PyFloat.lit 0 0;
     tokens_used := 0;
     cost_usd := PyFloat.lit 0 0;
     response_time_ms := elapsed_ms;
     timestamp := now;
     metadata := None;
     error := Some (exn_str e) |}.

(** ** [gemini_service.py] *)

(** What the Gemini SDK hands back: [text] raises when the candidate
    carries no text, [usage_metadata] may be missing. *)
Record GeminiResponse : Type := {
  g_text : exc string;
  g_usage_metadata : option (Z * Z);
  g_finish_reason : option string
}.

(** The outside world of a Gemini adapter call: the HTTP fetch of the
    image, base64 decoding, the SDK calls, the time the call took in
    milliseconds and the clock reading at its end. *)
Record GeminiBackend : Type := {
  gb_requests_get : string -> exc string;
  gb_b64decode : string -> exc string;
  gb_generate_content :
    string -> option string -> PyFloat.float -> Z -> exc GeminiResponse;
  gb_send_message : list (string * string) -> string -> exc GeminiResponse;
  gb_elapsed_ms : Z;
  gb_time : PyFloat.float
}.

Record GeminiService : Type := {
  gemini_config : AIConfig;
  gemini_backend : GeminiBackend
}.

Module Gemini.

Definition INPUT_COST_PER_1M : PyFloat.float := PyFloat.lit 75 (-3).
Definition OUTPUT_COST_PER_1M : PyFloat.float := PyFloat.lit 30 (-2).
Definition IMAGE_COST_PER_1K : PyFloat.float := PyFloat.lit 25 (-4).

(** [GeminiService.__init__] *)
Definition init (api_key : string) (model_name : string)
    (backend : GeminiBackend) : GeminiService :=
  {| gemini_config :=
       {| cfg_provider := GEMINI_FLASH;
          cfg_model := model_name;
          cfg_api_key := api_key;
          cfg_temperature := PyFloat.lit 7 (-1);
          cfg_max_tokens := 2048;
          cfg_timeout := 30 |};
     gemini_backend := backend |}.

Definition default_model : string := "gemini-2.0-flash-exp".

(** [GeminiService.calculate_cost] *)
Definition calculate_cost (input_tokens output_tokens : Z) : PyFloat.float :=
  let input_cost := PyFloat.mul (int_truediv input_tokens 1000000) INPUT_COST_PER_1M in
  let output_cost := PyFloat.mul (int_truediv output_tokens 1000000) OUTPUT_COST_PER_1M in
  PyFloat.add input_cost output_cost.

(** Token counts: the SDK's when it reports them, a quarter of the text
    lengths otherwise. *)
Definition count_tokens (prompt : string) (response : GeminiResponse) : exc (Z * Z) :=
  match g_usage_metadata response with
  | Some (prompt_token_count, candidates_token_count) =>
      Return (prompt_token_count, candidates_token_count)
  | None =>
      txt <- g_text response ;;
      Return (PyStr.len prompt / 4, PyStr.len txt / 4)
  end.

(** The image of [analyze_image]: decoded from a data URL, fetched
    otherwise. *)
Definition image_data (self : GeminiService) (image_url : string) : exc string :=
  let be := gemini_backend self in
  if PyStr.startswith image_url "data:image" then
    encoded <- list_item (PyStr.split_on (Ascii.eqb ","%char) image_url) 1 ;;
    gb_b64decode be encoded
  else gb_requests_get be image_url.

(** [self.model.generate_content], with the generation configuration
    taken from the keyword arguments and the adapter's defaults *)
Definition generate_content (self : GeminiService) (kwargs : Kwargs)
    (prompt : string) (image : option string) : exc GeminiResponse :=
  let cfg := gemini_config self in
  let temperature := kwargs_get (kw_temperature kwargs) (cfg_temperature cfg) in
  let max_output_tokens := kwargs_get (kw_max_tokens kwargs) (cfg_max_tokens cfg) in
  gb_generate_content (gemini_backend self) prompt image temperature max_output_tokens.

Definition analyze_image_body (self : GeminiService) (image_url prompt : string)
    (kwargs : Kwargs) : exc AIResponse :=
  let cfg := gemini_config self in
  let be := gemini_backend self in
  image_bytes <- image_data self image_url ;;
  response <- generate_content self kwargs prompt (Some image_bytes) ;;
  tokens <- count_tokens prompt response ;;
  let '(input_tokens, output_tokens) := tokens in
  let total_tokens := input_tokens + output_tokens in
  let cost :=
    PyFloat.add (calculate_cost input_tokens output_tokens)
      (PyFloat.div IMAGE_COST_PER_1K (PyFloat.of_Z 1000)) in
  txt <- g_text response ;;
  let conf := assess_confidence txt in
  Return
    {| provider := cfg_provider cfg;
       model := cfg_model cfg;
       content := txt;
       confidence := conf;
       tokens_used := total_tokens;
       cost_usd := cost;
       response_time_ms := gb_elapsed_ms be;
       timestamp := gb_time be;
       metadata :=
         Some [ ("input_tokens", PInt input_tokens);
                ("output_tokens", PInt output_tokens);
                ("finish_reason", opt_val PStr (g_finish_reason response)) ];
       error := None |}.

(** [GeminiService.analyze_image] *)
Definition analyze_image (self : GeminiService) (image_url prompt : string)
    (kwargs : Kwargs) : exc AIResponse :=
  try_except (analyze_image_body self image_url prompt kwargs) is_Exception
    (fun e =>
       Return (error_response (gemini_config self)
                 (gb_elapsed_ms (gemini_backend self)) (gb_time (gemini_backend self)) e)).

(** The context, when there is one, a blank line and the prompt. *)
Definition full_prompt (prompt : string) (context : option string) : string :=
  match context with
  | Some c =>
      if String.eqb c "" then prompt
      else (c ++ String (Numeral.chr 10) (String (Numeral.chr 10) prompt))%string
  | None => prompt
  end.

Definition generate_text_body (self : GeminiService) (prompt : string)
    (context : option string) (kwargs : Kwargs) : exc AIResponse :=
  let cfg := gemini_config self in
  let be := gemini_backend self in
  let full_prompt := full_prompt prompt context in
  response <- generate_content self kwargs full_prompt None ;;
  tokens <- count_tokens full_prompt response ;;
  let '(input_tokens, output_tokens) := tokens in
  let total_tokens := input_tokens + output_tokens in
  let cost := calculate_cost input_tokens output_tokens in
  txt <- g_text response ;;
  let conf := assess_confidence txt in
  Return
    {| provider := cfg_provider cfg;
       model := cfg_model cfg;
       content := txt;
       confidence := conf;
       tokens_used := total_tokens;
       cost_usd := cost;
       response_time_ms := gb_elapsed_ms be;
       timestamp := gb_time be;
       metadata :=
         Some [ ("input_tokens", PInt input_tokens);
                ("output_tokens", PInt output_tokens) ];
       error := None |}.

(** [GeminiService.generate_text] *)
Definition generate_text (self : GeminiService) (prompt : string)
    (context : option string) (kwargs : Kwargs) : exc AIResponse :=
  try_except (generate_text_body self prompt context kwargs) is_Exception
    (fun e =>
       Return (error_response (gemini_config self)
                 (gb_elapsed_ms (gemini_backend self)) (gb_time (gemini_backend self)) e)).

(** The history loop of [chat]: every message but the last, with the
    role mapped to [user] or [model]. *)
Fixpoint chat_history (msgs : list message) : exc (list (string * string)) :=
  match msgs with
  | [] => Return []
  | msg :: rest =>
      r <- msg_item msg "role" ;;
      let role := if String.eqb r "user" then "user" else "model" in
      c <- msg_item msg "content" ;;
      h <- chat_history rest ;;
      Return ((role, c) :: h)
  end.

(** [sum(len(m["content"]) for m in messages)] *)
Fixpoint total_content_length (msgs : list message) : exc Z :=
  match msgs with
  | [] => Return 0
  | m :: rest =>
      c <- msg_item m "content" ;;
      n <- total_content_length rest ;;
      Return (PyStr.len c + n)
  end.

(** The chat session: the history is filled, then the last message is
    sent. *)
Definition send_last_message (self : GeminiService) (messages : list message)
    : exc GeminiResponse :=
  history <- chat_history (removelast messages) ;;
  last <- list_last messages ;;
  last_message <- msg_item last "content" ;;
  gb_send_message (gemini_backend self) history last_message.

Definition chat_body (self : GeminiService) (messages : list message)
    (kwargs : Kwargs) : exc AIResponse :=
  let cfg := gemini_config self in
  let be := gemini_backend self in
  response <- send_last_message self messages ;;
  total_prompt_length <- total_content_length messages ;;
  let input_tokens := total_prompt_length / 4 in
  txt <- g_text response ;;
  let output_tokens := PyStr.len txt / 4 in
  let total_tokens := input_tokens + output_tokens in
  let cost := calculate_cost input_tokens output_tokens in
  let conf := assess_confidence txt in
  Return
    {| provider := cfg_provider cfg;
       model := cfg_model cfg;
       content := txt;
       confidence := conf;
       tokens_used := total_tokens;
       cost_usd := cost;
       response_time_ms := gb_elapsed_ms be;
       timestamp := gb_time be;
       metadata := None;
       error := None |}.

(** [GeminiService.chat] *)
Definition chat (self : GeminiService) (messages : list message)
    (kwargs : Kwargs) : exc AIResponse :=
  try_except (chat_body self messages kwargs) is_Exception
    (fun e =>
       Return (error_response (gemini_config self)
                 (gb_elapsed_ms (gemini_backend self)) (gb_time (gemini_backend self)) e)).

End Gemini.

#[export] Instance GeminiService_BaseAIService : BaseAIService GeminiService := {
  config := gemini_config;
  analyze_image := Gemini.analyze_image;
  generate_text := Gemini.generate_text;
  chat := Gemini.chat;
  calculate_cost := fun _ => Gemini.calculate_cost
}.

(** ** [openai_service.py] *)

Record OpenAIChoice : Type := {
  ch_content : option string;
  ch_finish_reason : string
}.

Record OpenAIResponse : Type := {
  o_choices : list OpenAIChoice;
  o_prompt_tokens : Z;
  o_completion_tokens : Z;
  o_total_tokens : Z;
  o_model : string
}.

(** The arguments of [client.chat.completions.create]. *)
Record OpenAIRequest : Type := {
  rq_model : string;
  rq_messages : list pyval;
  rq_temperature : PyFloat.float;
  rq_max_tokens : Z
}.

Record OpenAIBackend : Type := {
  ob_create : OpenAIRequest -> exc OpenAIResponse;
  ob_elapsed_ms : Z;
  ob_time : PyFloat.float
}.

Record OpenAIVisionService : Type := {
  openai_config : AIConfig;
  openai_backend : OpenAIBackend
}.

Module OpenAI.

Definition INPUT_COST_PER_1M : PyFloat.float := PyFloat.lit 5 0.
Definition OUTPUT_COST_PER_1M : PyFloat.float := PyFloat.lit 15 0.
Definition IMAGE_COST_BASE : PyFloat.float := PyFloat.lit 1275 (-5).

(** [OpenAIVisionService.__init__] *)
Definition init (api_key : string) (model_name : string)
    (backend : OpenAIBackend) : OpenAIVisionService :=
  {| openai_config :=
       {| cfg_provider := GPT4_VISION;
          cfg_model := model_name;
          cfg_api_key := api_key;
          cfg_temperature := PyFloat.lit 7 (-1);
          cfg_max_tokens := 2048;
          cfg_timeout := 30 |};
     openai_backend := backend |}.

Definition default_model : string := "gpt-4o".

(** [OpenAIVisionService.calculate_cost] *)
Definition calculate_cost (input_tokens output_tokens : Z) : PyFloat.float :=
  let input_cost := PyFloat.mul (int_truediv input_tokens 1000000) INPUT_COST_PER_1M in
  let output_cost := PyFloat.mul (int_truediv output_tokens 1000000) OUTPUT_COST_PER_1M in
  PyFloat.add input_cost output_cost.

(** [assess_confidence(content)], where [content] may be [None]: the
    text, then known to be a [str], with its confidence. *)
Definition assess_content (c : option string) : exc (string * PyFloat.float) :=
  match c with
  | Some txt => Return (txt, assess_confidence txt)
  | None => raise AttributeError "'NoneType' object has no attribute 'lower'"
  end.

(** [self.client.chat.completions.create] *)
Definition create (self : OpenAIVisionService) (messages : list pyval)
    (kwargs : Kwargs) : exc OpenAIResponse :=
  let cfg := openai_config self in
  ob_create (openai_backend self)
    {| rq_model := cfg_model cfg;
       rq_messages := messages;
       rq_temperature := kwargs_get (kw_temperature kwargs) (cfg_temperature cfg);
       rq_max_tokens := kwargs_get (kw_max_tokens kwargs) (cfg_max_tokens cfg) |}.

Definition plain_message (role text : string) : pyval :=
  PDict [("role", PStr role); ("content", PStr text)].

(** The one user message of [analyze_image]: the prompt and the image. *)
Definition image_messages (image_url prompt : string) (kwargs : Kwargs) : list pyval :=
  [ PDict
      [ ("role", PStr "user");
        ("content",
          PList
            [ PDict [("type", PStr "text"); ("text", PStr prompt)];
              PDict
                [ ("type", PStr "image_url");
                  ("image_url",
                    PDict [ ("url", PStr image_url);
                            ("detail", PStr (kwargs_get (kw_detail kwargs) "high")) ]) ] ]) ] ].

Definition analyze_image_body (self : OpenAIVisionService) (image_url prompt : string)
    (kwargs : Kwargs) : exc AIResponse :=
  let cfg := openai_config self in
  let be := openai_backend self in
  let messages := image_messages image_url prompt kwargs in
  response <- create self messages kwargs ;;
  let input_tokens := o_prompt_tokens response in
  let output_tokens := o_completion_tokens response in
  let total_tokens := o_total_tokens response in
  let cost := calculate_cost input_tokens output_tokens in
  let cost := PyFloat.add cost IMAGE_COST_BASE in
  choice <- list_item (o_choices response) 0 ;;
  assessed <- assess_content (ch_content choice) ;;
  let '(txt, conf) := assessed in
  let conf := PyFloat.py_min (PyFloat.lit 1 0) (PyFloat.add conf (PyFloat.lit 5 (-2))) in
  Return
    {| provider := cfg_provider cfg;
       model := cfg_model cfg;
       content := txt;
       confidence := conf;
       tokens_used := total_tokens;
       cost_usd := cost;
       response_time_ms := ob_elapsed_ms be;
       timestamp := ob_time be;
       metadata :=
         Some [ ("input_tokens", PInt input_tokens);
                ("output_tokens", PInt output_tokens);
                ("finish_reason", PStr (ch_finish_reason choice));
                ("model", PStr (o_model response)) ];
       error := None |}.

(** [OpenAIVisionService.analyze_image] *)
Definition analyze_image (self : OpenAIVisionService) (image_url prompt : string)
    (kwargs : Kwargs) : exc AIResponse :=
  try_except (analyze_image_body self image_url prompt kwargs) is_Exception
    (fun e =>
       Return (error_response (openai_config self)
                 (ob_elapsed_ms (openai_backend self)) (ob_time (openai_backend self)) e)).

(** What [generate_text] and [chat] do with the completion. *)
Definition text_response (self : OpenAIVisionService) (response : OpenAIResponse)
    (with_finish_reason : bool) : exc AIResponse :=
  let cfg := openai_config self in
  let be := openai_backend self in
  let input_tokens := o_prompt_tokens response in
  let output_tokens := o_completion_tokens response in
  let total_tokens := o_total_tokens response in
  let cost := calculate_cost input_tokens output_tokens in
  choice <- list_item (o_choices response) 0 ;;
  assessed <- assess_content (ch_content choice) ;;
  let '(txt, conf) := assessed in
  let conf := PyFloat.add conf (PyFloat.lit 5 (-2)) in
  Return
    {| provider := cfg_provider cfg;
       model := cfg_model cfg;
       content := txt;
       confidence := conf;
       tokens_used := total_tokens;
       cost_usd := cost;
       response_time_ms := ob_elapsed_ms be;
       timestamp := ob_time be;
       metadata :=
         Some (("input_tokens", PInt input_tokens)
               :: ("output_tokens", PInt output_tokens)
               :: (if with_finish_reason
                   then [("finish_reason", PStr (ch_finish_reason choice))]
                   else []));
       error := None |}.

(** The messages of [generate_text]: the context as system message,
    when there is one, and the prompt. *)
Definition text_messages (prompt : string) (context : option string) : list pyval :=
  let system :=
    match context with
    | Some c => if String.eqb c "" then [] else [plain_message "system" c]
    | None => []
    end in
  (system ++ [plain_message "user" prompt])%list.

Definition generate_text_body (self : OpenAIVisionService) (prompt : string)
    (context : option string) (kwargs : Kwargs) : exc AIResponse :=
  let messages := text_messages prompt context in
  response <- create self messages kwargs ;;
  text_response self response true.

(** [OpenAIVisionService.generate_text] *)
Definition generate_text (self : OpenAIVisionService) (prompt : string)
    (context : option string) (kwargs : Kwargs) : exc AIResponse :=
  try_except (generate_text_body self prompt context kwargs) is_Exception
    (fun e =>
       Return (error_response (openai_config self)
                 (ob_elapsed_ms (openai_backend self)) (ob_time (openai_backend self)) e)).

Definition message_value (m : message) : pyval :=
  PDict (map (fun kv => (fst kv, PStr (snd kv))) m).

Definition chat_body (self : OpenAIVisionService) (messages : list message)
    (kwargs : Kwargs) : exc AIResponse :=
  response <- create self (map message_value messages) kwargs ;;
  text_response self response false.

(** [OpenAIVisionService.chat] *)
Definition chat (self : OpenAIVisionService) (messages : list message)
    (kwargs : Kwargs) : exc AIResponse :=
  try_except (chat_body self messages kwargs) is_Exception
    (fun e =>
       Return (error_response (openai_config self)
                 (ob_elapsed_ms (openai_backend self)) (ob_time (openai_backend self)) e)).

End OpenAI.

#[export] Instance OpenAIVisionService_BaseAIService
  : BaseAIService OpenAIVisionService := {
  config := openai_config;
  analyze_image := OpenAI.analyze_image;
  generate_text := OpenAI.generate_text;
  chat := OpenAI.chat;
  calculate_cost := fun _ => OpenAI.calculate_cost
}.

(** ** Calls to the providers *)

(** A capability service awaits its adapters one after the other.  The
    calls it issues are recorded in order: which adapter was asked
    ([GEMINI_FLASH] for [self.gemini], [GPT4_VISION] for [self.gpt4]),
    which operation, and the image, prompt or message it was given. *)
Inductive operation : Type := AnalyzeImage | GenerateText | Chat.

Record call : Type := {
  call_to : AIProvider;
  call_op : operation;
  call_arg : string
}.

Definition io (A : Type) : Type := list call -> exc A * list call.

Definition io_ret {A : Type} (a : A) : io A := fun log => (Return a, log).

Definition io_bind {A B : Type} (m : io A) (k : A -> io B) : io B :=
  fun log =>
    match m log with
    | (Return a, log') => k a log'
    | (Raise e, log') => (Raise e, log')
    end.

Notation "x <- 'await' m ;; k" := (io_bind m (fun x => k))
  (at level 61, m at next level, right associativity).

(** A computation that calls no provider. *)
Definition io_lift {A : Type} (m : exc A) : io A := fun log => (m, log).

(** Awaiting an adapter operation: the call is recorded, its outcome is
    the adapter's. *)
Definition invoke (to : AIProvider) (op : operation) (arg : string)
    (outcome : exc AIResponse) : io AIResponse :=
  fun log => (outcome, (log ++ [{| call_to := to; call_op := op; call_arg := arg |}])%list).

(** Running a request from an empty record of calls. *)
Definition outcome {A : Type} (m : io A) : exc A := fst (m []).
Definition calls {A : Type} (m : io A) : list call := snd (m []).

(** The [ai_metadata] dictionaries are built from these entries. *)
Definition md_provider (r : AIResponse) : string * pyval :=
  ("provider", PStr (provider_value (provider r))).
Definition md_model (r : AIResponse) : string * pyval := ("model", PStr (model r)).
Definition md_confidence (r : AIResponse) : string * pyval :=
  ("confidence", PFloat (confidence r)).
Definition md_cost_usd (r : AIResponse) : string * pyval :=
  ("cost_usd", PFloat (cost_usd r)).
Definition md_response_time_ms (r : AIResponse) : string * pyval :=
  ("response_time_ms", PInt (response_time_ms r)).
Definition md_tokens_used (r : AIResponse) : string * pyval :=
  ("tokens_used", PInt (tokens_used r)).
Definition md_error (r : AIResponse) : string * pyval :=
  ("error", opt_val PStr (error r)).

(** ** [meal_analyzer.py] *)

Section MealAnalyzer.

Context {G O : Type} {gemini_service : BaseAIService G} {gpt4_service : BaseAIService O}.

Record MealAnalyzer : Type := {
  gemini : G;
  gpt4 : O;
  default_provider : AIProvider
}.

Definition CONFIDENCE_THRESHOLD : PyFloat.float := PyFloat.lit 7 (-1).

(** [MealAnalyzer._get_analysis_prompt] *)
Definition _get_analysis_prompt : string := dq
"Analyze this meal photo and provide detailed nutrition information.

Your response MUST be in valid JSON format following this structure:

{
  'meal_name': 'Brief description of the meal',
  'ingredients': ['ingredient1', 'ingredient2', ...],
  'portions': {
    'ingredient1': 'estimated amount (e.g., 150g, 1 cup)',
    'ingredient2': 'estimated amount'
  },
  'nutrition': {
    'calories': 450,
    'protein_g': 25.5,
    'carbs_g': 45.0,
    'fat_g': 15.0,
    'fiber_g': 5.0,
    'sugar_g': 8.0,
    'sodium_mg': 650
  },
  'meal_type': 'breakfast|lunch|dinner|snack',
  'confidence_notes': 'Any uncertainties or assumptions made'
}

Instructions:
1. Identify ALL visible food items
2. Estimate portion sizes based on typical serving sizes
3. Calculate total nutrition for the ENTIRE meal
4. Be as accurate as possible with nutritional values
5. Include notes about any uncertainties
6. If you cannot clearly identify something, mention it in confidence_notes

Return ONLY valid JSON, no additional text before or after.".

(** [MealAnalyzer._select_provider] *)
Definition _select_provider (user_tier : string)
    (force_provider : option AIProvider) : AIProvider :=
  match force_provider with
  | Some forced => forced
  | None =>
      if String.eqb user_tier "premium" then GPT4_VISION
      else GEMINI_FLASH
  end.

(** [MealAnalyzer._analyze_with_gemini] *)
Definition _analyze_with_gemini (self : MealAnalyzer) (image_url : string)
    : io AIResponse :=
  let prompt := _get_analysis_prompt in
  invoke GEMINI_FLASH AnalyzeImage image_url
    (analyze_image (gemini self) image_url prompt no_kwargs).

(** [MealAnalyzer._analyze_with_gpt4] *)
Definition _analyze_with_gpt4 (self : MealAnalyzer) (image_url : string)
    : io AIResponse :=
  let prompt := _get_analysis_prompt in
  invoke GPT4_VISION AnalyzeImage image_url
    (analyze_image (gpt4 self) image_url prompt
       {| kw_detail := Some "high"; kw_temperature := None; kw_max_tokens := None |}).

(** The pattern that finds a JSON object in the response: an opening
    brace, anything, a closing brace. *)
Definition json_object_re : Re.regex :=
  Re.seq [Re.text "{"; Re.Star Re.AnyChar; Re.text "}"].

Definition dotall : Re.flags := {| Re.IGNORECASE := false; Re.DOTALL := true |}.
Definition ignorecase : Re.flags := {| Re.IGNORECASE := true; Re.DOTALL := false |}.

(** [float(raw.get(k, 0)) if raw.get(k) else None] *)
Definition optional_float (raw : pyval) (k : string) : exc (option PyFloat.float) :=
  present <- py_get raw k PNone ;;
  if py_truth present then
    v <- py_get raw k (PInt 0) ;;
    f <- py_float v ;;
    Return (Some f)
  else Return None.

(** [float(raw.get(k, 0))] *)
Definition required_float (raw : pyval) (k : string) : exc PyFloat.float :=
  v <- py_get raw k (PInt 0) ;;
  py_float v.

(** The number patterns of the fallback parser: a label, an optional
    colon, blanks, then digits with an optional fraction as group 1,
    and for the gram values an optional [g]. *)
Definition number_group : Re.regex :=
  Re.Group (Re.seq [Re.Plus Re.Digit; Re.Opt (Re.text "."); Re.Star Re.Digit]).

Definition calories_re : Re.regex :=
  Re.seq [Re.text "calorie"; Re.Opt (Re.text "s"); Re.Opt (Re.text ":");
          Re.Star Re.Space; number_group].

Definition grams_re (label : Re.regex) : Re.regex :=
  Re.seq [label; Re.Opt (Re.text ":"); Re.Star Re.Space; number_group;
          Re.Opt (Re.text "g")].

Definition protein_re : Re.regex := grams_re (Re.text "protein").
Definition carbs_re : Re.regex :=
  grams_re (Re.seq [Re.text "carb"; Re.Opt (Re.text "ohydrate"); Re.Opt (Re.text "s")]).
Definition fat_re : Re.regex := grams_re (Re.text "fat").
Definition fiber_re : Re.regex := grams_re (Re.text "fiber").

Definition ingredients_re : Re.regex :=
  Re.seq [Re.text "ingredient"; Re.Opt (Re.text "s"); Re.Opt (Re.text ":");
          Re.Star Re.Space; Re.Group (Re.Plus Re.NotNewline)].

(** [extract_number], the local function of [_parse_natural_language],
    with its default of 0.0 *)
Definition extract_number (text : string) (pattern : Re.regex) : PyFloat.float :=
  let default := PyFloat.lit 0 0 in
  match Re.search pattern text ignorecase with
  | Some m =>
      match Re.group1 m with
      | Some g =>
          match float_of_string g with
          | Some f => f
          | None => default
          end
      | None => default
      end
  | None => default
  end.

Definition is_comma_or_semicolon (c : ascii) : bool :=
  (Ascii.eqb c ","%char || Ascii.eqb c ";"%char)%bool.

(** [MealAnalyzer._parse_natural_language] *)
Definition _parse_natural_language (text : string) : NutritionData :=
  let calories := extract_number text calories_re in
  let protein := extract_number text protein_re in
  let carbs := extract_number text carbs_re in
  let fat := extract_number text fat_re in
  let fiber := extract_number text fiber_re in
  let ingredients :=
    match Re.search ingredients_re text ignorecase with
    | Some m =>
        match Re.group1 m with
        | Some ingredients_text =>
            filter (fun i => negb (String.eqb i ""))
              (map PyStr.strip (PyStr.split_on is_comma_or_semicolon ingredients_text))
        | None => []
        end
    | None => []
    end in
  {| calories := calories;
     protein_g := protein;
     carbs_g := carbs;
     fat_g := fat;
     fiber_g := if PyFloat.ltb (PyFloat.lit 0 0) fiber then Some fiber else None;
     sugar_g := None;
     sodium_mg := None;
     ingredients := ingredients;
     portions := None;
     meal_type := None;
     nd_confidence := PyFloat.lit 6 (-1);
     notes := Some "Parsed from natural language response (fallback mode)" |}.

(** The [try] block of [_parse_nutrition] *)
Definition _parse_nutrition_json (ai_response : string) : exc NutritionData :=
  data <-
    match Re.search json_object_re ai_response dotall with
    | Some json_match => Json.loads (Re.group0 json_match)
    | None => Json.loads ai_response
    end ;;
  nutrition_raw <- py_get data "nutrition" (PDict []) ;;
  calories <- required_float nutrition_raw "calories" ;;
  protein_g <- required_float nutrition_raw "protein_g" ;;
  carbs_g <- required_float nutrition_raw "carbs_g" ;;
  fat_g <- required_float nutrition_raw "fat_g" ;;
  fiber_g <- optional_float nutrition_raw "fiber_g" ;;
  sugar_g <- optional_float nutrition_raw "sugar_g" ;;
  sodium_mg <- optional_float nutrition_raw "sodium_mg" ;;
  ingredients_v <- py_get data "ingredients" (PList []) ;;
  portions_v <- py_get data "portions" (PDict []) ;;
  meal_type_v <- py_get data "meal_type" PNone ;;
  notes_v <- py_get data "confidence_notes" (PStr "") ;;
  ingredients <- validate_str_list "ingredients" ingredients_v ;;
  portions <- validate_opt_str_dict "portions" portions_v ;;
  meal_type <- validate_opt_str "meal_type" meal_type_v ;;
  notes <- validate_opt_str "notes" notes_v ;;
  Return
    {| calories := calories;
       protein_g := protein_g;
       carbs_g := carbs_g;
       fat_g := fat_g;
       fiber_g := fiber_g;
       sugar_g := sugar_g;
       sodium_mg := sodium_mg;
       ingredients := ingredients;
       portions := portions;
       meal_type := meal_type;
       nd_confidence := PyFloat.lit 8 (-1);
       notes := notes |}.

(** [except (json.JSONDecodeError, KeyError, ValueError)] *)
Definition parse_errors (e : exn) : bool := (is_ValueError e || is_KeyError e)%bool.

(** [MealAnalyzer._parse_nutrition] *)
Definition _parse_nutrition (ai_response : string) : exc NutritionData :=
  try_except (_parse_nutrition_json ai_response) parse_errors
    (fun _ => Return (_parse_natural_language ai_response)).

(** The response dictionary of [analyze_meal] for the envelope [result]
    and the parsed [nutrition]. *)
Definition meal_response (result : AIResponse) (nutrition : NutritionData)
    (now : string) : pydict :=
  [ ("nutrition", PDict (nutrition_dump nutrition));
    ("ai_metadata",
      PDict [ md_provider result; md_model result; md_confidence result;
              md_cost_usd result; md_response_time_ms result;
              md_tokens_used result; md_error result ]);
    ("analyzed_at", PStr now) ].

(** The provider calls of [analyze_meal], up to the envelope it keeps. *)
Definition analyze_meal_result (self : MealAnalyzer) (image_url user_tier : string)
    (force_provider : option AIProvider) : io AIResponse :=
  let provider := _select_provider user_tier force_provider in
  if AIProvider_eqb provider GEMINI_FLASH then
    result <- await _analyze_with_gemini self image_url ;;
    if (PyFloat.ltb (confidence result) CONFIDENCE_THRESHOLD
        && String.eqb user_tier "premium")%bool
    then _analyze_with_gpt4 self image_url
    else io_ret result
  else _analyze_with_gpt4 self image_url.

(** [MealAnalyzer.analyze_meal]; [now] is [datetime.now().isoformat()]. *)
Definition analyze_meal (self : MealAnalyzer) (image_url user_tier : string)
    (force_provider : option AIProvider) (now : string) : io pydict :=
  result <- await analyze_meal_result self image_url user_tier force_provider ;;
  nutrition <- await io_lift (_parse_nutrition (content result)) ;;
  io_ret (meal_response result nutrition now).

Definition quick_prompt : string := dq
"Analyze this meal and provide a quick estimate:

Return JSON format:
{
  'calories': <estimated calories>,
  'description': 'brief meal description'
}".

(** The [try] block of [quick_calorie_estimate] *)
Definition quick_estimate_json (result : AIResponse) : exc pydict :=
  data <- Json.loads (content result) ;;
  calories <- py_get data "calories" (PInt 0) ;;
  description <- py_get data "description" (PStr "Unknown meal") ;;
  Return
    [ ("calories", calories);
      ("description", description);
      md_cost_usd result;
      md_response_time_ms result ].

(** [MealAnalyzer.quick_calorie_estimate] *)
Definition quick_calorie_estimate (self : MealAnalyzer) (image_url : string)
    : io pydict :=
  let prompt := quick_prompt in
  result <- await invoke GEMINI_FLASH AnalyzeImage image_url
                    (analyze_image (gemini self) image_url prompt no_kwargs) ;;
  io_lift
    (try_except (quick_estimate_json result) is_Exception
       (fun _ =>
          Return [ ("calories", PInt 0);
                   ("description", PStr "Could not analyze");
                   md_error result ])).

End MealAnalyzer.

Arguments MealAnalyzer G O : clear implicits.

(** ** More builtins: [int], [str.join] *)

(** The integer part of a finite float. *)
Definition float_trunc (f : PyFloat.float) : option Z :=
  match f with
  | S754_zero _ => Some 0
  | S754_finite s m e =>
      let a := if 0 <=? e then Zpos m * 2 ^ e else Zpos m / 2 ^ (- e) in
      Some (if s then - a else a)
  | S754_infinity _ | S754_nan => None
  end.

Definition int_of_string (s : string) : option Z :=
  let '(neg, s1) := Numeral.sign (PyStr.strip s) in
  let '(v, cnt, rest) := Numeral.digits_us s1 0%N O in
  match cnt with
  | O => None
  | _ =>
      if String.eqb rest "" then Some (if neg then - Z.of_N v else Z.of_N v)
      else None
  end.

(** [int(x)] *)
Definition py_int (x : pyval) : exc Z :=
  match x with
  | PInt z => Return z
  | PBool b => Return (if b then 1 else 0)
  | PFloat f =>
      match float_trunc f with
      | Some z => Return z
      | None =>
          match f with
          | S754_nan => raise ValueError "cannot convert float NaN to integer"
          | _ => raise OverflowError "cannot convert float infinity to integer"
          end
      end
  | PStr s =>
      match int_of_string s with
      | Some z => Return z
      | None => raise ValueError "invalid literal for int() with base 10"
      end
  | PNone | PList _ | PDict _ =>
      raise TypeError "int() argument must be a string or a real number"
  end.

(** [sep.join(l)] on a list of strings *)
Fixpoint join (sep : string) (l : list string) : string :=
  match l with
  | [] => ""
  | [s] => s
  | s :: l' => (s ++ sep ++ join sep l')%string
  end.

Fixpoint chars (s : string) : list string :=
  match s with
  | EmptyString => []
  | String c s' => String c EmptyString :: chars s'
  end.

(** [sep.join(x)] on any value: a list is joined, a string is iterated
    by character, a dictionary by key; an item that is no string, or a
    value that cannot be iterated, is a [TypeError]. *)
Definition py_join (sep : string) (x : pyval) : exc string :=
  match x with
  | PList l =>
      match validate_strs "" l with
      | Return ss => Return (join sep ss)
      | Raise _ => raise TypeError "sequence item: expected str instance"
      end
  | PStr s => Return (join sep (chars s))
  | PDict d => Return (join sep (dict_keys d))
  | _ => raise TypeError "can only join an iterable"
  end.

(** [d[k]] on a dictionary *)
Definition dict_item (d : pydict) (k : string) : exc pyval :=
  match dict_lookup k d with
  | Some v => Return v
  | None => raise KeyError k
  end.

Definition nl : string := String (Numeral.chr 10) EmptyString.

(** ** [recipe_generator.py] *)

Record RecipeData : Type := {
  rc_name : string;
  rc_description : string;
  rc_ingredients : list string;
  rc_instructions : list string;
  rc_prep_time_min : Z;
  rc_cook_time_min : Z;
  rc_servings : Z;
  rc_difficulty : string;
  rc_nutrition : NutritionData;
  rc_tags : list string;
  rc_cuisine : option string;
  rc_dietary_info : list string
}.

(** [RecipeData.model_dump()] *)
Definition recipe_dump (r : RecipeData) : pydict :=
  [ ("name", PStr (rc_name r));
    ("description", PStr (rc_description r));
    ("ingredients", PList (map PStr (rc_ingredients r)));
    ("instructions", PList (map PStr (rc_instructions r)));
    ("prep_time_min", PInt (rc_prep_time_min r));
    ("cook_time_min", PInt (rc_cook_time_min r));
    ("servings", PInt (rc_servings r));
    ("difficulty", PStr (rc_difficulty r));
    ("nutrition", PDict (nutrition_dump (rc_nutrition r)));
    ("tags", PList (map PStr (rc_tags r)));
    ("cuisine", opt_val PStr (rc_cuisine r));
    ("dietary_info", PList (map PStr (rc_dietary_info r))) ].

Section RecipeGenerator.

Context {G O : Type} {gemini_service : BaseAIService G} {gpt4_service : BaseAIService O}.

(** The builtin [str] on the values that are formatted into prompts. *)
Variable py_str : pyval -> string.

Record RecipeGenerator : Type := {
  rg_gemini : G;
  rg_gpt4 : O
}.

Definition recipe_template : string := dq
"
Return a complete recipe in JSON format:

{
  'name': 'Recipe name',
  'description': 'Appetizing description (2-3 sentences)',
  'ingredients': [
    '1 cup ingredient 1',
    '2 tablespoons ingredient 2',
    ...
  ],
  'instructions': [
    'Step 1: Detailed instruction',
    'Step 2: Detailed instruction',
    ...
  ],
  'prep_time_min': 15,
  'cook_time_min': 30,
  'servings': 4,
  'difficulty': 'easy|medium|hard',
  'nutrition_per_serving': {
    'calories': 350,
    'protein_g': 25,
    'carbs_g': 40,
    'fat_g': 10,
    'fiber_g': 5,
    'sugar_g': 8,
    'sodium_mg': 500
  },
  'tags': ['quick', 'healthy', 'family-friendly'],
  'cuisine': 'Italian',
  'dietary_info': ['vegetarian', 'gluten-free']
}

Make it delicious, practical, and aligned with the requirements!".

(** One optional requirement line of the prompt: present when the
    value is, and is not empty. *)
Definition requirement {A : Type} (label : string) (v : option A)
    (truthy : A -> bool) (show : A -> string) : string :=
  match v with
  | Some a =>
      if truthy a then (label ++ show a ++ nl ++ nl)%string else ""
  | None => ""
  end.

Definition nonempty_list (l : list string) : bool :=
  match l with [] => false | _ => true end.

Definition nonempty_str (s : string) : bool := negb (String.eqb s "").

(** [RecipeGenerator._build_recipe_prompt] *)
Definition _build_recipe_prompt (ingredients dietary_restrictions health_goals
    : option (list string)) (cuisine : option string) (max_calories : option Z)
    (meal_type : option string) : string :=
  ("Create a detailed, delicious recipe with the following requirements:" ++ nl ++ nl
   ++ requirement "**Must include these ingredients:** " ingredients nonempty_list (join ", ")
   ++ requirement "**Dietary restrictions:** " dietary_restrictions nonempty_list (join ", ")
   ++ requirement "**Health goals:** " health_goals nonempty_list (join ", ")
   ++ requirement "**Cuisine type:** " cuisine nonempty_str (fun c => c)
   ++ requirement "**Max calories per serving:** " max_calories
        (fun z => negb (Z.eqb z 0)) (fun z => py_str (PInt z))
   ++ requirement "**Meal type:** " meal_type nonempty_str (fun m => m)
   ++ recipe_template)%string.

(** The recipe [_parse_recipe] returns when anything goes wrong. *)
Definition error_recipe (e : exn) : RecipeData :=
  {| rc_name := "Recipe Generation Error";
     rc_description := ("Could not parse recipe: " ++ exn_str e)%string;
     rc_ingredients := [];
     rc_instructions := [];
     rc_prep_time_min := 0;
     rc_cook_time_min := 0;
     rc_servings := 1;
     rc_difficulty := "medium";
     rc_nutrition :=
       {| calories := PyFloat.of_Z 0;
          protein_g := PyFloat.of_Z 0;
          carbs_g := PyFloat.of_Z 0;
          fat_g := PyFloat.of_Z 0;
          fiber_g := None;
          sugar_g := None;
          sodium_mg := None;
          ingredients := [];
          portions := None;
          meal_type := None;
          nd_confidence := PyFloat.lit 8 (-1);
          notes := None |};
     rc_tags := [];
     rc_cuisine := None;
     rc_dietary_info := [] |}.

(** The [try] block of [_parse_recipe] *)
Definition _parse_recipe_json (ai_response : string) : exc RecipeData :=
  data <-
    match Re.search json_object_re ai_response dotall with
    | Some json_match => Json.loads (Re.group0 json_match)
    | None => Json.loads ai_response
    end ;;
  nutrition_raw <- py_get data "nutrition_per_serving" (PDict []) ;;
  calories <- required_float nutrition_raw "calories" ;;
  protein_g <- required_float nutrition_raw "protein_g" ;;
  carbs_g <- required_float nutrition_raw "carbs_g" ;;
  fat_g <- required_float nutrition_raw "fat_g" ;;
  fiber_g <- optional_float nutrition_raw "fiber_g" ;;
  sugar_g <- optional_float nutrition_raw "sugar_g" ;;
  sodium_mg <- optional_float nutrition_raw "sodium_mg" ;;
  let nutrition :=
    {| calories := calories;
       protein_g := protein_g;
       carbs_g := carbs_g;
       fat_g := fat_g;
       fiber_g := fiber_g;
       sugar_g := sugar_g;
       sodium_mg := sodium_mg;
       ingredients := [];
       portions := None;
       meal_type := None;
       nd_confidence := PyFloat.lit 8 (-1);
       notes := None |} in
  name_v <- py_get data "name" (PStr "Untitled Recipe") ;;
  description_v <- py_get data "description" (PStr "") ;;
  ingredients_v <- py_get data "ingredients" (PList []) ;;
  instructions_v <- py_get data "instructions" (PList []) ;;
  prep_v <- py_get data "prep_time_min" (PInt 0) ;;
  prep_time_min <- py_int prep_v ;;
  cook_v <- py_get data "cook_time_min" (PInt 0) ;;
  cook_time_min <- py_int cook_v ;;
  servings_v <- py_get data "servings" (PInt 1) ;;
  servings <- py_int servings_v ;;
  difficulty_v <- py_get data "difficulty" (PStr "medium") ;;
  tags_v <- py_get data "tags" (PList []) ;;
  cuisine_v <- py_get data "cuisine" PNone ;;
  dietary_v <- py_get data "dietary_info" (PList []) ;;
  name <- validate_str "name" name_v ;;
  description <- validate_str "description" description_v ;;
  ingredients <- validate_str_list "ingredients" ingredients_v ;;
  instructions <- validate_str_list "instructions" instructions_v ;;
  difficulty <- validate_str "difficulty" difficulty_v ;;
  tags <- validate_str_list "tags" tags_v ;;
  cuisine <- validate_opt_str "cuisine" cuisine_v ;;
  dietary_info <- validate_str_list "dietary_info" dietary_v ;;
  Return
    {| rc_name := name;
       rc_description := description;
       rc_ingredients := ingredients;
       rc_instructions := instructions;
       rc_prep_time_min := prep_time_min;
       rc_cook_time_min := cook_time_min;
       rc_servings := servings;
       rc_difficulty := difficulty;
       rc_nutrition := nutrition;
       rc_tags := tags;
       rc_cuisine := cuisine;
       rc_dietary_info := dietary_info |}.

(** [RecipeGenerator._parse_recipe], whose [except Exception] catches
    whatever the block raises *)
Definition _parse_recipe (ai_response : string) : RecipeData :=
  match _parse_recipe_json ai_response with
  | Return r => r
  | Raise e => error_recipe e
  end.

(** [RecipeGenerator.generate_recipe]; [now] is
    [datetime.now().isoformat()]. *)
Definition generate_recipe (self : RecipeGenerator)
    (ingredients dietary_restrictions health_goals : option (list string))
    (cuisine : option string) (max_calories : option Z)
    (meal_type : option string) (use_gpt4 : bool) (now : string) : io pydict :=
  let prompt :=
    _build_recipe_prompt ingredients dietary_restrictions health_goals
      cuisine max_calories meal_type in
  result <- await
    (if use_gpt4
     then invoke GPT4_VISION GenerateText prompt
            (generate_text (rg_gpt4 self) prompt None no_kwargs)
     else invoke GEMINI_FLASH GenerateText prompt
            (generate_text (rg_gemini self) prompt None no_kwargs)) ;;
  let recipe := _parse_recipe (content result) in
  io_ret
    [ ("recipe", PDict (recipe_dump recipe));
      ("ai_metadata",
        PDict [ md_provider result; md_model result; md_confidence result;
                md_cost_usd result; md_response_time_ms result ]);
      ("generated_at", PStr now) ].

Definition photo_template : string := dq
"Return JSON format:
{
  'name': 'Recipe name',
  'description': 'Brief description',
  'ingredients': ['ingredient 1 with amount', 'ingredient 2 with amount', ...],
  'instructions': ['Step 1', 'Step 2', ...],
  'prep_time_min': 15,
  'cook_time_min': 30,
  'servings': 4,
  'difficulty': 'easy|medium|hard',
  'nutrition_per_serving': {
    'calories': 350,
    'protein_g': 25,
    'carbs_g': 40,
    'fat_g': 10,
    'fiber_g': 5
  },
  'tags': ['quick', 'healthy', ...],
  'cuisine': 'Italian',
  'dietary_info': ['vegetarian', ...]
}".

(** [RecipeGenerator.generate_from_photo] *)
Definition generate_from_photo (self : RecipeGenerator) (image_url preference : string)
    : io pydict :=
  let extra_instruction :=
    if String.eqb preference "healthier" then
      "Create a healthier version with fewer calories, less fat, and more vegetables."
    else if String.eqb preference "different" then
      "Create a different recipe inspired by the flavors and ingredients in this dish."
    else
      "Create a recipe that recreates this dish as accurately as possible." in
  let prompt :=
    ("Analyze this meal photo and create a detailed recipe." ++ nl ++ nl
     ++ extra_instruction ++ nl ++ nl ++ photo_template)%string in
  result <- await invoke GPT4_VISION AnalyzeImage image_url
                    (analyze_image (rg_gpt4 self) image_url prompt
                       {| kw_detail := Some "high"; kw_temperature := None;
                          kw_max_tokens := None |}) ;;
  let recipe := _parse_recipe (content result) in
  io_ret
    [ ("recipe", PDict (recipe_dump recipe));
      ("ai_metadata",
        PDict [ md_provider result; md_cost_usd result; md_response_time_ms result ]) ].

End RecipeGenerator.

Arguments RecipeGenerator G O : clear implicits.

(** ** [chat_assistant.py] *)

Section ChatAssistant.

Context {G O : Type} {gemini_service : BaseAIService G} {gpt4_service : BaseAIService O}.

Variable py_str : pyval -> string.

Record ChatAssistant : Type := {
  ca_gemini : G;
  ca_gpt4 : O;
  ca_default_provider : AIProvider
}.

Definition SYSTEM_PROMPT : string :=
"You are Sarma, an expert nutrition and health assistant. Your role is to:

1. **Provide accurate nutrition advice** based on current scientific evidence
2. **Suggest healthy meals** tailored to user preferences and goals
3. **Answer health questions** about diet, weight management, and wellness
4. **Motivate and encourage** users on their health journey
5. **Be conversational and friendly** while maintaining professionalism

Guidelines:
- Always prioritize user safety - recommend consulting doctors for medical issues
- Provide practical, actionable advice
- Consider dietary restrictions and allergies
- Be positive and encouraging
- Use simple language, avoid excessive jargon
- When unsure, acknowledge limitations

You have access to the user's meal history, health goals, and dietary preferences through context.".

(** One entry of the context block: nothing when the key is missing or
    its value is falsy. *)
Definition context_part (context : pydict) (key : string)
    (render : pyval -> exc string) : exc (list string) :=
  if py_truth (dict_get context key PNone) then
    v <- dict_item context key ;;
    s <- render v ;;
    Return [s]
  else Return [].

(** [ChatAssistant._format_user_context] *)
Definition _format_user_context (context : option pydict) : exc string :=
  match context with
  | None | Some [] => Return "No user context available"
  | Some context =>
      p1 <- context_part context "health_goals"
              (fun v => s <- py_join ", " v ;; Return ("**Health Goals:** " ++ s)%string) ;;
      p2 <- context_part context "dietary_restrictions"
              (fun v => s <- py_join ", " v ;;
                        Return ("**Dietary Restrictions:** " ++ s)%string) ;;
      p3 <- context_part context "daily_calorie_goal"
              (fun v => Return ("**Daily Calorie Goal:** " ++ py_str v ++ " kcal")%string) ;;
      p4 <- context_part context "recent_meals"
              (fun v => Return ("**Recent Meals:** " ++ py_str v ++ " meals logged")%string) ;;
      p5 <- context_part context "average_daily_calories"
              (fun v => Return ("**Avg Daily Calories:** " ++ py_str v ++ " kcal")%string) ;;
      p6 <- context_part context "preferences"
              (fun v => Return ("**Preferences:** " ++ py_str v)%string) ;;
      let parts := (p1 ++ p2 ++ p3 ++ p4 ++ p5 ++ p6)%list in
      Return (match parts with
              | [] => "No detailed context available"
              | _ => join nl parts
              end)
  end.

(** [ChatAssistant._build_conversation] *)
Definition _build_conversation (msg : string) (history : option (list message))
    (user_context : option pydict) : exc (list message) :=
  system_content <-
    match user_context with
    | None | Some [] => Return SYSTEM_PROMPT
    | Some _ =>
        formatted <- _format_user_context user_context ;;
        Return (SYSTEM_PROMPT ++ nl ++ nl ++ "User Context:" ++ nl ++ formatted)%string
    end ;;
  let system := [("role", "system"); ("content", system_content)] in
  let past := match history with Some h => h | None => [] end in
  Return ((system :: past) ++ [[("role", "user"); ("content", msg)]])%list.

(** [provider = self.gpt4 if use_gpt4 else self.gemini] followed by a
    call of [provider.generate_text] *)
Definition ask_text (self : ChatAssistant) (use_gpt4 : bool) (prompt : string)
    (context : option string) : io AIResponse :=
  if use_gpt4
  then invoke GPT4_VISION GenerateText prompt
         (generate_text (ca_gpt4 self) prompt context no_kwargs)
  else invoke GEMINI_FLASH GenerateText prompt
         (generate_text (ca_gemini self) prompt context no_kwargs).

(** [ChatAssistant.chat]; [now] is [datetime.now().isoformat()]. *)
Definition chat_with_assistant (self : ChatAssistant) (msg : string)
    (conversation_history : option (list message)) (user_context : option pydict)
    (use_gpt4 : bool) (now : string) : io pydict :=
  messages <- await io_lift (_build_conversation msg conversation_history user_context) ;;
  result <- await
    (if use_gpt4
     then invoke GPT4_VISION Chat msg (chat (ca_gpt4 self) messages no_kwargs)
     else invoke GEMINI_FLASH Chat msg (chat (ca_gemini self) messages no_kwargs)) ;;
  io_ret
    [ ("response", PStr (content result));
      ("ai_metadata",
        PDict [ md_provider result; md_model result; md_confidence result;
                md_cost_usd result; md_response_time_ms result;
                md_tokens_used result ]);
      ("timestamp", PStr now) ].

(** [ChatAssistant.suggest_meal] *)
Definition suggest_meal (self : ChatAssistant) (meal_type : string)
    (user_context : option pydict) (use_gpt4 : bool) : io pydict :=
  formatted <- await io_lift (_format_user_context user_context) ;;
  let prompt :=
    ("The user is asking for a " ++ meal_type ++ " suggestion.

Based on their context:
" ++ formatted ++ "

Suggest a specific " ++ meal_type ++ " that:
1. Fits their dietary preferences and restrictions
2. Helps them reach their health goals
3. Provides good nutrition balance
4. Is practical and enjoyable

Provide:
- Meal name and description
- Why this meal is a good choice for them
- Key nutrition highlights
- Quick preparation tips (if relevant)

Be specific, enthusiastic, and helpful!")%string in
  result <- await ask_text self use_gpt4 prompt None ;;
  io_ret
    [ ("suggestion", PStr (content result));
      ("meal_type", PStr meal_type);
      ("ai_metadata",
        PDict [ md_provider result; md_cost_usd result; md_response_time_ms result ]) ].

(** The nutrition part of a meal's line in [_summarize_meals] *)
Definition nutrition_summary (n : pyval) : exc string :=
  cal <- py_get n "calories" (PInt 0) ;;
  pro <- py_get n "protein_g" (PInt 0) ;;
  car <- py_get n "carbs_g" (PInt 0) ;;
  fat <- py_get n "fat_g" (PInt 0) ;;
  Return (" - " ++ py_str cal ++ " cal, " ++ py_str pro ++ "g protein, "
          ++ py_str car ++ "g carbs, " ++ py_str fat ++ "g fat")%string.

Definition meal_line (i : Z) (meal : pydict) : exc string :=
  let meal_info :=
    (py_str (PInt i) ++ ". " ++ py_str (dict_get meal "name" (PStr "Unnamed meal")))%string in
  with_nutrition <-
    (if py_truth (dict_get meal "nutrition" PNone) then
       n <- dict_item meal "nutrition" ;;
       s <- nutrition_summary n ;;
       Return (meal_info ++ s)%string
     else Return meal_info) ;;
  if py_truth (dict_get meal "logged_at" PNone) then
    at_v <- dict_item meal "logged_at" ;;
    Return (with_nutrition ++ " (" ++ py_str at_v ++ ")")%string
  else Return with_nutrition.

Fixpoint meal_lines (i : Z) (meals : list pydict) : exc (list string) :=
  match meals with
  | [] => Return []
  | meal :: rest =>
      line <- meal_line i meal ;;
      lines <- meal_lines (i + 1) rest ;;
      Return (line :: lines)
  end.

(** [ChatAssistant._summarize_meals] *)
Definition _summarize_meals (meals : list pydict) : exc string :=
  match meals with
  | [] => Return "No meals logged"
  | _ => summary <- meal_lines 1 meals ;; Return (join nl summary)
  end.

(** [ChatAssistant.analyze_diet_trends] *)
Definition analyze_diet_trends (self : ChatAssistant) (recent_meals : list pydict)
    (time_period_days : Z) (use_gpt4 : bool) : io pydict :=
  meals_summary <- await io_lift (_summarize_meals recent_meals) ;;
  let prompt :=
    ("Analyze this user's eating patterns over the last "
     ++ py_str (PInt time_period_days) ++ " days:

" ++ meals_summary ++ "

Provide:
1. **Nutrition Trends**: What patterns do you see? (e.g., consistent protein, low vegetables, high sodium)
2. **Strengths**: What are they doing well?
3. **Areas for Improvement**: What could be better?
4. **Specific Recommendations**: 3-5 actionable suggestions to improve their diet
5. **Encouragement**: Positive, motivating message

Be specific, constructive, and encouraging!")%string in
  result <- await ask_text self use_gpt4 prompt (Some SYSTEM_PROMPT) ;;
  io_ret
    [ ("analysis", PStr (content result));
      ("time_period_days", PInt time_period_days);
      ("meals_analyzed", PInt (Z.of_nat (List.length recent_meals)));
      ("ai_metadata",
        PDict [ md_provider result; md_cost_usd result; md_response_time_ms result ]) ].

End ChatAssistant.

Arguments ChatAssistant G O : clear implicits.

(** * Vocabulary of the properties *)

(** ** The six adapter operations *)

Inductive adapter_call : Type :=
  | GeminiAnalyzeImage (self : GeminiService) (image_url prompt : string) (kwargs : Kwargs)
  | GeminiGenerateText (self : GeminiService) (prompt : string)
      (context : option string) (kwargs : Kwargs)
  | GeminiChat (self : GeminiService) (messages : list message) (kwargs : Kwargs)
  | OpenAIAnalyzeImage (self : OpenAIVisionService) (image_url prompt : string)
      (kwargs : Kwargs)
  | OpenAIGenerateText (self : OpenAIVisionService) (prompt : string)
      (context : option string) (kwargs : Kwargs)
  | OpenAIChat (self : OpenAIVisionService) (messages : list message) (kwargs : Kwargs).

(** What the caller of an adapter operation receives. *)
Definition run_adapter (c : adapter_call) : exc AIResponse :=
  match c with
  | GeminiAnalyzeImage self u p k => Gemini.analyze_image self u p k
  | GeminiGenerateText self p ctx k => Gemini.generate_text self p ctx k
  | GeminiChat self ms k => Gemini.chat self ms k
  | OpenAIAnalyzeImage self u p k => OpenAI.analyze_image self u p k
  | OpenAIGenerateText self p ctx k => OpenAI.generate_text self p ctx k
  | OpenAIChat self ms k => OpenAI.chat self ms k
  end.

(** The [try] block of the operation. *)
Definition try_block (c : adapter_call) : exc AIResponse :=
  match c with
  | GeminiAnalyzeImage self u p k => Gemini.analyze_image_body self u p k
  | GeminiGenerateText self p ctx k => Gemini.generate_text_body self p ctx k
  | GeminiChat self ms k => Gemini.chat_body self ms k
  | OpenAIAnalyzeImage self u p k => OpenAI.analyze_image_body self u p k
  | OpenAIGenerateText self p ctx k => OpenAI.generate_text_body self p ctx k
  | OpenAIChat self ms k => OpenAI.chat_body self ms k
  end.

Definition forget {A : Type} (m : exc A) : exc unit :=
  match m with
  | Return _ => Return tt
  | Raise e => Raise e
  end.

(** The call to the provider inside the operation, as far as it is
    reached: for Gemini the image is fetched, and the chat history is
    built, before the SDK is called. *)
Definition provider_call (c : adapter_call) : exc unit :=
  match c with
  | GeminiAnalyzeImage self image_url prompt kwargs =>
      image_bytes <- Gemini.image_data self image_url ;;
      forget (Gemini.generate_content self kwargs prompt (Some image_bytes))
  | GeminiGenerateText self prompt context kwargs =>
      forget (Gemini.generate_content self kwargs (Gemini.full_prompt prompt context) None)
  | GeminiChat self messages kwargs =>
      forget (Gemini.send_last_message self messages)
  | OpenAIAnalyzeImage self image_url prompt kwargs =>
      forget (OpenAI.create self (OpenAI.image_messages image_url prompt kwargs) kwargs)
  | OpenAIGenerateText self prompt context kwargs =>
      forget (OpenAI.create self (OpenAI.text_messages prompt context) kwargs)
  | OpenAIChat self messages kwargs =>
      forget (OpenAI.create self (map OpenAI.message_value messages) kwargs)
  end.

(** The error recorded in the envelope of a failed call: the message of
    the exception, no confidence, no cost. *)
Definition records_failure (e : exn) (r : AIResponse) : Prop :=
  error r = Some (exn_str e)
  /\ confidence r = PyFloat.lit 0 0
  /\ cost_usd r = PyFloat.lit 0 0.

(** ** Confidence *)

(** [0.0 <= c <= 1.0] *)
Definition in_unit_interval (c : PyFloat.float) : bool :=
  (PyFloat.leb (PyFloat.lit 0 0) c && PyFloat.leb c (PyFloat.lit 1 0))%bool.

(** [assess_confidence] as a function of which phrases occur and of
    whether the response is longer than 200 characters. *)
Definition assess_core (hits : list bool) (long : bool) : PyFloat.float :=
  let c :=
    fold_left (fun c (hit : bool) => if hit then PyFloat.sub c (PyFloat.lit 1 (-1)) else c)
      hits (PyFloat.lit 8 (-1)) in
  let c := if long then PyFloat.add c (PyFloat.lit 5 (-2)) else c in
  PyFloat.py_max (PyFloat.lit 0 0) (PyFloat.py_min (PyFloat.lit 1 0) c).

(** All lists of [n] booleans. *)
Fixpoint bool_lists (n : nat) : list (list bool) :=
  match n with
  | O => [[]]
  | S n' => flat_map (fun l => [true :: l; false :: l]) (bool_lists n')
  end.

(** The three ways in which the adapters use an assessed confidence [c]:
    as it is (Gemini), with 0.05 added and capped at 1 (GPT-4 image
    analysis), with 0.05 added (GPT-4 text and chat). *)
Definition adapter_confidences_ok (c : PyFloat.float) : bool :=
  (in_unit_interval c
   && in_unit_interval (PyFloat.py_min (PyFloat.lit 1 0) (PyFloat.add c (PyFloat.lit 5 (-2))))
   && in_unit_interval (PyFloat.add c (PyFloat.lit 5 (-2))))%bool.

(** ** Sample providers *)

Definition sample_time : PyFloat.float := PyFloat.of_Z 1733925600.

(** A Gemini adapter whose provider answers every request with [text]. *)
Definition gemini_replying (text : string) : GeminiService :=
  let response :=
    {| g_text := Return text;
       g_usage_metadata := Some (1200, 300);
       g_finish_reason := Some "STOP" |} in
  Gemini.init "gemini-key" Gemini.default_model
    {| gb_requests_get := fun _ => Return "jpeg bytes";
       gb_b64decode := fun _ => Return "jpeg bytes";
       gb_generate_content := fun _ _ _ _ => Return response;
       gb_send_message := fun _ _ => Return response;
       gb_elapsed_ms := 850;
       gb_time := sample_time |}.

(** A Gemini adapter whose provider is unreachable. *)
Definition gemini_failing : GeminiService :=
  Gemini.init "gemini-key" Gemini.default_model
    {| gb_requests_get := fun _ => Return "jpeg bytes";
       gb_b64decode := fun _ => Return "jpeg bytes";
       gb_generate_content := fun _ _ _ _ => raise ProviderError "503 service unavailable";
       gb_send_message := fun _ _ => raise ProviderError "503 service unavailable";
       gb_elapsed_ms := 10000;
       gb_time := sample_time |}.

(** A GPT-4 adapter whose provider answers every request with [text]. *)
Definition gpt4_replying (text : string) : OpenAIVisionService :=
  OpenAI.init "openai-key" OpenAI.default_model
    {| ob_create := fun _ =>
         Return {| o_choices := [ {| ch_content := Some text; ch_finish_reason := "stop" |} ];
                   o_prompt_tokens := 1500;
                   o_completion_tokens := 400;
                   o_total_tokens := 1900;
                   o_model := "gpt-4o-2024-08-06" |};
       ob_elapsed_ms := 3200;
       ob_time := sample_time |}.

(** A GPT-4 adapter whose provider is unreachable. *)
Definition gpt4_failing : OpenAIVisionService :=
  OpenAI.init "openai-key" OpenAI.default_model
    {| ob_create := fun _ => raise ProviderError "connection timed out";
       ob_elapsed_ms := 30000;
       ob_time := sample_time |}.

Definition sample_analyzer (g : GeminiService) (o : OpenAIVisionService)
    : MealAnalyzer GeminiService OpenAIVisionService :=
  {| gemini := g; gpt4 := o; default_provider := GEMINI_FLASH |}.

Definition sample_image : string := "https://example.org/lunch.jpg".
Definition sample_now : string := "2024-12-11T14:00:00".

(** A hedging answer: two uncertainty phrases. *)
Definition unsure_text : string :=
  "It might be grilled chicken with rice, possibly tofu.".

(** A confident answer in the requested format. *)
Definition meal_json : string := dq
  "{'meal_name': 'Chicken and rice', 'ingredients': ['chicken', 'rice'],
    'nutrition': {'calories': 520, 'protein_g': 45, 'carbs_g': 55, 'fat_g': 12},
    'meal_type': 'lunch', 'confidence_notes': ''}".

(** ** Routing *)

Definition high_detail : Kwargs :=
  {| kw_detail := Some "high"; kw_temperature := None; kw_max_tokens := None |}.

(** The call [analyze_meal] issues to an adapter. *)
Definition gemini_call (image_url : string) : call :=
  {| call_to := GEMINI_FLASH; call_op := AnalyzeImage; call_arg := image_url |}.
Definition gpt4_call (image_url : string) : call :=
  {| call_to := GPT4_VISION; call_op := AnalyzeImage; call_arg := image_url |}.

Section Routing.

Context {G O : Type} {gemini_service : BaseAIService G} {gpt4_service : BaseAIService O}.

(** The answers of the two adapters to the request of [analyze_meal]. *)
Definition gemini_answer (self : MealAnalyzer G O) (image_url : string) : exc AIResponse :=
  analyze_image (gemini self) image_url _get_analysis_prompt no_kwargs.
Definition gpt4_answer (self : MealAnalyzer G O) (image_url : string) : exc AIResponse :=
  analyze_image (gpt4 self) image_url _get_analysis_prompt high_detail.

(** The primary call of [analyze_meal]: the one to the selected
    provider, and its answer. *)
Definition primary_call (image_url user_tier : string)
    (force_provider : option AIProvider) : call :=
  if AIProvider_eqb (_select_provider user_tier force_provider) GEMINI_FLASH
  then gemini_call image_url else gpt4_call image_url.

Definition primary_answer (self : MealAnalyzer G O) (image_url user_tier : string)
    (force_provider : option AIProvider) : exc AIResponse :=
  if AIProvider_eqb (_select_provider user_tier force_provider) GEMINI_FLASH
  then gemini_answer self image_url else gpt4_answer self image_url.

(** What [analyze_meal] makes of the envelope it keeps. *)
Definition packaged (result : AIResponse) (now : string) : exc pydict :=
  nutrition <- _parse_nutrition (content result) ;;
  Return (meal_response result nutrition now).

End Routing.

(** ** Dictionaries *)

(** The keys of the [ai_metadata] block of a response dictionary. *)
Definition ai_metadata_keys (response : pydict) : option (list string) :=
  match dict_lookup "ai_metadata" response with
  | Some (PDict md) => Some (dict_keys md)
  | _ => None
  end.

(** An entry of the [ai_metadata] block of a response dictionary. *)
Definition ai_metadata_item (response : pydict) (k : string) : option pyval :=
  match dict_lookup "ai_metadata" response with
  | Some (PDict md) => dict_lookup k md
  | _ => None
  end.

(** The shape [{provider, model, confidence, cost_usd, response_time_ms,
    tokens_used, error?}]: six keys, and possibly [error]. *)
Definition required_metadata_keys : list string :=
  ["provider"; "model"; "confidence"; "cost_usd"; "response_time_ms"; "tokens_used"].

Definition stable_metadata_shape (keys : list string) : Prop :=
  keys = required_metadata_keys \/ keys = (required_metadata_keys ++ ["error"])%list.

(** ** Sample analyzers *)

(** Gemini hedges, GPT-4 answers in the requested format. *)
Definition analyzer_unsure_gemini : MealAnalyzer GeminiService OpenAIVisionService :=
  sample_analyzer (gemini_replying unsure_text) (gpt4_replying meal_json).

(** GPT-4 hedges, Gemini answers in the requested format. *)
Definition analyzer_unsure_gpt4 : MealAnalyzer GeminiService OpenAIVisionService :=
  sample_analyzer (gemini_replying meal_json) (gpt4_replying unsure_text).

(** Gemini is unreachable. *)
Definition analyzer_gemini_down : MealAnalyzer GeminiService OpenAIVisionService :=
  sample_analyzer gemini_failing (gpt4_replying meal_json).

(** GPT-4 is unreachable. *)
Definition analyzer_gpt4_down : MealAnalyzer GeminiService OpenAIVisionService :=
  sample_analyzer (gemini_replying meal_json) gpt4_failing.

(** ** Observations on outcomes *)

(** The envelope was returned and satisfies [p]. *)
Definition answered (m : exc AIResponse) (p : AIResponse -> bool) : bool :=
  match m with
  | Return r => p r
  | Raise _ => false
  end.

(** An entry of the [ai_metadata] block of the dictionary returned. *)
Definition metadata_of (m : exc pydict) (k : string) : option pyval :=
  match m with
  | Return d => ai_metadata_item d k
  | Raise _ => None
  end.

(** The keys of the dictionary returned. *)
Definition keys_of (m : exc pydict) : option (list string) :=
  match m with
  | Return d => Some (dict_keys d)
  | Raise _ => None
  end.

(** An entry of the dictionary returned. *)
Definition item_of (m : exc pydict) (k : string) : option pyval :=
  match m with
  | Return d => dict_lookup k d
  | Raise _ => None
  end.

(** The keys of the [ai_metadata] block of the dictionary returned. *)
Definition metadata_keys_of (m : exc pydict) : option (list string) :=
  match m with
  | Return d => ai_metadata_keys d
  | Raise _ => None
  end.

Definition below_threshold (r : AIResponse) : bool :=
  PyFloat.ltb (confidence r) CONFIDENCE_THRESHOLD.

Definition has_error (r : AIResponse) : bool :=
  match error r with Some _ => true | None => false end.

(** ** Sample texts and services for the parser and the other capabilities *)

(** The prose answer of the malformed-output scenario. *)
Definition malformed_output : string :=
  "This meal has about 450 calories and 30g protein, not much else detected.".

(** The same figures written label first. *)
Definition labelled_output : string :=
  "This meal has calories: 450 and protein: 30g, not much else detected.".

(** The answer of the quick-estimate scenario. *)
Definition quick_json : string :=
  dq "{'calories': 410, 'description': 'turkey sandwich'}".

Definition recipe_json : string := dq
  "{'name': 'Chicken Stir Fry', 'description': 'Quick and light.',
    'ingredients': ['chicken', 'broccoli'], 'instructions': ['Slice', 'Fry'],
    'prep_time_min': 10, 'cook_time_min': 15, 'servings': 2, 'difficulty': 'easy',
    'nutrition_per_serving': {'calories': 450, 'protein_g': 40}}".

Definition sample_generator : RecipeGenerator GeminiService OpenAIVisionService :=
  {| rg_gemini := gemini_replying recipe_json; rg_gpt4 := gpt4_replying recipe_json |}.

Definition sample_assistant : ChatAssistant GeminiService OpenAIVisionService :=
  {| ca_gemini := gemini_replying "Try oatmeal with berries.";
     ca_gpt4 := gpt4_replying "Try oatmeal with berries.";
     ca_default_provider := GEMINI_FLASH |}.

(** [str] on the values the samples format into prompts: integers in
    decimal, strings as they are. *)
Definition sample_str (v : pyval) : string :=
  match v with
  | PInt z => NilZero.string_of_int (Z.to_int z)
  | PStr s => s
  | PNone => "None"
  | PBool b => if b then "True" else "False"
  | PFloat _ | PList _ | PDict _ => "..."
  end.

Definition sample_meals : list pydict :=
  [ [("name", PStr "Oatmeal"); ("nutrition", PDict [("calories", PInt 300)])] ].

(** Whenever a dictionary is returned, its [ai_metadata] block has
    exactly the keys [keys], in this order. *)
Definition metadata_keys_are (keys : list string) (m : exc pydict) : Prop :=
  match m with
  | Return d => ai_metadata_keys d = Some keys
  | Raise _ => True
  end.

Definition full_metadata_keys : list string :=
  ["provider"; "model"; "confidence"; "cost_usd"; "response_time_ms"; "tokens_used"; "error"].
Definition chat_metadata_keys : list string :=
  ["provider"; "model"; "confidence"; "cost_usd"; "response_time_ms"; "tokens_used"].
Definition recipe_metadata_keys : list string :=
  ["provider"; "model"; "confidence"; "cost_usd"; "response_time_ms"].
Definition short_metadata_keys : list string :=
  ["provider"; "cost_usd"; "response_time_ms"].

(** ** The fuel of the JSON decoder *)

(** What follows a scanned value is shorter than what the scan started
    from. *)
Definition consumes (F : nat) : Prop :=
  (forall s v r, Json.scan_value F s = Some (v, r) ->
                 (String.length r < String.length s)%nat)
  /\ (forall s acc v r, Json.scan_elements F s acc = Some (v, r) ->
                        (String.length r < String.length s)%nat)
  /\ (forall s acc v r, Json.scan_members F s acc = Some (v, r) ->
                        (String.length r < String.length s)%nat).

(** Past twice the length of the input, one more unit of fuel changes
    nothing. *)
Definition saturated (F : nat) : Prop :=
  (forall s, (2 * String.length s + 1 <= F)%nat ->
             Json.scan_value (S F) s = Json.scan_value F s)
  /\ (forall s acc, (2 * String.length s + 2 <= F)%nat ->
                    Json.scan_elements (S F) s acc = Json.scan_elements F s acc)
  /\ (forall s acc, (2 * String.length s + 2 <= F)%nat ->
                    Json.scan_members (S F) s acc = Json.scan_members F s acc).


(** * Vocabulary of the further properties *)

(** ** Confidence *)

(** The number of uncertainty phrases that occur in a response. *)
Definition hedges (response : string) : nat :=
  List.length
    (filter (fun phrase => PyStr.contains phrase (PyStr.lower response))
       uncertainty_phrases).

Definition count_true (l : list bool) : nat := List.length (filter (fun b => b) l).

(** What an adapter operation makes of the assessed confidence [a]. *)
Definition adapter_confidence (c : adapter_call) (a : PyFloat.float) : PyFloat.float :=
  match c with
  | GeminiAnalyzeImage _ _ _ _ | GeminiGenerateText _ _ _ _ | GeminiChat _ _ _ => a
  | OpenAIAnalyzeImage _ _ _ _ =>
      PyFloat.py_min (PyFloat.lit 1 0) (PyFloat.add a (PyFloat.lit 5 (-2)))
  | OpenAIGenerateText _ _ _ _ | OpenAIChat _ _ _ => PyFloat.add a (PyFloat.lit 5 (-2))
  end.

(** The configuration, the elapsed time and the clock of the adapter
    that serves a call. *)
Definition adapter_config (c : adapter_call) : AIConfig :=
  match c with
  | GeminiAnalyzeImage self _ _ _ | GeminiGenerateText self _ _ _ | GeminiChat self _ _ =>
      gemini_config self
  | OpenAIAnalyzeImage self _ _ _ | OpenAIGenerateText self _ _ _ | OpenAIChat self _ _ =>
      openai_config self
  end.

Definition adapter_elapsed_ms (c : adapter_call) : Z :=
  match c with
  | GeminiAnalyzeImage self _ _ _ | GeminiGenerateText self _ _ _ | GeminiChat self _ _ =>
      gb_elapsed_ms (gemini_backend self)
  | OpenAIAnalyzeImage self _ _ _ | OpenAIGenerateText self _ _ _ | OpenAIChat self _ _ =>
      ob_elapsed_ms (openai_backend self)
  end.

Definition adapter_time (c : adapter_call) : PyFloat.float :=
  match c with
  | GeminiAnalyzeImage self _ _ _ | GeminiGenerateText self _ _ _ | GeminiChat self _ _ =>
      gb_time (gemini_backend self)
  | OpenAIAnalyzeImage self _ _ _ | OpenAIGenerateText self _ _ _ | OpenAIChat self _ _ =>
      ob_time (openai_backend self)
  end.

(** All three uses of an assessed confidence are strictly positive. *)
Definition adapter_confidences_positive (a : PyFloat.float) : bool :=
  (PyFloat.ltb (PyFloat.lit 0 0) a
   && PyFloat.ltb (PyFloat.lit 0 0)
        (PyFloat.py_min (PyFloat.lit 1 0) (PyFloat.add a (PyFloat.lit 5 (-2))))
   && PyFloat.ltb (PyFloat.lit 0 0) (PyFloat.add a (PyFloat.lit 5 (-2))))%bool.

(** ** Costs *)

(** [0.0 <= x] *)
Definition nonnegative (x : PyFloat.float) : bool := PyFloat.leb (PyFloat.lit 0 0) x.

(** A zero, a positive finite number or plus infinity. *)
Definition sign_nonneg (x : PyFloat.float) : bool :=
  match x with
  | S754_zero _ | S754_infinity false | S754_finite false _ _ => true
  | S754_infinity true | S754_finite true _ _ | S754_nan => false
  end.

Definition positive_finite (x : PyFloat.float) : bool :=
  match x with
  | S754_finite false _ _ => true
  | _ => false
  end.

(** A number: neither an infinity nor a NaN. *)
Definition finite (x : PyFloat.float) : bool :=
  match x with
  | S754_zero _ | S754_finite _ _ _ => true
  | S754_infinity _ | S754_nan => false
  end.

(** [a / b] yields a float: Python raises OverflowError where the
    nearest float to the quotient would be an infinity. *)
Definition quotient_fits (a : Z) (b : positive) : bool := finite (int_truediv a b).

(** ** Edge cases of the Gemini adapter *)

(** A data URL that has no comma after its media type. *)
Definition bare_data_url : string := "data:image/png;base64".

Definition index_error : exn := mkExn IndexError "list index out of range".

(** The adapter [self] whose chat session sends its message with
    [send] instead. *)
Definition with_send_message (self : GeminiService)
    (send : list (string * string) -> string -> exc GeminiResponse) : GeminiService :=
  {| gemini_config := gemini_config self;
     gemini_backend :=
       {| gb_requests_get := gb_requests_get (gemini_backend self);
          gb_b64decode := gb_b64decode (gemini_backend self);
          gb_generate_content := gb_generate_content (gemini_backend self);
          gb_send_message := send;
          gb_elapsed_ms := gb_elapsed_ms (gemini_backend self);
          gb_time := gb_time (gemini_backend self) |} |}.

(** A conversation whose last message has no content. *)
Definition headless_conversation : list message :=
  [ [("role", "user"); ("content", "Hello")]; [("role", "user")] ].

(** ** Exceptions by class *)

(** Whatever [m] raises belongs to one of [classes]. *)
Definition raises_only {A : Type} (classes : list exn_class) (m : exc A) : Prop :=
  match m with
  | Return _ => True
  | Raise e => In (exn_cls e) classes
  end.

(** The first step of [_parse_nutrition]: what [json.loads] makes of
    the text from the first opening to the last closing brace, or of
    the whole response when it has no such text. *)
Definition decoded_response (ai_response : string) : exc pyval :=
  match Re.search json_object_re ai_response dotall with
  | Some json_match => Json.loads (Re.group0 json_match)
  | None => Json.loads ai_response
  end.

(** The classes that can leave the [try] block of [_parse_nutrition]. *)
Definition parse_block_classes : list exn_class :=
  [JSONDecodeError; AttributeError; TypeError; ValueError; OverflowError; ValidationError].

(** ** The fallback parser *)

(** [s.isascii()]: every character is below 128. *)
Fixpoint is_ascii (s : string) : bool :=
  match s with
  | EmptyString => true
  | String c s' => (Nat.ltb (nat_of_ascii c) 128 && is_ascii s')%bool
  end.

(** No character of [s] is a digit. *)
Fixpoint digit_free (s : string) : bool :=
  match s with
  | EmptyString => true
  | String c s' => (negb (PyStr.is_digit c) && digit_free s')%bool
  end.

(** Every match of [r] contains a digit: [r] has a digit, or one digit
    or more, outside every optional part. *)
Fixpoint requires_digit (r : Re.regex) : bool :=
  match r with
  | Re.Atom Re.Digit | Re.Plus Re.Digit => true
  | Re.Seq r1 r2 => (requires_digit r1 || requires_digit r2)%bool
  | Re.Group r1 => requires_digit r1
  | _ => false
  end.

(** No character of [s] satisfies [p]. *)
Fixpoint free_of (p : ascii -> bool) (s : string) : bool :=
  match s with
  | EmptyString => true
  | String c s' => (negb (p c) && free_of p s')%bool
  end.

(** An answer in prose, without a figure. *)
Definition vague_output : string :=
  "Looks like pasta with tomato sauce and some cheese, calories unknown.".

(** An item of the ingredient list of the fallback parser as it should
    be: not empty, trimmed, without a separator. *)
Definition clean_ingredient (i : string) : Prop :=
  i <> ""
  /\ PyStr.strip i = i
  /\ PyStr.contains "," i = false
  /\ PyStr.contains ";" i = false.

(** ** The chat assistant *)

Definition is_str (v : pyval) : bool :=
  match v with PStr _ => true | _ => false end.

(** A value that passes [if v:] and that [', '.join(v)] rejects: a
    number, [True], or a list with an item that is no string. *)
Definition unjoinable (v : pyval) : bool :=
  (py_truth v
   && match v with
      | PStr _ | PDict _ => false
      | PList l => negb (forallb is_str l)
      | PNone | PBool _ | PInt _ | PFloat _ => true
      end)%bool.

(** The call [ChatAssistant.chat] issues. *)
Definition chat_call (use_gpt4 : bool) (msg : string) : call :=
  {| call_to := if use_gpt4 then GPT4_VISION else GEMINI_FLASH;
     call_op := Chat;
     call_arg := msg |}.

(** An earlier exchange. *)
Definition sample_history : list message :=
  [ [("role", "user"); ("content", "Hi")];
    [("role", "assistant"); ("content", "Hello, how can I help?")] ].

(** * The remaining capabilities, the service factory and the endpoints *)

(** ** [chat_assistant.py]: [get_nutrition_advice] *)

Section NutritionAdvice.

Context {G O : Type} {gemini_service : BaseAIService G} {gpt4_service : BaseAIService O}.

Variable py_str : pyval -> string.

(** [s] between double quotes. *)
Definition quoted (s : string) : string :=
  String Json.quote (s ++ String Json.quote EmptyString).

(** [ChatAssistant.get_nutrition_advice] *)
Definition get_nutrition_advice (self : ChatAssistant G O) (question : string)
    (user_context : option pydict) (use_gpt4 : bool) : io pydict :=
  context_str <- await io_lift (_format_user_context py_str user_context) ;;
  let prompt :=
    ("The user has a nutrition/health question:

" ++ quoted question ++ "

User context:
" ++ context_str ++ "

Provide a helpful, accurate response that:
1. Addresses their specific question
2. Considers their personal context (goals, restrictions, history)
3. Provides actionable advice
4. Includes relevant scientific basis when appropriate
5. Reminds them to consult healthcare providers for medical concerns

Be thorough but concise. Focus on practical guidance.")%string in
  result <- await ask_text self use_gpt4 prompt (Some SYSTEM_PROMPT) ;;
  io_ret
    [ ("advice", PStr (content result));
      ("ai_metadata",
        PDict [ md_provider result; md_cost_usd result; md_response_time_ms result ]) ].

End NutritionAdvice.

(** ** [recipe_generator.py]: [suggest_recipes] *)

(** The pattern that finds a JSON array in the response: an opening
    bracket, anything, a closing bracket. *)
Definition json_array_re : Re.regex :=
  Re.seq [Re.text "["; Re.Star Re.AnyChar; Re.text "]"].

(** Where [x[:count]] stops in a sequence of [n] items: a negative
    [count] is taken from the end. *)
Definition slice_stop (n : nat) (count : Z) : nat :=
  if count <? 0 then Z.to_nat (Z.max 0 (Z.of_nat n + count))
  else Z.to_nat (Z.min (Z.of_nat n) count).

(** [x[:count]] *)
Definition py_slice_to (x : pyval) (count : Z) : exc pyval :=
  match x with
  | PList l => Return (PList (firstn (slice_stop (List.length l) count) l))
  | PStr s => Return (PStr (String.substring 0 (slice_stop (String.length s) count) s))
  | PDict _ => raise TypeError "unhashable type: 'slice'"
  | PNone | PBool _ | PInt _ | PFloat _ => raise TypeError "object is not subscriptable"
  end.

(** [len(x)] *)
Definition py_len (x : pyval) : exc Z :=
  match x with
  | PList l => Return (Z.of_nat (List.length l))
  | PStr s => Return (PyStr.len s)
  | PDict d => Return (Z.of_nat (List.length d))
  | PNone | PBool _ | PInt _ | PFloat _ => raise TypeError "object has no len()"
  end.

Section SuggestRecipes.

Context {G O : Type} {gemini_service : BaseAIService G} {gpt4_service : BaseAIService O}.

Variable py_str : pyval -> string.

(** [json.dumps(d, indent=2)] *)
Variable json_dumps : pydict -> string.

Definition suggestions_template : string := dq
"

Return JSON array:
[
  {
    'name': 'Recipe name',
    'description': 'Why this recipe fits the user',
    'key_benefits': ['benefit1', 'benefit2'],
    'estimated_calories': 400,
    'prep_time_min': 20,
    'difficulty': 'easy'
  },
  ...
]

Focus on variety - different meal types, cuisines, and cooking methods.".

(** The [try] block of [suggest_recipes]; [None] when it falls through
    to the statement after it. *)
Definition suggestions_json (result : AIResponse) (count : Z) : exc (option pyval) :=
  match Re.search json_array_re (content result) dotall with
  | Some json_match =>
      suggestions <- Json.loads (Re.group0 json_match) ;;
      head <- py_slice_to suggestions count ;;
      Return (Some head)
  | None => Return None
  end.

(** The prompt of [suggest_recipes] *)
Definition suggestions_prompt (user_preferences : pydict) (count : Z) : string :=
  ("Suggest " ++ py_str (PInt count)
   ++ " recipe ideas for a user with these preferences:" ++ nl ++ nl
   ++ json_dumps user_preferences ++ suggestions_template)%string.

(** [RecipeGenerator.suggest_recipes] *)
Definition suggest_recipes (self : RecipeGenerator G O) (user_preferences : pydict)
    (count : Z) (use_gpt4 : bool) : io pyval :=
  let prompt := suggestions_prompt user_preferences count in
  result <- await
    (if use_gpt4
     then invoke GPT4_VISION GenerateText prompt
            (generate_text (rg_gpt4 self) prompt None no_kwargs)
     else invoke GEMINI_FLASH GenerateText prompt
            (generate_text (rg_gemini self) prompt None no_kwargs)) ;;
  io_lift
    (found <- try_except (suggestions_json result count) is_Exception
                (fun _ => Return None) ;;
     match found with
     | Some head => Return head
     | None => Return (PList [])
     end).

End SuggestRecipes.

(** ** [ai_config.py] *)

(** [bool(key)] for an optional key *)
Definition key_set (key : option string) : bool :=
  match key with
  | Some k => negb (String.eqb k "")
  | None => false
  end.

(** [a or b] on optional keys *)
Definition key_or (a b : option string) : option string :=
  if key_set a then a else b.

Record AIServiceFactory : Type := {
  gemini_api_key : option string;
  openai_api_key : option string;
  (** what the SDK clients of the services it creates talk to *)
  gemini_world : GeminiBackend;
  openai_world : OpenAIBackend
}.

(** [AIServiceFactory.__init__]; [getenv] is [os.getenv]. *)
Definition new_factory (gemini_api_key openai_api_key : option string)
    (getenv : string -> option string) (gemini_world : GeminiBackend)
    (openai_world : OpenAIBackend) : AIServiceFactory :=
  {| gemini_api_key := key_or gemini_api_key (getenv "GEMINI_API_KEY");
     openai_api_key := key_or openai_api_key (getenv "OPENAI_API_KEY");
     gemini_world := gemini_world;
     openai_world := openai_world |}.

(** [AIServiceFactory.get_gemini_service] *)
Definition get_gemini_service (self : AIServiceFactory) : option GeminiService :=
  if negb (key_set (gemini_api_key self)) then None
  else
    match gemini_api_key self with
    | Some key => Some (Gemini.init key Gemini.default_model (gemini_world self))
    | None => None
    end.

(** [AIServiceFactory.get_openai_service] *)
Definition get_openai_service (self : AIServiceFactory) : option OpenAIVisionService :=
  if negb (key_set (openai_api_key self)) then None
  else
    match openai_api_key self with
    | Some key => Some (OpenAI.init key OpenAI.default_model (openai_world self))
    | None => None
    end.

(** [MealAnalyzer.__init__], [RecipeGenerator.__init__] and
    [ChatAssistant.__init__]: each creates its own two adapters. *)
Definition new_meal_analyzer (gemini_api_key openai_api_key : string)
    (gemini_world : GeminiBackend) (openai_world : OpenAIBackend)
    : MealAnalyzer GeminiService OpenAIVisionService :=
  {| gemini := Gemini.init gemini_api_key Gemini.default_model gemini_world;
     gpt4 := OpenAI.init openai_api_key OpenAI.default_model openai_world;
     default_provider := GEMINI_FLASH |}.

Definition new_recipe_generator (gemini_api_key openai_api_key : string)
    (gemini_world : GeminiBackend) (openai_world : OpenAIBackend)
    : RecipeGenerator GeminiService OpenAIVisionService :=
  {| rg_gemini := Gemini.init gemini_api_key Gemini.default_model gemini_world;
     rg_gpt4 := OpenAI.init openai_api_key OpenAI.default_model openai_world |}.

Definition new_chat_assistant (gemini_api_key openai_api_key : string)
    (gemini_world : GeminiBackend) (openai_world : OpenAIBackend)
    : ChatAssistant GeminiService OpenAIVisionService :=
  {| ca_gemini := Gemini.init gemini_api_key Gemini.default_model gemini_world;
     ca_gpt4 := OpenAI.init openai_api_key OpenAI.default_model openai_world;
     ca_default_provider := GEMINI_FLASH |}.

(** [AIServiceFactory.get_meal_analyzer] *)
Definition get_meal_analyzer (self : AIServiceFactory)
    : option (MealAnalyzer GeminiService OpenAIVisionService) :=
  if (negb (key_set (gemini_api_key self)) || negb (key_set (openai_api_key self)))%bool
  then None
  else
    match gemini_api_key self, openai_api_key self with
    | Some gemini_key, Some openai_key =>
        Some (new_meal_analyzer gemini_key openai_key (gemini_world self) (openai_world self))
    | _, _ => None
    end.

(** [AIServiceFactory.get_recipe_generator] *)
Definition get_recipe_generator (self : AIServiceFactory)
    : option (RecipeGenerator GeminiService OpenAIVisionService) :=
  if (negb (key_set (gemini_api_key self)) || negb (key_set (openai_api_key self)))%bool
  then None
  else
    match gemini_api_key self, openai_api_key self with
    | Some gemini_key, Some openai_key =>
        Some (new_recipe_generator gemini_key openai_key (gemini_world self)
                (openai_world self))
    | _, _ => None
    end.

(** [AIServiceFactory.get_chat_assistant] *)
Definition get_chat_assistant (self : AIServiceFactory)
    : option (ChatAssistant GeminiService OpenAIVisionService) :=
  if (negb (key_set (gemini_api_key self)) || negb (key_set (openai_api_key self)))%bool
  then None
  else
    match gemini_api_key self, openai_api_key self with
    | Some gemini_key, Some openai_key =>
        Some (new_chat_assistant gemini_key openai_key (gemini_world self)
                (openai_world self))
    | _, _ => None
    end.

(** [AIServiceFactory.is_available] *)
Definition is_available (self : AIServiceFactory) (provider : AIProvider) : bool :=
  if AIProvider_eqb provider GEMINI_FLASH then key_set (gemini_api_key self)
  else if AIProvider_eqb provider GPT4_VISION then key_set (openai_api_key self)
  else false.

(** ** [endpoints/ai.py] *)

(** How a handler ends: it returns a body, or raises an
    [HTTPException]. *)
Inductive http (A : Type) : Type :=
  | Ok (body : A)
  | HTTPException (status_code : Z) (detail : string).

Arguments Ok {A} body.
Arguments HTTPException {A} status_code detail.

(** What the JSON renderer of the framework accepts: it is run with
    [allow_nan=False] and refuses NaN and the infinities, and the
    conversion of an integer to text refuses more than 4300 digits. *)
Fixpoint renderable (v : pyval) : bool :=
  match v with
  | PNone | PBool _ | PStr _ => true
  | PInt z => Z.abs z <? 10 ^ 4300
  | PFloat f => finite f
  | PList l => forallb renderable l
  | PDict d => forallb (fun kv => renderable (snd kv)) d
  end.

(** The status the client sees: that of the exception, 200 for a body
    that can be rendered, 500 for one that cannot. *)
Definition status_code_of (r : http pydict) : Z :=
  match r with
  | Ok body => if renderable (PDict body) then 200 else 500
  | HTTPException status_code _ => status_code
  end.

(** A handler awaits its service like the service awaits its adapters,
    and the provider calls are recorded in the same way. *)
Definition handler (A : Type) : Type := list call -> http A * list call.

(** [if not service: raise HTTPException(status_code=503, detail=...)] *)
Definition require {S A : Type} (service : option S) (detail : string)
    (k : S -> handler A) : handler A :=
  fun log =>
    match service with
    | Some s => k s log
    | None => (HTTPException 503 detail, log)
    end.

(** [try: body  except Exception as e: raise HTTPException(status_code=500,
    detail=...)], the detail being [what], the word [failed] and
    [str(e)] *)
Definition guarded {A : Type} (what : string) (body : io A) : handler A :=
  fun log =>
    match body log with
    | (Return a, log') => (Ok a, log')
    | (Raise e, log') =>
        (HTTPException 500 (what ++ " failed: " ++ exn_str e)%string, log')
    end.

(** Running a handler from an empty record of calls. *)
Definition answer {A : Type} (h : handler A) : http A := fst (h []).
Definition provider_calls {A : Type} (h : handler A) : list call := snd (h []).

(** [AIProvider(value)]: the member with this value. *)
Definition AIProvider_of_value (value : string) : exc AIProvider :=
  if String.eqb value "gemini-flash" then Return GEMINI_FLASH
  else if String.eqb value "gpt4-vision" then Return GPT4_VISION
  else if String.eqb value "claude-vision" then Return CLAUDE_VISION
  else raise ValueError ("'" ++ value ++ "' is not a valid AIProvider").

(** The response models: the fields they declare, of type [dict] or
    [str]; a missing field or one of another type is rejected. *)
Inductive field_type : Type := DictField | StrField.

Definition validate_field (d : pydict) (name : string) (t : field_type)
    : exc (string * pyval) :=
  match dict_lookup name d, t with
  | Some (PDict v), DictField => Return (name, PDict v)
  | Some (PStr s), StrField => Return (name, PStr s)
  | _, _ => raise ValidationError name
  end.

Fixpoint response_model (fields : list (string * field_type)) (d : pydict)
    : exc pydict :=
  match fields with
  | [] => Return []
  | (name, t) :: fields' =>
      field <- validate_field d name t ;;
      rest <- response_model fields' d ;;
      Return (field :: rest)
  end.

Definition AnalyzeMealResponse : pydict -> exc pydict :=
  response_model [("nutrition", DictField); ("ai_metadata", DictField);
                  ("analyzed_at", StrField)].

Definition GenerateRecipeResponse : pydict -> exc pydict :=
  response_model [("recipe", DictField); ("ai_metadata", DictField);
                  ("generated_at", StrField)].

Definition ChatResponse : pydict -> exc pydict :=
  response_model [("response", StrField); ("ai_metadata", DictField);
                  ("timestamp", StrField)].

Record AnalyzeMealRequest : Type := {
  amr_image_url : string;
  amr_user_tier : string;
  amr_force_provider : option string
}.

Record GenerateRecipeRequest : Type := {
  grr_ingredients : option (list string);
  grr_dietary_restrictions : option (list string);
  grr_health_goals : option (list string);
  grr_cuisine : option string;
  grr_max_calories : option Z;
  grr_meal_type : option string;
  grr_use_gpt4 : bool
}.

Record ChatRequest : Type := {
  cr_message : string;
  cr_conversation_history : option (list message);
  cr_use_gpt4 : bool
}.

Record MealSuggestionRequest : Type := {
  msr_meal_type : string;
  msr_use_gpt4 : bool
}.

(** The handlers, as they run once their dependencies are resolved:
    the service is what the factory returned, the user is
    authenticated. *)
Module Endpoints.

Section Handlers.

Context {G O : Type} {gemini_service : BaseAIService G} {gpt4_service : BaseAIService O}.

Variable py_str : pyval -> string.
Variable json_dumps : pydict -> string.

(** [force_provider_enum] of the [/analyze-meal] handler *)
Definition force_provider_enum (force_provider : option string) : exc (option AIProvider) :=
  match force_provider with
  | Some value =>
      if negb (String.eqb value "") then
        p <- AIProvider_of_value value ;;
        Return (Some p)
      else Return None
  | None => Return None
  end.

(** [POST /analyze-meal] *)
Definition analyze_meal (meal_analyzer : option (MealAnalyzer G O))
    (request : AnalyzeMealRequest) (now : string) : handler pydict :=
  require meal_analyzer
    "AI services not configured. Please set GEMINI_API_KEY and OPENAI_API_KEY"
    (fun meal_analyzer =>
       guarded "Meal analysis"
         (forced <- await io_lift (force_provider_enum (amr_force_provider request)) ;;
          result <- await analyze_meal meal_analyzer (amr_image_url request)
                            (amr_user_tier request) forced now ;;
          io_lift (AnalyzeMealResponse result))).

(** [POST /quick-calorie-estimate] *)
Definition quick_calorie_estimate (meal_analyzer : option (MealAnalyzer G O))
    (image_url : string) : handler pydict :=
  require meal_analyzer "AI services not configured"
    (fun meal_analyzer =>
       guarded "Calorie estimation" (quick_calorie_estimate meal_analyzer image_url)).

(** [POST /generate-recipe] *)
Definition generate_recipe (recipe_generator : option (RecipeGenerator G O))
    (request : GenerateRecipeRequest) (now : string) : handler pydict :=
  require recipe_generator "AI services not configured"
    (fun recipe_generator =>
       guarded "Recipe generation"
         (result <- await generate_recipe py_str recipe_generator
                            (grr_ingredients request) (grr_dietary_restrictions request)
                            (grr_health_goals request) (grr_cuisine request)
                            (grr_max_calories request) (grr_meal_type request)
                            (grr_use_gpt4 request) now ;;
          io_lift (GenerateRecipeResponse result))).

(** [POST /generate-recipe-from-photo] *)
Definition generate_recipe_from_photo (recipe_generator : option (RecipeGenerator G O))
    (image_url preference : string) : handler pydict :=
  require recipe_generator "AI services not configured"
    (fun recipe_generator =>
       guarded "Recipe generation" (generate_from_photo recipe_generator image_url preference)).

(** The preferences [GET /suggest-recipes] uses for every user. *)
Definition default_preferences : pydict :=
  [ ("dietary_restrictions", PList []);
    ("health_goals", PList [PStr "balanced"]);
    ("favorite_cuisines", PList []);
    ("cooking_skill", PStr "intermediate") ].

(** [GET /suggest-recipes] *)
Definition suggest_recipes (recipe_generator : option (RecipeGenerator G O))
    (count : Z) (use_gpt4 : bool) : handler pydict :=
  require recipe_generator "AI services not configured"
    (fun recipe_generator =>
       guarded "Recipe suggestions"
         (result <- await suggest_recipes py_str json_dumps recipe_generator
                            default_preferences count use_gpt4 ;;
          n <- await io_lift (py_len result) ;;
          io_ret [("suggestions", result); ("count", PInt n)])).

(** The context [POST /chat] uses for every user. *)
Definition chat_context : pydict :=
  [ ("health_goals", PList [PStr "balanced nutrition"]);
    ("dietary_restrictions", PList []);
    ("recent_meals", PInt 0) ].

(** [POST /chat] *)
Definition chat (chat_assistant : option (ChatAssistant G O)) (request : ChatRequest)
    (now : string) : handler pydict :=
  require chat_assistant "AI services not configured"
    (fun chat_assistant =>
       guarded "Chat"
         (result <- await chat_with_assistant py_str chat_assistant (cr_message request)
                            (cr_conversation_history request) (Some chat_context)
                            (cr_use_gpt4 request) now ;;
          io_lift (ChatResponse result))).

(** The context [POST /suggest-meal] uses for every user. *)
Definition suggest_meal_context : pydict :=
  [ ("health_goals", PList [PStr "balanced nutrition"]);
    ("dietary_restrictions", PList []) ].

(** [POST /suggest-meal] *)
Definition suggest_meal (chat_assistant : option (ChatAssistant G O))
    (request : MealSuggestionRequest) : handler pydict :=
  require chat_assistant "AI services not configured"
    (fun chat_assistant =>
       guarded "Meal suggestion"
         (suggest_meal py_str chat_assistant (msr_meal_type request)
            (Some suggest_meal_context) (msr_use_gpt4 request))).

(** [GET /analyze-diet]: the meals are not fetched yet, the list is
    empty. *)
Definition analyze_diet (chat_assistant : option (ChatAssistant G O)) (days : Z)
    (use_gpt4 : bool) : handler pydict :=
  require chat_assistant "AI services not configured"
    (fun chat_assistant =>
       guarded "Diet analysis"
         (let recent_meals : list pydict := [] in
          match recent_meals with
          | [] =>
              io_ret
                [ ("analysis",
                    PStr "No meals logged yet. Start logging meals to get personalized insights!");
                  ("meals_analyzed", PInt 0) ]
          | _ => analyze_diet_trends py_str chat_assistant recent_meals days use_gpt4
          end)).

(** [GET /health] *)
Definition ai_health_check (meal_analyzer : option (MealAnalyzer G O))
    (recipe_generator : option (RecipeGenerator G O))
    (chat_assistant : option (ChatAssistant G O)) : pydict :=
  let present {S : Type} (s : option S) : bool :=
    match s with Some _ => true | None => false end in
  [ ("meal_analyzer", PBool (present meal_analyzer));
    ("recipe_generator", PBool (present recipe_generator));
    ("chat_assistant", PBool (present chat_assistant));
    ("status",
      PStr (if (present meal_analyzer && present recipe_generator
                && present chat_assistant)%bool
            then "healthy" else "degraded")) ].

End Handlers.

End Endpoints.

(** ** Vocabulary of the properties of the remaining capabilities *)

(** An answer with three suggestions. *)
Definition suggestions_json_text : string := dq
  "Here are some ideas: [{'name': 'Oat bowl'}, {'name': 'Lentil soup'}, {'name': 'Rice'}]".

(** ** Vocabulary of the properties of the endpoints *)

(** A computation that records provider calls adds at most [n] calls
    to the record, each of which satisfies [Q]. *)
Definition emits {R : Type} (n : nat) (Q : call -> Prop)
    (m : list call -> R * list call) : Prop :=
  forall log,
    exists new,
      snd (m log) = (log ++ new)%list /\ (List.length new <= n)%nat /\ Forall Q new.

Definition present {S : Type} (s : option S) : bool :=
  match s with Some _ => true | None => false end.

(** The requests of the API, each with what its handler is given. *)
Inductive api_request : Type :=
  | AnalyzeMeal (request : AnalyzeMealRequest) (now : string)
  | QuickCalorieEstimate (image_url : string)
  | GenerateRecipe (request : GenerateRecipeRequest) (now : string)
  | GenerateRecipeFromPhoto (image_url preference : string)
  | SuggestRecipes (count : Z) (use_gpt4 : bool)
  | ChatMessage (request : ChatRequest) (now : string)
  | SuggestMeal (request : MealSuggestionRequest)
  | AnalyzeDiet (days : Z) (use_gpt4 : bool).

(** The most provider calls a request can cost. *)
Definition max_calls (rq : api_request) : nat :=
  match rq with
  | AnalyzeMeal _ _ => 2
  | AnalyzeDiet _ _ => 0
  | _ => 1
  end.

Definition text_provider (use_gpt4 : bool) : AIProvider :=
  if use_gpt4 then GPT4_VISION else GEMINI_FLASH.

(** The adapters a request can reach. *)
Definition may_serve (rq : api_request) (p : AIProvider) : bool :=
  match rq with
  | AnalyzeMeal _ _ => (AIProvider_eqb p GEMINI_FLASH || AIProvider_eqb p GPT4_VISION)%bool
  | QuickCalorieEstimate _ => AIProvider_eqb p GEMINI_FLASH
  | GenerateRecipe request _ => AIProvider_eqb p (text_provider (grr_use_gpt4 request))
  | GenerateRecipeFromPhoto _ _ => AIProvider_eqb p GPT4_VISION
  | SuggestRecipes _ use_gpt4 => AIProvider_eqb p (text_provider use_gpt4)
  | ChatMessage request _ => AIProvider_eqb p (text_provider (cr_use_gpt4 request))
  | SuggestMeal request => AIProvider_eqb p (text_provider (msr_use_gpt4 request))
  | AnalyzeDiet _ _ => false
  end.

Section Api.

Context {G O : Type} {gemini_service : BaseAIService G} {gpt4_service : BaseAIService O}.

Variable py_str : pyval -> string.
Variable json_dumps : pydict -> string.

(** What the factory hands to the handlers. *)
Record services : Type := {
  meal_analyzer : option (MealAnalyzer G O);
  recipe_generator : option (RecipeGenerator G O);
  chat_assistant : option (ChatAssistant G O)
}.

(** The handler of a request. *)
Definition handle (s : services) (rq : api_request) : handler pydict :=
  match rq with
  | AnalyzeMeal request now => Endpoints.analyze_meal (meal_analyzer s) request now
  | QuickCalorieEstimate image_url =>
      Endpoints.quick_calorie_estimate (meal_analyzer s) image_url
  | GenerateRecipe request now =>
      Endpoints.generate_recipe py_str (recipe_generator s) request now
  | GenerateRecipeFromPhoto image_url preference =>
      Endpoints.generate_recipe_from_photo (recipe_generator s) image_url preference
  | SuggestRecipes count use_gpt4 =>
      Endpoints.suggest_recipes py_str json_dumps (recipe_generator s) count use_gpt4
  | ChatMessage request now => Endpoints.chat py_str (chat_assistant s) request now
  | SuggestMeal request => Endpoints.suggest_meal py_str (chat_assistant s) request
  | AnalyzeDiet days use_gpt4 => Endpoints.analyze_diet py_str (chat_assistant s) days use_gpt4
  end.

End Api.

Arguments services G O : clear implicits.

(** A free-tier request for an analysis by the provider of this name. *)
Definition sample_request (force_provider : option string) : AnalyzeMealRequest :=
  {| amr_image_url := sample_image;
     amr_user_tier := "free";
     amr_force_provider := force_provider |}.

(** The record the fallback parser returns for an empty response. *)
Definition empty_nutrition : NutritionData :=
  {| calories := PyFloat.lit 0 0;
     protein_g := PyFloat.lit 0 0;
     carbs_g := PyFloat.lit 0 0;
     fat_g := PyFloat.lit 0 0;
     fiber_g := None;
     sugar_g := None;
     sodium_mg := None;
     ingredients := [];
     portions := None;
     meal_type := None;
     nd_confidence := PyFloat.lit 6 (-1);
     notes := Some "Parsed from natural language response (fallback mode)" |}.

(** Both providers unreachable. *)
Definition analyzer_all_down : MealAnalyzer GeminiService OpenAIVisionService :=
  sample_analyzer gemini_failing gpt4_failing.

Definition is_meal_analysis (rq : api_request) : bool :=
  match rq with AnalyzeMeal _ _ => true | _ => false end.

(** The three services with unreachable providers. *)
Definition services_all_down : services GeminiService OpenAIVisionService :=
  {| meal_analyzer := Some analyzer_all_down;
     recipe_generator := Some {| rg_gemini := gemini_failing; rg_gpt4 := gpt4_failing |};
     chat_assistant :=
       Some {| ca_gemini := gemini_failing; ca_gpt4 := gpt4_failing;
               ca_default_provider := GEMINI_FLASH |} |}.

(** ** Vocabulary of the properties of the text capabilities *)

(** The call of a text capability. *)
Definition text_call (use_gpt4 : bool) (prompt : string) : call :=
  {| call_to := text_provider use_gpt4; call_op := GenerateText; call_arg := prompt |}.

Definition is_dict (v : pyval) : bool :=
  match v with PDict _ => true | _ => false end.

(** A meal whose [nutrition] passes [if meal.get('nutrition'):] and has
    no [get]: anything truthy that is no dictionary. *)
Definition bad_nutrition (meal : pydict) : bool :=
  (py_truth (dict_get meal "nutrition" PNone)
   && negb (is_dict (dict_get meal "nutrition" PNone)))%bool.
(** * Properties *)

(** ** Floats *)

Lemma SFcompare_antisym (a b : spec_float) :
  SFcompare b a = option_map CompOpp (SFcompare a b).
Proof.
  destruct a as [sa | sa | | sa ma ea], b as [sb | sb | | sb mb eb]; simpl;
    try reflexivity;
    try (destruct sa; reflexivity);
    try (destruct sb; reflexivity);
    try (destruct sa, sb; reflexivity).
  destruct sa, sb; simpl; try reflexivity;
    rewrite (Z.compare_antisym ea eb), (Pos.compare_antisym ma mb : Pos.compare_cont Eq mb ma = _);
    destruct (ea ?= eb); simpl; try reflexivity;
    destruct (Pos.compare_cont Eq ma mb); reflexivity.
Qed.

(** [a <= b] excludes [b < a]. *)
Lemma leb_ltb_false (a b : PyFloat.float) :
  PyFloat.leb a b = true -> PyFloat.ltb b a = false.
Proof.
  unfold PyFloat.leb, PyFloat.ltb, SFleb, SFltb.
  rewrite (SFcompare_antisym a b).
  destruct (SFcompare a b) as [[ | | ] | ]; simpl; congruence.
Qed.

(** ** The fuel of [json.loads] *)

Module JsonFuel.

Import Json.

Lemma skip_ws_length (s : string) : (String.length (skip_ws s) <= String.length s)%nat.
Proof.
  induction s as [ | c s IH]; simpl; [lia | ].
  destruct (is_ws c); simpl; lia.
Qed.

Lemma scan_string_length_aux (n : nat) :
  forall s body rest,
    (String.length s <= n)%nat ->
    scan_string s = Some (body, rest) ->
    (String.length rest < String.length s)%nat.
Proof.
  induction n as [ | n IH]; intros s body rest Hn H.
  - destruct s; [discriminate | simpl in Hn; lia].
  - destruct s as [ | c s1]; [discriminate | ].
    cbn [scan_string] in H. simpl in Hn.
    destruct (Ascii.eqb c quote).
    { injection H as _ <-. simpl. lia. }
    destruct (Ascii.eqb c backslash).
    + destruct s1 as [ | e s2]; [discriminate | ]. simpl in Hn.
      destruct (simple_escape e).
      * destruct (scan_string s2) as [[b r] | ] eqn:H2; [ | discriminate].
        injection H as _ <-.
        assert (String.length r < String.length s2)%nat by (apply (IH s2 b r); [lia | exact H2]).
        simpl. lia.
      * destruct (Ascii.eqb e "u"); [ | discriminate].
        destruct s2 as [ | h1 [ | h2 [ | h3 [ | h4 s6]]]]; try discriminate.
        simpl in Hn.
        destruct (hex4 h1 h2 h3 h4); [ | discriminate].
        destruct (scan_string s6) as [[b r] | ] eqn:H6; [ | discriminate].
        injection H as _ <-.
        assert (String.length r < String.length s6)%nat by (apply (IH s6 b r); [lia | exact H6]).
        simpl. lia.
    + destruct (Nat.ltb (nat_of_ascii c) 32); [discriminate | ].
      destruct (scan_string s1) as [[b r] | ] eqn:H1; [ | discriminate].
      injection H as _ <-.
      assert (String.length r < String.length s1)%nat by (apply (IH s1 b r); [lia | exact H1]).
      simpl. lia.
Qed.

Lemma scan_string_length (s body rest : string) :
  scan_string s = Some (body, rest) -> (String.length rest < String.length s)%nat.
Proof. apply (scan_string_length_aux (String.length s)). lia. Qed.

Lemma digits_length (s : string) :
  forall acc cnt v c r,
    Numeral.digits s acc cnt = (v, c, r) ->
    (String.length r + c <= String.length s + cnt)%nat /\ (cnt <= c)%nat.
Proof.
  induction s as [ | ch s IH]; intros acc cnt v c r H; simpl in H.
  - injection H as _ <- <-. simpl. lia.
  - destruct (PyStr.is_digit ch).
    + apply IH in H. simpl. lia.
    + injection H as _ <- <-. simpl. lia.
Qed.

Lemma sign_length (s : string) (neg : bool) (r : string) :
  Numeral.sign s = (neg, r) -> (String.length r <= String.length s)%nat.
Proof.
  unfold Numeral.sign. destruct s as [ | c s]; [intro H; injection H as _ <-; lia | ].
  destruct (Numeral.is_chr 45 c); [intro H; injection H as _ <-; simpl; lia | ].
  destruct (Numeral.is_chr 43 c); intro H; injection H as _ <-; simpl; lia.
Qed.

Lemma exponent_length (s : string) (e : Z) (r : string) :
  Numeral.exponent Numeral.digits s = (e, r) ->
  (String.length r <= String.length s)%nat.
Proof.
  unfold Numeral.exponent. destruct s as [ | c s]; [intro H; injection H as _ <-; lia | ].
  destruct (Numeral.is_chr 101 c || Numeral.is_chr 69 c)%bool;
    [ | intro H; injection H as _ <-; lia].
  destruct (Numeral.sign s) as [neg s1] eqn:Hs. apply sign_length in Hs.
  destruct (Numeral.digits s1 0%N O) as [[v cnt] s2] eqn:Hd. apply digits_length in Hd.
  destruct cnt; intro H; injection H as _ <-; simpl; lia.
Qed.

Lemma scan_number_length (s : string) (v : pyval) (rest : string) :
  scan_number s = Some (v, rest) -> (String.length rest < String.length s)%nat.
Proof.
  unfold scan_number.
  set (p := match s with
            | String c r => if Ascii.eqb c "-" then (true, r) else (false, s)
            | EmptyString => (false, s)
            end).
  assert (Hp : (String.length (snd p) <= String.length s)%nat).
  { unfold p. destruct s as [ | c r]; simpl; [lia | ].
    destruct (Ascii.eqb c "-"); simpl; lia. }
  destruct p as [neg s1]. simpl in Hp.
  destruct s1 as [ | c r]; [discriminate | ].
  destruct (PyStr.is_digit c) eqn:Hc; [ | discriminate].
  set (q := if Ascii.eqb c "0" then (0%N, 1%nat, r) else Numeral.digits (String c r) 0%N O).
  assert (Hq : (String.length (snd q) < String.length (String c r))%nat).
  { unfold q. destruct (Ascii.eqb c "0"); simpl; [lia | ].
    rewrite Hc.
    destruct (Numeral.digits r _ 1) as [[v1 c1] r1] eqn:Hd.
    apply digits_length in Hd. simpl. lia. }
  destruct q as [[ip ic] s2]. simpl in Hq.
  set (t := match s2 with
            | String d r2 =>
                if Ascii.eqb d "." then
                  match Numeral.digits r2 ip O with
                  | (_, O, _) => (ip, O, s2)
                  | res => res
                  end
                else (ip, O, s2)
            | EmptyString => (ip, O, s2)
            end).
  assert (Ht : (String.length (snd t) <= String.length s2)%nat).
  { unfold t. destruct s2 as [ | d r2]; simpl; [lia | ].
    destruct (Ascii.eqb d "."); simpl; [ | lia].
    destruct (Numeral.digits r2 ip O) as [[v1 c1] r1] eqn:Hd.
    apply digits_length in Hd. destruct c1; simpl; lia. }
  destruct t as [[m fc] s3]. simpl in Ht.
  destruct (Numeral.exponent Numeral.digits s3) as [e s4] eqn:He.
  apply exponent_length in He.
  destruct (Nat.eqb fc 0 && Nat.eqb (String.length s3) (String.length s4))%bool;
    intro H; injection H as _ <-; simpl in *; lia.
Qed.

Lemma substring_length (n m : nat) (s : string) :
  (String.length (String.substring n m s) <= String.length s - n)%nat.
Proof.
  revert n m. induction s as [ | c s IH]; intros n m.
  - destruct n, m; simpl; lia.
  - destruct n as [ | n].
    + destruct m as [ | m]; simpl; [lia | ].
      specialize (IH O m). simpl in IH. lia.
    + simpl. apply IH.
Qed.

Lemma keyword_length (kw : string) (v : pyval) (s : string) (w : pyval) (rest : string) :
  kw <> EmptyString ->
  keyword kw v s = Some (w, rest) -> (String.length rest < String.length s)%nat.
Proof.
  unfold keyword, drop. intros Hkw.
  destruct (String.prefix kw s) eqn:Hpre; [ | discriminate].
  intro H. injection H as _ <-.
  assert (Hlen : (String.length kw <= String.length s)%nat).
  { clear Hkw. revert s Hpre. induction kw as [ | a kw IH]; intros s Hpre; simpl; [lia | ].
    destruct s as [ | b s]; simpl in Hpre; [discriminate | ].
    destruct (Ascii.ascii_dec a b); [ | discriminate].
    apply IH in Hpre. simpl. lia. }
  destruct kw as [ | a kw]; [congruence | ]. simpl in Hlen.
  pose proof (substring_length (String.length (String a kw))
                (String.length s - String.length (String a kw)) s) as Hsub.
  simpl in *. lia.
Qed.

Lemma scan_atom_length (s : string) (v : pyval) (rest : string) :
  scan_atom s = Some (v, rest) -> (String.length rest < String.length s)%nat.
Proof.
  unfold scan_atom. destruct s as [ | c r]; [discriminate | ].
  destruct (Ascii.eqb c quote).
  { destruct (scan_string r) as [[str rest'] | ] eqn:Hs; [ | discriminate].
    intro H. injection H as _ <-. apply scan_string_length in Hs. simpl. lia. }
  destruct (Ascii.eqb c "n"); [apply keyword_length; discriminate | ].
  destruct (Ascii.eqb c "t"); [apply keyword_length; discriminate | ].
  destruct (Ascii.eqb c "f"); [apply keyword_length; discriminate | ].
  destruct (scan_number (String c r)) as [[w rest'] | ] eqn:Hn.
  { intro H. injection H as _ <-. exact (scan_number_length _ _ _ Hn). }
  destruct (Ascii.eqb c "N"); [apply keyword_length; discriminate | ].
  destruct (Ascii.eqb c "I"); [apply keyword_length; discriminate | ].
  destruct (Ascii.eqb c "-"); [apply keyword_length; discriminate | discriminate].
Qed.

Lemma scans_consume (F : nat) : consumes F.
Proof.
  induction F as [ | F (IHv & IHe & IHm)]; [repeat split; intros; discriminate | ].
  repeat split.
  - intros s v r H. cbn [scan_value] in H.
    destruct s as [ | c s1]; [discriminate | ].
    destruct (Ascii.eqb c "{").
    { pose proof (skip_ws_length s1) as Hw.
      destruct (skip_ws s1) as [ | c1 r1]; [discriminate | ].
      destruct (Ascii.eqb c1 "}").
      - injection H as _ <-. simpl in *. lia.
      - apply IHm in H. simpl in *. lia. }
    destruct (Ascii.eqb c "[").
    { pose proof (skip_ws_length s1) as Hw.
      destruct (skip_ws s1) as [ | c1 r1]; [discriminate | ].
      destruct (Ascii.eqb c1 "]").
      - injection H as _ <-. simpl in *. lia.
      - apply IHe in H. simpl in *. lia. }
    exact (scan_atom_length _ _ _ H).
  - intros s acc v r H. cbn [scan_elements] in H.
    destruct (scan_value F s) as [[w r0] | ] eqn:Hv; [ | discriminate].
    apply IHv in Hv.
    pose proof (skip_ws_length r0) as Hw.
    destruct (skip_ws r0) as [ | c r1]; [discriminate | ].
    destruct (Ascii.eqb c ",").
    + apply IHe in H. pose proof (skip_ws_length r1). simpl in *. lia.
    + destruct (Ascii.eqb c "]"); [ | discriminate].
      injection H as _ <-. simpl in *. lia.
  - intros s acc v r H. cbn [scan_members] in H.
    destruct s as [ | c s1]; [discriminate | ].
    destruct (Ascii.eqb c quote); [ | discriminate].
    destruct (scan_string s1) as [[k r1] | ] eqn:Hk; [ | discriminate].
    apply scan_string_length in Hk.
    pose proof (skip_ws_length r1) as Hw1.
    destruct (skip_ws r1) as [ | c2 r2]; [discriminate | ].
    destruct (Ascii.eqb c2 ":"); [ | discriminate].
    destruct (scan_value F (skip_ws r2)) as [[w r3] | ] eqn:Hv; [ | discriminate].
    apply IHv in Hv. pose proof (skip_ws_length r2) as Hw2.
    pose proof (skip_ws_length r3) as Hw3.
    destruct (skip_ws r3) as [ | c4 r4]; [discriminate | ].
    destruct (Ascii.eqb c4 ",").
    + apply IHm in H. pose proof (skip_ws_length r4). simpl in *. lia.
    + destruct (Ascii.eqb c4 "}"); [ | discriminate].
      injection H as _ <-. simpl in *. lia.
Qed.

Lemma fuel_saturates (F : nat) : saturated F.
Proof.
  induction F as [ | F (IHv & IHe & IHm)]; [repeat split; intros; lia | ].
  destruct (scans_consume F) as (Cv & _ & _).
  repeat split.
  - intros s Hs.
    cbn [scan_value].
    destruct s as [ | c s1]; [reflexivity | ]. simpl in Hs.
    pose proof (skip_ws_length s1) as Hw.
    destruct (Ascii.eqb c "{").
    { destruct (skip_ws s1) as [ | c1 r1]; [reflexivity | ].
      destruct (Ascii.eqb c1 "}"); [reflexivity | ].
      apply IHm. simpl in *. lia. }
    destruct (Ascii.eqb c "[").
    { destruct (skip_ws s1) as [ | c1 r1]; [reflexivity | ].
      destruct (Ascii.eqb c1 "]"); [reflexivity | ].
      apply IHe. simpl in *. lia. }
    reflexivity.
  - intros s acc Hs.
    cbn [scan_elements].
    rewrite (IHv s) by lia.
    destruct (scan_value F s) as [[w r0] | ] eqn:Hv; [ | reflexivity].
    apply Cv in Hv.
    pose proof (skip_ws_length r0) as Hw.
    destruct (skip_ws r0) as [ | c r1]; [reflexivity | ].
    destruct (Ascii.eqb c ","); [ | reflexivity].
    apply IHe. pose proof (skip_ws_length r1). simpl in *. lia.
  - intros s acc Hs.
    cbn [scan_members].
    destruct s as [ | c s1]; [reflexivity | ]. simpl in Hs.
    destruct (Ascii.eqb c quote); [ | reflexivity].
    destruct (scan_string s1) as [[k r1] | ] eqn:Hk; [ | reflexivity].
    apply scan_string_length in Hk.
    pose proof (skip_ws_length r1) as Hw1.
    destruct (skip_ws r1) as [ | c2 r2]; [reflexivity | ].
    destruct (Ascii.eqb c2 ":"); [ | reflexivity].
    pose proof (skip_ws_length r2) as Hw2.
    rewrite (IHv (skip_ws r2)) by (simpl in *; lia).
    destruct (scan_value F (skip_ws r2)) as [[w r3] | ] eqn:Hv; [ | reflexivity].
    apply Cv in Hv.
    pose proof (skip_ws_length r3) as Hw3.
    destruct (skip_ws r3) as [ | c4 r4]; [reflexivity | ].
    destruct (Ascii.eqb c4 ","); [ | reflexivity].
    apply IHm. pose proof (skip_ws_length r4). simpl in *. lia.
Qed.

(** [json.loads] does not depend on its fuel: any larger amount gives
    the same value, so the decoder never stops for lack of it. *)
Lemma loads_fuel (s : string) (extra : nat) :
  scan_value (extra + (2 * String.length s + 2)) (skip_ws s) =
  scan_value (2 * String.length s + 2) (skip_ws s).
Proof.
  induction extra as [ | extra IH]; [reflexivity | ].
  rewrite <- IH. simpl plus.
  apply (proj1 (fuel_saturates _)).
  pose proof (skip_ws_length s). lia.
Qed.

End JsonFuel.

(** ** The exception monad *)

Lemma bind_Return {A B : Type} (m : exc A) (k : A -> exc B) (b : B) :
  bind m k = Return b -> exists a, m = Return a /\ k a = Return b.
Proof. destruct m as [a | e]; simpl; [eauto | discriminate]. Qed.

Lemma forget_Raise {A : Type} (m : exc A) (e : exn) :
  forget m = Raise e -> m = Raise e.
Proof. destruct m; simpl; congruence. Qed.

(** Splits a successful chain of binds into its steps. *)
Ltac invert_binds H :=
  repeat
    match type of H with
    | bind _ _ = Return _ =>
        let a := fresh "a" in
        let Ha := fresh "Ha" in
        apply bind_Return in H; destruct H as (a & Ha & H)
    | (let '(_, _) := ?p in _) = Return _ => destruct p
    | Return _ = Return _ => injection H as H
    end.

(** An [except Exception] clause that returns leaves nothing raised. *)
Lemma try_except_total {A : Type} (body : exc A) (f : exn -> A) :
  try_except body is_Exception (fun e => Return (f e)) =
  Return (match body with Return a => a | Raise e => f e end).
Proof. destruct body; reflexivity. Qed.

(** ** Confidence stays in the unit interval *)

Lemma fold_left_map_hits (f : PyFloat.float -> bool -> PyFloat.float)
    (g : string -> bool) (l : list string) (a : PyFloat.float) :
  fold_left (fun c p => f c (g p)) l a = fold_left f (map g l) a.
Proof.
  revert a; induction l as [ | p l IH]; intro a; simpl; [reflexivity | apply IH].
Qed.

Lemma assess_confidence_core (response : string) :
  assess_confidence response =
  assess_core (map (fun p => PyStr.contains p (PyStr.lower response)) uncertainty_phrases)
    (200 <? PyStr.len response).
Proof.
  unfold assess_confidence, assess_core.
  rewrite <- fold_left_map_hits. reflexivity.
Qed.

Lemma bool_lists_complete (l : list bool) : In l (bool_lists (List.length l)).
Proof.
  induction l as [ | b l IH]; simpl; [now left | ].
  apply in_flat_map. exists l. split; [exact IH | ].
  destruct b; simpl; auto.
Qed.

(** Every combination of phrases, long response or not. *)
Lemma assess_core_ok :
  forallb (fun hits => (adapter_confidences_ok (assess_core hits true)
                        && adapter_confidences_ok (assess_core hits false))%bool)
    (bool_lists (List.length uncertainty_phrases)) = true.
Proof. vm_compute. reflexivity. Qed.

Lemma assess_confidence_ok (response : string) :
  adapter_confidences_ok (assess_confidence response) = true.
Proof.
  rewrite assess_confidence_core.
  set (hits := map _ uncertainty_phrases).
  assert (Hin : In hits (bool_lists (List.length uncertainty_phrases))).
  { replace (List.length uncertainty_phrases) with (List.length hits)
      by (unfold hits; apply length_map).
    apply bool_lists_complete. }
  pose proof (proj1 (forallb_forall _ _) assess_core_ok hits Hin) as H.
  apply andb_true_iff in H. destruct H as [Ht Hf].
  destruct (200 <? PyStr.len response); assumption.
Qed.

Lemma assess_confidence_cases (response : string) :
  in_unit_interval (assess_confidence response) = true
  /\ in_unit_interval
       (PyFloat.py_min (PyFloat.lit 1 0)
          (PyFloat.add (assess_confidence response) (PyFloat.lit 5 (-2)))) = true
  /\ in_unit_interval
       (PyFloat.add (assess_confidence response) (PyFloat.lit 5 (-2))) = true.
Proof.
  pose proof (assess_confidence_ok response) as H. unfold adapter_confidences_ok in H.
  apply andb_true_iff in H. destruct H as [H H3].
  apply andb_true_iff in H. destruct H as [H1 H2]. auto.
Qed.

Lemma error_response_confidence (cfg : AIConfig) (ms : Z) (now : PyFloat.float) (e : exn) :
  in_unit_interval (confidence (error_response cfg ms now e)) = true.
Proof. reflexivity. Qed.

(** The confidence of an envelope built by a [try] block. *)
Lemma try_block_confidence (c : adapter_call) (r : AIResponse) :
  try_block c = Return r -> in_unit_interval (confidence r) = true.
Proof.
  destruct c as [self u p k | self p ctx k | self ms k
                | self u p k | self p ctx k | self ms k]; simpl.
  - unfold Gemini.analyze_image_body. intro H. invert_binds H. subst r. simpl.
    apply assess_confidence_cases.
  - unfold Gemini.generate_text_body. intro H. invert_binds H. subst r. simpl.
    apply assess_confidence_cases.
  - unfold Gemini.chat_body. intro H. invert_binds H. subst r. simpl.
    apply assess_confidence_cases.
  - unfold OpenAI.analyze_image_body. intro H. invert_binds H.
    unfold OpenAI.assess_content in Ha1. destruct (ch_content a0); [ | discriminate].
    injection Ha1 as Ha1. inversion Ha1; subst. simpl.
    apply assess_confidence_cases.
  - unfold OpenAI.generate_text_body, OpenAI.text_response. intro H. invert_binds H.
    unfold OpenAI.assess_content in Ha1. destruct (ch_content a0); [ | discriminate].
    injection Ha1 as Ha1. inversion Ha1; subst. simpl.
    apply assess_confidence_cases.
  - unfold OpenAI.chat_body, OpenAI.text_response. intro H. invert_binds H.
    unfold OpenAI.assess_content in Ha1. destruct (ch_content a0); [ | discriminate].
    injection Ha1 as Ha1. inversion Ha1; subst. simpl.
    apply assess_confidence_cases.
Qed.

(** What the caller receives is the envelope of the [try] block, or the
    error envelope of the [except] clause. *)
Lemma run_adapter_total (c : adapter_call) :
  exists cfg ms now,
    run_adapter c =
    Return (match try_block c with
            | Return r => r
            | Raise e => error_response cfg ms now e
            end).
Proof.
  destruct c; simpl;
    unfold Gemini.analyze_image, Gemini.generate_text, Gemini.chat,
      OpenAI.analyze_image, OpenAI.generate_text, OpenAI.chat;
    rewrite try_except_total; eauto.
Qed.

(** A failing provider call makes the [try] block fail with the same
    exception. *)
Lemma provider_failure_raises (c : adapter_call) (e : exn) :
  provider_call c = Raise e -> try_block c = Raise e.
Proof.
  destruct c as [self u p k | self p ctx k | self ms k
                | self u p k | self p ctx k | self ms k]; simpl; intro H.
  - unfold Gemini.analyze_image_body.
    destruct (Gemini.image_data self u) as [img | e']; simpl in *; [ | congruence].
    apply forget_Raise in H. rewrite H. reflexivity.
  - unfold Gemini.generate_text_body. apply forget_Raise in H. simpl. rewrite H. reflexivity.
  - unfold Gemini.chat_body. apply forget_Raise in H. simpl. rewrite H. reflexivity.
  - unfold OpenAI.analyze_image_body. apply forget_Raise in H. simpl. rewrite H. reflexivity.
  - unfold OpenAI.generate_text_body. apply forget_Raise in H. simpl. rewrite H. reflexivity.
  - unfold OpenAI.chat_body. apply forget_Raise in H. simpl. rewrite H. reflexivity.
Qed.

(** C3: the envelope of every adapter operation, on both adapters, has
    a confidence between 0 and 1, whatever the provider answered and
    whether or not the call failed; and the operation always yields an
    envelope. *)
Theorem adapter_confidence_in_unit_interval (c : adapter_call) :
  match run_adapter c with
  | Return r => in_unit_interval (confidence r) = true
  | Raise _ => False
  end.
Proof.
  destruct (run_adapter_total c) as (cfg & ms & now & ->).
  destruct (try_block c) as [r | e] eqn:Hbody.
  - exact (try_block_confidence c r Hbody).
  - apply error_response_confidence.
Qed.

(** C4: an adapter operation always returns an envelope, never an
    exception.  When its [try] block raises [e], and in particular when
    the provider call inside it does, the envelope carries [str(e)] in
    [error], confidence 0 and cost 0; otherwise it is the envelope the
    block built. *)
Theorem adapter_failure_is_an_envelope (c : adapter_call) :
  exists r,
    run_adapter c = Return r
    /\ match try_block c with
       | Raise e => records_failure e r
       | Return r' => r = r'
       end
    /\ match provider_call c with
       | Raise e => records_failure e r
       | Return _ => True
       end.
Proof.
  destruct (run_adapter_total c) as (cfg & ms & now & Hrun).
  eexists. split; [exact Hrun | ].
  destruct (provider_call c) as [[] | e] eqn:Hcall.
  - split; [ | exact I].
    destruct (try_block c); [reflexivity | repeat split].
  - rewrite (provider_failure_raises c e Hcall). repeat split.
Qed.

(** ** Routing *)

Section RoutingProperties.

Context {G O : Type} {gemini_service : BaseAIService G} {gpt4_service : BaseAIService O}.

Implicit Types (self : MealAnalyzer G O) (r : AIResponse).

(** The provider calls of [analyze_meal], case by case. *)
Lemma analyze_meal_result_run self (image_url user_tier : string)
    (force_provider : option AIProvider) :
  analyze_meal_result self image_url user_tier force_provider [] =
  if AIProvider_eqb (_select_provider user_tier force_provider) GEMINI_FLASH then
    match gemini_answer self image_url with
    | Return r1 =>
        if (PyFloat.ltb (confidence r1) CONFIDENCE_THRESHOLD
            && String.eqb user_tier "premium")%bool
        then (gpt4_answer self image_url, [gemini_call image_url; gpt4_call image_url])
        else (Return r1, [gemini_call image_url])
    | Raise e => (Raise e, [gemini_call image_url])
    end
  else (gpt4_answer self image_url, [gpt4_call image_url]).
Proof.
  unfold analyze_meal_result, gemini_answer, gpt4_answer.
  destruct (AIProvider_eqb _ GEMINI_FLASH); [ | reflexivity].
  unfold io_bind, _analyze_with_gemini, _analyze_with_gpt4, invoke, io_ret; simpl.
  destruct (analyze_image (gemini self) image_url _get_analysis_prompt no_kwargs)
    as [r1 | e]; [ | reflexivity].
  destruct (PyFloat.ltb (confidence r1) CONFIDENCE_THRESHOLD && String.eqb user_tier "premium")%bool;
    reflexivity.
Qed.

(** [analyze_meal] parses and packages the envelope the routing kept,
    and calls no provider after it. *)
Lemma analyze_meal_run self (image_url user_tier : string)
    (force_provider : option AIProvider) (now : string) :
  outcome (analyze_meal self image_url user_tier force_provider now) =
    (result <- outcome (analyze_meal_result self image_url user_tier force_provider) ;;
     packaged result now)
  /\ calls (analyze_meal self image_url user_tier force_provider now) =
     calls (analyze_meal_result self image_url user_tier force_provider).
Proof.
  unfold outcome, calls, analyze_meal, io_bind, packaged, io_lift, io_ret.
  destruct (analyze_meal_result self image_url user_tier force_provider [])
    as [[result | e] log]; simpl; [ | split; reflexivity].
  destruct (_parse_nutrition (content result)); split; reflexivity.
Qed.

(** The routing when Gemini answers below the threshold for a premium
    caller: one more call, to GPT-4 Vision, whose answer is kept. *)
Lemma escalation self (image_url user_tier : string)
    (force_provider : option AIProvider) (now : string) r1 :
  _select_provider user_tier force_provider = GEMINI_FLASH ->
  gemini_answer self image_url = Return r1 ->
  PyFloat.ltb (confidence r1) CONFIDENCE_THRESHOLD = true ->
  user_tier = "premium" ->
  calls (analyze_meal self image_url user_tier force_provider now) =
    [gemini_call image_url; gpt4_call image_url]
  /\ outcome (analyze_meal self image_url user_tier force_provider now) =
     (r2 <- gpt4_answer self image_url ;; packaged r2 now).
Proof.
  intros Hsel Hg Hlow ->.
  destruct (analyze_meal_run self image_url "premium" force_provider now) as [-> ->].
  unfold outcome, calls. rewrite analyze_meal_result_run, Hsel, Hg, Hlow. simpl.
  split; reflexivity.
Qed.

(** The routing when the primary answer is kept: no second call. *)
Lemma no_escalation self (image_url user_tier : string)
    (force_provider : option AIProvider) (now : string) r1 :
  primary_answer self image_url user_tier force_provider = Return r1 ->
  (AIProvider_eqb (_select_provider user_tier force_provider) GEMINI_FLASH
   && PyFloat.ltb (confidence r1) CONFIDENCE_THRESHOLD
   && String.eqb user_tier "premium")%bool = false ->
  calls (analyze_meal self image_url user_tier force_provider now) =
    [primary_call image_url user_tier force_provider]
  /\ outcome (analyze_meal self image_url user_tier force_provider now) =
     packaged r1 now.
Proof.
  unfold primary_answer, primary_call. intros Hp Hno.
  destruct (analyze_meal_run self image_url user_tier force_provider now) as [-> ->].
  unfold outcome, calls. rewrite analyze_meal_result_run.
  destruct (AIProvider_eqb _ GEMINI_FLASH); simpl in *.
  - rewrite Hp, Hno. split; reflexivity.
  - rewrite Hp. split; reflexivity.
Qed.

Lemma select_gemini_eqb (user_tier : string) (force_provider : option AIProvider) :
  _select_provider user_tier force_provider = GEMINI_FLASH ->
  AIProvider_eqb (_select_provider user_tier force_provider) GEMINI_FLASH = true.
Proof. intros ->. reflexivity. Qed.

Lemma select_not_gemini_eqb (user_tier : string) (force_provider : option AIProvider) :
  _select_provider user_tier force_provider <> GEMINI_FLASH ->
  AIProvider_eqb (_select_provider user_tier force_provider) GEMINI_FLASH = false.
Proof. destruct (_select_provider user_tier force_provider); simpl; congruence. Qed.

(** The entries of the metadata block of a packaged envelope. *)
Lemma packaged_metadata r (now : string) (d : pydict) :
  packaged r now = Return d ->
  ai_metadata_keys d =
    Some ["provider"; "model"; "confidence"; "cost_usd"; "response_time_ms";
          "tokens_used"; "error"]
  /\ ai_metadata_item d "provider" = Some (PStr (provider_value (provider r)))
  /\ ai_metadata_item d "model" = Some (PStr (model r))
  /\ ai_metadata_item d "confidence" = Some (PFloat (confidence r))
  /\ ai_metadata_item d "cost_usd" = Some (PFloat (cost_usd r))
  /\ ai_metadata_item d "response_time_ms" = Some (PInt (response_time_ms r))
  /\ ai_metadata_item d "tokens_used" = Some (PInt (tokens_used r))
  /\ ai_metadata_item d "error" = Some (opt_val PStr (error r)).
Proof.
  unfold packaged. intro H. invert_binds H. subst d.
  repeat split; reflexivity.
Qed.

(** C1, as amended: the escalation belongs to the Gemini path.  When
    the selected provider is Gemini Flash (for a premium caller: when it
    is forced), its answer has confidence below 0.7 and the tier is
    premium, exactly one more call is issued, to GPT-4 Vision, and the
    answer to that call is what is parsed and returned.  When the
    primary answer, of either provider, has confidence at least 0.7, the
    primary call is the only one and its answer is returned.  A primary
    answer of GPT-4 Vision is never escalated: when the selected
    provider is not Gemini Flash, the one call issued is the call to
    GPT-4 Vision and its answer is returned, whatever its confidence
    and whatever the tier. *)
Theorem escalation_on_the_gemini_path self (image_url user_tier : string)
    (force_provider : option AIProvider) (now : string) r1 :
  primary_answer self image_url user_tier force_provider = Return r1 ->
  (_select_provider user_tier force_provider = GEMINI_FLASH ->
   PyFloat.ltb (confidence r1) CONFIDENCE_THRESHOLD = true ->
   user_tier = "premium" ->
   calls (analyze_meal self image_url user_tier force_provider now) =
     [gemini_call image_url; gpt4_call image_url]
   /\ outcome (analyze_meal self image_url user_tier force_provider now) =
      (r2 <- gpt4_answer self image_url ;; packaged r2 now))
  /\ (PyFloat.leb CONFIDENCE_THRESHOLD (confidence r1) = true ->
      calls (analyze_meal self image_url user_tier force_provider now) =
        [primary_call image_url user_tier force_provider]
      /\ outcome (analyze_meal self image_url user_tier force_provider now) =
         packaged r1 now)
  /\ (_select_provider user_tier force_provider <> GEMINI_FLASH ->
      calls (analyze_meal self image_url user_tier force_provider now) =
        [gpt4_call image_url]
      /\ outcome (analyze_meal self image_url user_tier force_provider now) =
         packaged r1 now).
Proof.
  intro Hp. split; [ | split].
  - intros Hsel Hlow Htier. apply escalation with (r1 := r1); try assumption.
    unfold primary_answer in Hp. rewrite (select_gemini_eqb _ _ Hsel) in Hp. exact Hp.
  - intro Hhigh. apply no_escalation; [exact Hp | ].
    rewrite (leb_ltb_false _ _ Hhigh).
    destruct (AIProvider_eqb _ GEMINI_FLASH); reflexivity.
  - intro Hsel.
    pose proof (select_not_gemini_eqb _ _ Hsel) as Hneq.
    destruct (no_escalation self image_url user_tier force_provider now r1 Hp)
      as [Hcalls Hout]; [rewrite Hneq; reflexivity | ].
    unfold primary_call in Hcalls. rewrite Hneq in Hcalls. split; assumption.
Qed.

(** C5, as amended: with a forced provider the selection is that
    provider for every tier, the tier default is not consulted.  Forced
    GPT-4 Vision is the only provider called and its answer is
    returned.  Forced Gemini Flash is called first, and its answer is
    returned unless its confidence is below 0.7 and the tier is premium
    (the escalation of C1 then replaces it by GPT-4 Vision's). *)
Theorem forced_provider_is_selected self (image_url user_tier : string)
    (forced : AIProvider) (now : string) :
  _select_provider user_tier (Some forced) = forced
  /\ (forced = GPT4_VISION ->
      calls (analyze_meal self image_url user_tier (Some forced) now) =
        [gpt4_call image_url]
      /\ outcome (analyze_meal self image_url user_tier (Some forced) now) =
         (r <- gpt4_answer self image_url ;; packaged r now))
  /\ (forced = GEMINI_FLASH ->
      forall r1,
        gemini_answer self image_url = Return r1 ->
        (PyFloat.ltb (confidence r1) CONFIDENCE_THRESHOLD
         && String.eqb user_tier "premium")%bool = false ->
        calls (analyze_meal self image_url user_tier (Some forced) now) =
          [gemini_call image_url]
        /\ outcome (analyze_meal self image_url user_tier (Some forced) now) =
           packaged r1 now)
  /\ (forced = GEMINI_FLASH ->
      forall r1,
        gemini_answer self image_url = Return r1 ->
        PyFloat.ltb (confidence r1) CONFIDENCE_THRESHOLD = true ->
        user_tier = "premium" ->
        calls (analyze_meal self image_url user_tier (Some forced) now) =
          [gemini_call image_url; gpt4_call image_url]
        /\ outcome (analyze_meal self image_url user_tier (Some forced) now) =
           (r2 <- gpt4_answer self image_url ;; packaged r2 now)).
Proof.
  split; [reflexivity | split; [ | split]].
  - intros ->.
    destruct (analyze_meal_run self image_url user_tier (Some GPT4_VISION) now) as [-> ->].
    unfold outcome, calls. rewrite analyze_meal_result_run. simpl. split; reflexivity.
  - intros -> r1 Hg Hno.
    apply (no_escalation self image_url user_tier (Some GEMINI_FLASH) now r1 Hg).
    simpl. exact Hno.
  - intros -> r1 Hg Hlow Htier.
    exact (escalation self image_url user_tier (Some GEMINI_FLASH) now r1 eq_refl Hg Hlow Htier).
Qed.

(** C6, as amended: the routing does not look at the [error] field.
    An error envelope from the primary provider is returned as it is,
    with no second call, when the primary provider is not Gemini Flash
    or the tier is not premium.  On the Gemini path of a premium caller
    the error envelope, whose confidence is 0, is below the threshold
    like any other low-confidence answer, and the one escalation call
    to GPT-4 Vision is made. *)
Theorem error_envelope_routing self (image_url user_tier : string)
    (force_provider : option AIProvider) (now : string) r1 :
  primary_answer self image_url user_tier force_provider = Return r1 ->
  error r1 <> None ->
  (_select_provider user_tier force_provider <> GEMINI_FLASH \/ user_tier <> "premium" ->
   calls (analyze_meal self image_url user_tier force_provider now) =
     [primary_call image_url user_tier force_provider]
   /\ outcome (analyze_meal self image_url user_tier force_provider now) =
      packaged r1 now)
  /\ (_select_provider user_tier force_provider = GEMINI_FLASH ->
      user_tier = "premium" ->
      confidence r1 = PyFloat.lit 0 0 ->
      calls (analyze_meal self image_url user_tier force_provider now) =
        [gemini_call image_url; gpt4_call image_url]
      /\ outcome (analyze_meal self image_url user_tier force_provider now) =
         (r2 <- gpt4_answer self image_url ;; packaged r2 now)).
Proof.
  intros Hp _. split.
  - intros Hcase. apply no_escalation; [exact Hp | ].
    destruct Hcase as [Hsel | Htier].
    + rewrite (select_not_gemini_eqb _ _ Hsel). reflexivity.
    + apply String.eqb_neq in Htier. rewrite Htier.
      rewrite !andb_false_r. reflexivity.
  - intros Hsel Htier Hzero. apply escalation with (r1 := r1); try assumption.
    + unfold primary_answer in Hp. rewrite (select_gemini_eqb _ _ Hsel) in Hp. exact Hp.
    + rewrite Hzero. reflexivity.
Qed.

(** C10: when the escalation occurs, the returned dictionary is built
    from the second envelope alone: its [cost_usd] and [tokens_used]
    are those of GPT-4 Vision's answer, and the first envelope, with
    its cost and tokens, occurs nowhere in it. *)
Theorem escalated_result_is_the_second_envelope self (image_url : string)
    (force_provider : option AIProvider) (now : string) r1 r2 :
  _select_provider "premium" force_provider = GEMINI_FLASH ->
  gemini_answer self image_url = Return r1 ->
  PyFloat.ltb (confidence r1) CONFIDENCE_THRESHOLD = true ->
  gpt4_answer self image_url = Return r2 ->
  calls (analyze_meal self image_url "premium" force_provider now) =
    [gemini_call image_url; gpt4_call image_url]
  /\ outcome (analyze_meal self image_url "premium" force_provider now) = packaged r2 now
  /\ forall d,
       packaged r2 now = Return d ->
       ai_metadata_item d "cost_usd" = Some (PFloat (cost_usd r2))
       /\ ai_metadata_item d "tokens_used" = Some (PInt (tokens_used r2)).
Proof.
  intros Hsel Hg Hlow Ho.
  destruct (escalation self image_url "premium" force_provider now r1 Hsel Hg Hlow eq_refl)
    as [Hcalls Hout].
  rewrite Ho in Hout. simpl in Hout.
  repeat split; try assumption;
    destruct (packaged_metadata r2 now d H) as (_ & _ & _ & _ & Hc & _ & Ht & _);
    assumption.
Qed.

End RoutingProperties.

(** ** Routing: the sample analyzers *)

Lemma answered_Return (m : exc AIResponse) (p : AIResponse -> bool) :
  answered m p = true -> exists r, m = Return r /\ p r = true.
Proof. destruct m as [r | e]; simpl; [eauto | discriminate]. Qed.

(** C1 fails as stated: a premium caller without forced provider has
    GPT-4 Vision as primary provider; its answer below 0.7 is kept and
    no additional call is issued. *)
Lemma premium_default_is_not_escalated :
  answered (primary_answer analyzer_unsure_gpt4 sample_image "premium" None)
    below_threshold = true
  /\ calls (analyze_meal analyzer_unsure_gpt4 sample_image "premium" None sample_now) =
     [gpt4_call sample_image].
Proof. split; vm_compute; reflexivity. Qed.

(** The escalation of C1 on the sample analyzer whose Gemini hedges:
    forced Gemini Flash, premium tier; and its absence on the sample
    analyzer whose GPT-4 Vision hedges, for a premium caller who forces
    nothing: GPT-4 Vision is the only provider called. *)
Lemma escalation_on_the_gemini_path_witness :
  (calls (analyze_meal analyzer_unsure_gemini sample_image "premium"
            (Some GEMINI_FLASH) sample_now) =
     [gemini_call sample_image; gpt4_call sample_image]
   /\ outcome (analyze_meal analyzer_unsure_gemini sample_image "premium"
                 (Some GEMINI_FLASH) sample_now) =
      (r2 <- gpt4_answer analyzer_unsure_gemini sample_image ;; packaged r2 sample_now))
  /\ calls (analyze_meal analyzer_unsure_gpt4 sample_image "premium" None sample_now) =
     [gpt4_call sample_image].
Proof.
  split.
  - destruct (answered_Return
                (primary_answer analyzer_unsure_gemini sample_image "premium"
                   (Some GEMINI_FLASH)) below_threshold)
      as (r1 & Hp & Hlow); [vm_compute; reflexivity | ].
    destruct (escalation_on_the_gemini_path analyzer_unsure_gemini sample_image "premium"
                (Some GEMINI_FLASH) sample_now r1 Hp) as [Hesc _].
    exact (Hesc eq_refl Hlow eq_refl).
  - destruct (answered_Return
                (primary_answer analyzer_unsure_gpt4 sample_image "premium" None)
                below_threshold)
      as (r1 & Hp & Hlow); [vm_compute; reflexivity | ].
    destruct (escalation_on_the_gemini_path analyzer_unsure_gpt4 sample_image "premium"
                None sample_now r1 Hp) as (_ & _ & Hkept).
    apply Hkept. discriminate.
Defined.

(** C5 fails as stated: with Gemini Flash forced for a premium caller,
    a hedging answer is escalated, and the result returned is GPT-4
    Vision's, not the forced provider's. *)
Lemma forced_gemini_is_escalated :
  _select_provider "premium" (Some GEMINI_FLASH) = GEMINI_FLASH
  /\ calls (analyze_meal analyzer_unsure_gemini sample_image "premium"
              (Some GEMINI_FLASH) sample_now) =
     [gemini_call sample_image; gpt4_call sample_image]
  /\ metadata_of (outcome (analyze_meal analyzer_unsure_gemini sample_image "premium"
                             (Some GEMINI_FLASH) sample_now)) "provider" =
     Some (PStr (provider_value GPT4_VISION)).
Proof. split; [ | split]; vm_compute; reflexivity. Qed.

(** C5 on the same analyzer for a free caller: forced Gemini Flash is
    the only provider called and its hedging answer is returned. *)
Lemma forced_provider_is_selected_witness :
  _select_provider "free" (Some GEMINI_FLASH) = GEMINI_FLASH
  /\ calls (analyze_meal analyzer_unsure_gemini sample_image "free"
              (Some GEMINI_FLASH) sample_now) = [gemini_call sample_image]
  /\ metadata_of (outcome (analyze_meal analyzer_unsure_gemini sample_image "free"
                             (Some GEMINI_FLASH) sample_now)) "provider" =
     Some (PStr (provider_value GEMINI_FLASH)).
Proof.
  destruct (forced_provider_is_selected analyzer_unsure_gemini sample_image "free"
              GEMINI_FLASH sample_now) as (Hsel & _ & Hgem & _).
  split; [exact Hsel | ].
  destruct (answered_Return (gemini_answer analyzer_unsure_gemini sample_image)
              (fun r => negb (below_threshold r && String.eqb "free" "premium")))
    as (r1 & Hg & Hno); [vm_compute; reflexivity | ].
  apply negb_true_iff in Hno.
  destruct (Hgem eq_refl r1 Hg Hno) as [Hcalls Hout].
  split; [exact Hcalls | ].
  rewrite Hout. vm_compute in Hg. injection Hg as <-. vm_compute. reflexivity.
Defined.

(** C6 fails as stated: with Gemini Flash forced for a premium caller
    and Gemini unreachable, the error envelope is not returned; its
    confidence 0 triggers the escalation and GPT-4 Vision is called. *)
Lemma error_envelope_is_escalated :
  answered (primary_answer analyzer_gemini_down sample_image "premium" (Some GEMINI_FLASH))
    has_error = true
  /\ calls (analyze_meal analyzer_gemini_down sample_image "premium"
              (Some GEMINI_FLASH) sample_now) =
     [gemini_call sample_image; gpt4_call sample_image]
  /\ metadata_of (outcome (analyze_meal analyzer_gemini_down sample_image "premium"
                             (Some GEMINI_FLASH) sample_now)) "provider" =
     Some (PStr (provider_value GPT4_VISION))
  /\ metadata_of (outcome (analyze_meal analyzer_gemini_down sample_image "premium"
                             (Some GEMINI_FLASH) sample_now)) "error" = Some PNone.
Proof. split; [ | split; [ | split]]; vm_compute; reflexivity. Qed.

(** C6 for a free caller whose Gemini is unreachable: one call, and the
    error envelope's metadata in the result. *)
Lemma error_envelope_routing_witness :
  calls (analyze_meal analyzer_gemini_down sample_image "free" None sample_now) =
    [gemini_call sample_image]
  /\ metadata_of (outcome (analyze_meal analyzer_gemini_down sample_image "free" None
                             sample_now)) "error" =
     Some (PStr "503 service unavailable").
Proof.
  destruct (answered_Return
              (primary_answer analyzer_gemini_down sample_image "free" None) has_error)
    as (r1 & Hp & Herr); [vm_compute; reflexivity | ].
  assert (Herror : error r1 <> None).
  { unfold has_error in Herr. destruct (error r1); [discriminate | discriminate]. }
  destruct (error_envelope_routing analyzer_gemini_down sample_image "free" None
              sample_now r1 Hp Herror) as [Hkeep _].
  destruct Hkeep as [Hcalls Hout]; [right; discriminate | ].
  split; [exact Hcalls | ].
  rewrite Hout. vm_compute in Hp. injection Hp as <-. vm_compute. reflexivity.
Defined.

(** C10 on the sample analyzer whose Gemini hedges: the returned
    tokens are GPT-4 Vision's 1900, not Gemini's 1500, and the returned
    cost is that of GPT-4 Vision's 1500 input and 400 output tokens and
    one image. *)
Lemma escalated_result_is_the_second_envelope_witness :
  metadata_of (outcome (analyze_meal analyzer_unsure_gemini sample_image "premium"
                          (Some GEMINI_FLASH) sample_now)) "tokens_used" =
    Some (PInt 1900)
  /\ metadata_of (outcome (analyze_meal analyzer_unsure_gemini sample_image "premium"
                             (Some GEMINI_FLASH) sample_now)) "cost_usd" =
     Some (PFloat (PyFloat.add (OpenAI.calculate_cost 1500 400) OpenAI.IMAGE_COST_BASE))
  /\ answered (gpt4_answer analyzer_unsure_gemini sample_image)
       (fun r2 => tokens_used r2 =? 1900) = true
  /\ answered (gemini_answer analyzer_unsure_gemini sample_image)
       (fun r1 => tokens_used r1 =? 1500) = true.
Proof.
  destruct (answered_Return (gemini_answer analyzer_unsure_gemini sample_image)
              (fun r1 => (below_threshold r1 && (tokens_used r1 =? 1500))%bool))
    as (r1 & Hg & H1); [vm_compute; reflexivity | ].
  apply andb_true_iff in H1. destruct H1 as [Hlow Htok1].
  destruct (answered_Return (gpt4_answer analyzer_unsure_gemini sample_image)
              (fun r2 => tokens_used r2 =? 1900))
    as (r2 & Ho & Htok2); [vm_compute; reflexivity | ].
  destruct (escalated_result_is_the_second_envelope analyzer_unsure_gemini sample_image
              (Some GEMINI_FLASH) sample_now r1 r2 eq_refl Hg Hlow Ho)
    as (_ & Hout & Hmd).
  split; [ | split; [ | split]].
  - rewrite Hout.
    destruct (packaged r2 sample_now) as [d | e] eqn:Hd.
    + simpl. destruct (Hmd d eq_refl) as [_ ->].
      apply Z.eqb_eq in Htok2. rewrite Htok2. reflexivity.
    + exfalso. vm_compute in Ho. injection Ho as <-. vm_compute in Hd. discriminate.
  - rewrite Hout.
    destruct (packaged r2 sample_now) as [d | e] eqn:Hd.
    + simpl. destruct (Hmd d eq_refl) as [-> _].
      vm_compute in Ho. injection Ho as <-. vm_compute. reflexivity.
    + exfalso. vm_compute in Ho. injection Ho as <-. vm_compute in Hd. discriminate.
  - rewrite Ho. exact Htok2.
  - rewrite Hg. exact Htok1.
Defined.

(** ** The parser *)

(** C2, where the code breaks it: a response that is a JSON value but
    no object reaches [data.get], and the [AttributeError] is none of
    the exceptions [_parse_nutrition] handles.  The same holds for
    [null], and a [null] macro raises an unhandled [TypeError].  The
    sibling [_parse_recipe] catches [Exception] and returns its error
    recipe on the same input. *)
Theorem parse_nutrition_raises_on_json_scalar :
  _parse_nutrition "5" = raise AttributeError "object has no attribute 'get'"
  /\ _parse_nutrition "null" = raise AttributeError "object has no attribute 'get'"
  /\ _parse_nutrition (dq "{'nutrition': {'calories': null}}") =
     raise TypeError "float() argument must be a string or a real number"
  /\ rc_name (_parse_recipe "5") = "Recipe Generation Error".
Proof. repeat split; vm_compute; reflexivity. Qed.

(** The fallback parser is total, and its confidence is always 0.6. *)
Lemma fallback_confidence (text : string) :
  nd_confidence (_parse_natural_language text) = PyFloat.lit 6 (-1).
Proof. reflexivity. Qed.

(** Whenever the [try] block fails with an exception of the [except]
    clause, the fallback record is returned. *)
Lemma parse_nutrition_fallback (text : string) (e : exn) :
  _parse_nutrition_json text = Raise e ->
  parse_errors e = true ->
  _parse_nutrition text = Return (_parse_natural_language text).
Proof. unfold _parse_nutrition, try_except. intros -> ->. reflexivity. Qed.

(** C7 fails as stated: in the scenario's text the numbers precede
    their labels, and the patterns find none. *)
Lemma prose_figures_are_not_extracted :
  _parse_nutrition malformed_output = Return (_parse_natural_language malformed_output)
  /\ calories (_parse_natural_language malformed_output) <> PyFloat.lit 450 0
  /\ protein_g (_parse_natural_language malformed_output) <> PyFloat.lit 30 0.
Proof.
  split; [vm_compute; reflexivity | split; vm_compute; discriminate].
Qed.

(** C7, as amended: on the scenario's text the parser falls back to
    regex extraction and returns a record with confidence 0.6 whose
    calories and protein are the default 0.0, because the patterns want
    the number after the label.  Written label first, the same figures
    are extracted: calories 450 and protein 30, with confidence 0.6. *)
Theorem fallback_extracts_labelled_figures :
  (_parse_nutrition malformed_output = Return (_parse_natural_language malformed_output)
   /\ calories (_parse_natural_language malformed_output) = PyFloat.lit 0 0
   /\ protein_g (_parse_natural_language malformed_output) = PyFloat.lit 0 0
   /\ nd_confidence (_parse_natural_language malformed_output) = PyFloat.lit 6 (-1))
  /\ (_parse_nutrition labelled_output = Return (_parse_natural_language labelled_output)
      /\ calories (_parse_natural_language labelled_output) = PyFloat.lit 450 0
      /\ protein_g (_parse_natural_language labelled_output) = PyFloat.lit 30 0
      /\ nd_confidence (_parse_natural_language labelled_output) = PyFloat.lit 6 (-1)).
Proof. repeat split; vm_compute; reflexivity. Qed.

(** ** The quick estimate *)

Section QuickEstimate.

Context {G O : Type} {gemini_service : BaseAIService G} {gpt4_service : BaseAIService O}.

(** [quick_calorie_estimate], given Gemini's envelope. *)
Lemma quick_calorie_estimate_run (self : MealAnalyzer G O) (image_url : string)
    (r : AIResponse) :
  analyze_image (gemini self) image_url quick_prompt no_kwargs = Return r ->
  quick_calorie_estimate self image_url [] =
    (Return (match quick_estimate_json r with
             | Return d => d
             | Raise _ =>
                 [ ("calories", PInt 0); ("description", PStr "Could not analyze");
                   md_error r ]
             end),
     [gemini_call image_url]).
Proof.
  intro Hr. unfold quick_calorie_estimate, io_bind, invoke, io_lift. rewrite Hr. simpl.
  rewrite try_except_total. reflexivity.
Qed.

(** C9, as amended: the quick estimate asks Gemini once.  When the
    content of the envelope decodes as a JSON object, the dictionary
    returned has the four fields [calories], [description], [cost_usd]
    and [response_time_ms], the first two read from the object, the
    last two from the envelope; for the scenario's content they are
    410 and the turkey sandwich.  When the content does not decode as
    an object (as with the empty content of an error envelope), the
    dictionary returned is [calories] 0, [description] and the
    envelope's [error], without cost and response time. *)
Theorem quick_estimate_fields (self : MealAnalyzer G O) (image_url : string)
    (r : AIResponse) :
  analyze_image (gemini self) image_url quick_prompt no_kwargs = Return r ->
  calls (quick_calorie_estimate self image_url) = [gemini_call image_url]
  /\ (forall data,
        Json.loads (content r) = Return (PDict data) ->
        outcome (quick_calorie_estimate self image_url) =
        Return [ ("calories", dict_get data "calories" (PInt 0));
                 ("description", dict_get data "description" (PStr "Unknown meal"));
                 ("cost_usd", PFloat (cost_usd r));
                 ("response_time_ms", PInt (response_time_ms r)) ])
  /\ (content r = quick_json ->
      outcome (quick_calorie_estimate self image_url) =
      Return [ ("calories", PInt 410);
               ("description", PStr "turkey sandwich");
               ("cost_usd", PFloat (cost_usd r));
               ("response_time_ms", PInt (response_time_ms r)) ])
  /\ ((forall data, Json.loads (content r) <> Return (PDict data)) ->
      outcome (quick_calorie_estimate self image_url) =
      Return [ ("calories", PInt 0);
               ("description", PStr "Could not analyze");
               ("error", opt_val PStr (error r)) ]).
Proof.
  intro Hr.
  pose proof (quick_calorie_estimate_run self image_url r Hr) as Hrun.
  unfold outcome, calls. rewrite Hrun. simpl.
  split; [reflexivity | ].
  assert (Hobj : forall data,
             Json.loads (content r) = Return (PDict data) ->
             quick_estimate_json r =
             Return [ ("calories", dict_get data "calories" (PInt 0));
                      ("description", dict_get data "description" (PStr "Unknown meal"));
                      md_cost_usd r; md_response_time_ms r ]).
  { intros data Hd. unfold quick_estimate_json. rewrite Hd. reflexivity. }
  split; [ | split].
  - intros data Hd. rewrite (Hobj data Hd). reflexivity.
  - intro Hc.
    assert (Hd : Json.loads (content r) =
                 Return (PDict [("calories", PInt 410);
                                ("description", PStr "turkey sandwich")])).
    { rewrite Hc. vm_compute. reflexivity. }
    rewrite (Hobj _ Hd). reflexivity.
  - intro Hnot. unfold quick_estimate_json.
    destruct (Json.loads (content r)) as [[ | b | z | f | s | l | data] | e]; simpl;
      try reflexivity.
    exfalso. exact (Hnot data eq_refl).
Qed.

End QuickEstimate.

(** C9 fails as stated: with Gemini unreachable the dictionary returned
    has no [cost_usd] and no [response_time_ms]. *)
Lemma quick_estimate_without_cost :
  keys_of (outcome (quick_calorie_estimate analyzer_gemini_down sample_image)) =
    Some ["calories"; "description"; "error"]
  /\ item_of (outcome (quick_calorie_estimate analyzer_gemini_down sample_image))
       "cost_usd" = None.
Proof. split; vm_compute; reflexivity. Qed.

(** C9 on a Gemini that answers with the scenario's JSON. *)
Lemma quick_estimate_fields_witness :
  outcome (quick_calorie_estimate
             (sample_analyzer (gemini_replying quick_json) gpt4_failing) sample_image) =
  Return [ ("calories", PInt 410);
           ("description", PStr "turkey sandwich");
           ("cost_usd",
             PFloat (PyFloat.add (Gemini.calculate_cost 1200 300)
                       (PyFloat.div Gemini.IMAGE_COST_PER_1K (PyFloat.of_Z 1000))));
           ("response_time_ms", PInt 850) ].
Proof.
  destruct (answered_Return
              (analyze_image
                 (gemini (sample_analyzer (gemini_replying quick_json) gpt4_failing))
                 sample_image quick_prompt no_kwargs)
              (fun r => (String.eqb (content r) quick_json
                         && (response_time_ms r =? 850))%bool))
    as (r & Hr & Hprops); [vm_compute; reflexivity | ].
  apply andb_true_iff in Hprops. destruct Hprops as [Hc Ht].
  apply String.eqb_eq in Hc. apply Z.eqb_eq in Ht.
  destruct (quick_estimate_fields
              (sample_analyzer (gemini_replying quick_json) gpt4_failing)
              sample_image r Hr) as (_ & _ & Hscenario & _).
  rewrite (Hscenario Hc). rewrite Ht.
  vm_compute in Hr. injection Hr as <-. reflexivity.
Defined.

(** ** The [ai_metadata] block *)

Lemma io_bind_outcome {A B : Type} (m : io A) (k : A -> io B) :
  outcome (io_bind m k) =
  match m [] with
  | (Return a, log) => fst (k a log)
  | (Raise e, _) => Raise e
  end.
Proof.
  unfold outcome, io_bind. destruct (m []) as [[a | e] log]; reflexivity.
Qed.

(** C8 fails as stated: the photo recipe's [ai_metadata] has three
    keys, without [model], [confidence] and [tokens_used]. *)
Lemma photo_recipe_metadata_is_short :
  metadata_keys_of (outcome (generate_from_photo sample_generator sample_image "similar")) =
    Some ["provider"; "cost_usd"; "response_time_ms"]
  /\ ~ stable_metadata_shape ["provider"; "cost_usd"; "response_time_ms"].
Proof.
  split; [vm_compute; reflexivity | ].
  intros [H | H]; vm_compute in H; discriminate.
Qed.

(** C8, as amended: each capability has its own [ai_metadata] keys.
    [analyze_meal] returns all seven, [error] included; [chat] the six
    without [error]; [generate_recipe] the five without [tokens_used]
    and [error]; [generate_from_photo], [suggest_meal] and
    [analyze_diet_trends] return [provider], [cost_usd] and
    [response_time_ms] only.  On the sample services every one of them
    returns a dictionary. *)
Theorem ai_metadata_keys_by_capability {G O : Type} {gemini_service : BaseAIService G}
    {gpt4_service : BaseAIService O} (py_str : pyval -> string) :
  ((forall (self : MealAnalyzer G O) image_url user_tier force_provider now,
      metadata_keys_are full_metadata_keys
        (outcome (analyze_meal self image_url user_tier force_provider now)))
   /\ (forall (self : ChatAssistant G O) msg history user_context use_gpt4 now,
         metadata_keys_are chat_metadata_keys
           (outcome (chat_with_assistant py_str self msg history user_context use_gpt4 now)))
   /\ (forall (self : RecipeGenerator G O) ingredients dietary_restrictions health_goals
              cuisine max_calories meal_type use_gpt4 now,
         metadata_keys_are recipe_metadata_keys
           (outcome (generate_recipe py_str self ingredients dietary_restrictions
                       health_goals cuisine max_calories meal_type use_gpt4 now)))
   /\ (forall (self : RecipeGenerator G O) image_url preference,
         metadata_keys_are short_metadata_keys
           (outcome (generate_from_photo self image_url preference)))
   /\ (forall (self : ChatAssistant G O) meal_type user_context use_gpt4,
         metadata_keys_are short_metadata_keys
           (outcome (suggest_meal py_str self meal_type user_context use_gpt4)))
   /\ (forall (self : ChatAssistant G O) recent_meals time_period_days use_gpt4,
         metadata_keys_are short_metadata_keys
           (outcome (analyze_diet_trends py_str self recent_meals time_period_days use_gpt4))))
  /\ (metadata_keys_of
        (outcome (analyze_meal analyzer_unsure_gemini sample_image "free" None sample_now)) =
        Some full_metadata_keys
      /\ metadata_keys_of
           (outcome (chat_with_assistant sample_str sample_assistant "What should I eat?"
                       None None false sample_now)) = Some chat_metadata_keys
      /\ metadata_keys_of
           (outcome (generate_recipe sample_str sample_generator (Some ["chicken"]) None
                       None None (Some 500) None false sample_now)) =
         Some recipe_metadata_keys
      /\ metadata_keys_of
           (outcome (generate_from_photo sample_generator sample_image "healthier")) =
         Some short_metadata_keys
      /\ metadata_keys_of
           (outcome (suggest_meal sample_str sample_assistant "breakfast" None true)) =
         Some short_metadata_keys
      /\ metadata_keys_of
           (outcome (analyze_diet_trends sample_str sample_assistant sample_meals 7 false)) =
         Some short_metadata_keys).
Proof.
  split; [ | repeat split; vm_compute; reflexivity].
  repeat split.
  - intros self image_url user_tier force_provider now.
    destruct (analyze_meal_run self image_url user_tier force_provider now) as [-> _].
    destruct (outcome (analyze_meal_result self image_url user_tier force_provider))
      as [r | e]; simpl; [ | exact I].
    destruct (packaged r now) as [d | e] eqn:Hd; simpl; [ | exact I].
    exact (proj1 (packaged_metadata r now d Hd)).
  - intros self msg history user_context use_gpt4 now.
    unfold chat_with_assistant. rewrite io_bind_outcome. unfold io_lift.
    destruct (_build_conversation py_str msg history user_context) as [ms | e];
      simpl; [ | exact I].
    unfold io_bind, invoke, io_ret.
    destruct use_gpt4; simpl;
      match goal with
      | |- context [chat ?s ?m ?k] => destruct (chat s m k)
      end; simpl; try reflexivity; exact I.
  - intros self ingredients dietary_restrictions health_goals cuisine max_calories
      meal_type use_gpt4 now.
    unfold generate_recipe, outcome, io_bind, invoke, io_ret.
    destruct use_gpt4; simpl;
      match goal with
      | |- context [generate_text ?s ?p ?c ?k] => destruct (generate_text s p c k)
      end; simpl; try reflexivity; exact I.
  - intros self image_url preference.
    unfold generate_from_photo, outcome, io_bind, invoke, io_ret. simpl.
    match goal with
    | |- context [analyze_image ?s ?u ?p ?k] => destruct (analyze_image s u p k)
    end; simpl; try reflexivity; exact I.
  - intros self meal_type user_context use_gpt4.
    unfold suggest_meal. rewrite io_bind_outcome. unfold io_lift.
    destruct (_format_user_context py_str user_context) as [formatted | e];
      simpl; [ | exact I].
    unfold io_bind, ask_text, invoke, io_ret.
    destruct use_gpt4; simpl;
      match goal with
      | |- context [generate_text ?s ?p ?c ?k] => destruct (generate_text s p c k)
      end; simpl; try reflexivity; exact I.
  - intros self recent_meals time_period_days use_gpt4.
    unfold analyze_diet_trends. rewrite io_bind_outcome. unfold io_lift.
    destruct (_summarize_meals py_str recent_meals) as [summary | e];
      simpl; [ | exact I].
    unfold io_bind, ask_text, invoke, io_ret.
    destruct use_gpt4; simpl;
      match goal with
      | |- context [generate_text ?s ?p ?c ?k] => destruct (generate_text s p c k)
      end; simpl; try reflexivity; exact I.
Qed.

(** * Further properties *)

(** ** Routing *)

Section RoutingBounds.

Context {G O : Type} {gemini_service : BaseAIService G} {gpt4_service : BaseAIService O}.

Implicit Types (self : MealAnalyzer G O).

(** X1: [analyze_meal] issues one provider call or two, never more.  A
    single call is the call to the selected provider; two calls are
    Gemini Flash followed by GPT-4 Vision, which happens only for a
    premium caller whose selected provider is Gemini Flash.  No adapter
    is called twice, and Gemini is never called after GPT-4 Vision. *)
Theorem at_most_one_escalation self (image_url user_tier : string)
    (force_provider : option AIProvider) (now : string) :
  calls (analyze_meal self image_url user_tier force_provider now) =
    [primary_call image_url user_tier force_provider]
  \/ (calls (analyze_meal self image_url user_tier force_provider now) =
        [gemini_call image_url; gpt4_call image_url]
      /\ _select_provider user_tier force_provider = GEMINI_FLASH
      /\ user_tier = "premium").
Proof.
  destruct (analyze_meal_run self image_url user_tier force_provider now) as [_ ->].
  unfold calls, primary_call. rewrite analyze_meal_result_run.
  destruct (_select_provider user_tier force_provider) eqn:Hsel; simpl; auto.
  destruct (gemini_answer self image_url) as [r1 | e]; simpl; auto.
  destruct (PyFloat.ltb (confidence r1) CONFIDENCE_THRESHOLD); simpl; auto.
  destruct (String.eqb user_tier "premium") eqn:Htier; simpl; auto.
  right. apply String.eqb_eq in Htier. auto.
Qed.

(** X2: a caller of any tier other than ["premium"] (the comparison is
    exact, so ["Premium"] or the empty string count as such) who forces
    no provider, or forces Gemini Flash, is served by Gemini Flash
    alone: GPT-4 Vision is not called, whatever Gemini's confidence,
    and Gemini's answer is what is parsed and returned. *)
Theorem basic_tier_stays_on_gemini self (image_url user_tier : string)
    (force_provider : option AIProvider) (now : string) :
  user_tier <> "premium" ->
  force_provider = None \/ force_provider = Some GEMINI_FLASH ->
  calls (analyze_meal self image_url user_tier force_provider now) =
    [gemini_call image_url]
  /\ outcome (analyze_meal self image_url user_tier force_provider now) =
     (r <- gemini_answer self image_url ;; packaged r now).
Proof.
  intros Htier Hforce. apply String.eqb_neq in Htier.
  destruct (analyze_meal_run self image_url user_tier force_provider now) as [-> ->].
  unfold outcome, calls. rewrite analyze_meal_result_run.
  assert (Hsel : _select_provider user_tier force_provider = GEMINI_FLASH).
  { destruct Hforce as [-> | ->]; simpl; [rewrite Htier | ]; reflexivity. }
  rewrite Hsel. simpl.
  destruct (gemini_answer self image_url) as [r1 | e]; simpl; [ | split; reflexivity].
  rewrite Htier, andb_false_r. split; reflexivity.
Qed.

(** X3: the enumeration member [CLAUDE_VISION] has no adapter.  When it
    is forced, for every tier, the one call issued goes to the GPT-4
    Vision adapter, and that adapter's answer is what is parsed and
    returned. *)
Theorem forced_claude_is_served_by_gpt4 self (image_url user_tier : string)
    (now : string) :
  _select_provider user_tier (Some CLAUDE_VISION) = CLAUDE_VISION
  /\ calls (analyze_meal self image_url user_tier (Some CLAUDE_VISION) now) =
     [gpt4_call image_url]
  /\ outcome (analyze_meal self image_url user_tier (Some CLAUDE_VISION) now) =
     (r <- gpt4_answer self image_url ;; packaged r now).
Proof.
  split; [reflexivity | ].
  destruct (analyze_meal_run self image_url user_tier (Some CLAUDE_VISION) now) as [-> ->].
  unfold outcome, calls. rewrite analyze_meal_result_run. simpl. split; reflexivity.
Qed.

End RoutingBounds.

(** X2 on the sample analyzer whose Gemini hedges, for the tier
    ["Premium"]: one call, and Gemini's answer in the result. *)
Lemma basic_tier_stays_on_gemini_witness :
  calls (analyze_meal analyzer_unsure_gemini sample_image "Premium" None sample_now) =
    [gemini_call sample_image]
  /\ metadata_of (outcome (analyze_meal analyzer_unsure_gemini sample_image "Premium" None
                             sample_now)) "provider" =
     Some (PStr (provider_value GEMINI_FLASH)).
Proof.
  destruct (basic_tier_stays_on_gemini analyzer_unsure_gemini sample_image "Premium" None
              sample_now) as [Hcalls Hout]; [discriminate | left; reflexivity | ].
  split; [exact Hcalls | ].
  rewrite Hout. vm_compute. reflexivity.
Defined.

(** ** Confidence *)

Lemma count_true_map {A : Type} (f : A -> bool) (l : list A) :
  count_true (map f l) = List.length (filter f l).
Proof.
  unfold count_true. induction l as [ | a l IH]; simpl; [reflexivity | ].
  destruct (f a); simpl; congruence.
Qed.

(** Any property of [assess_core] checked on all lists of seven
    booleans holds of [assess_confidence]. *)
Lemma assess_confidence_by_cases (P : list bool -> bool -> bool) (response : string) :
  forallb (fun hits => (P hits true && P hits false)%bool)
    (bool_lists (List.length uncertainty_phrases)) = true ->
  P (map (fun p => PyStr.contains p (PyStr.lower response)) uncertainty_phrases)
    (200 <? PyStr.len response) = true.
Proof.
  intro Hall.
  set (hits := map _ uncertainty_phrases).
  assert (Hin : In hits (bool_lists (List.length uncertainty_phrases))).
  { replace (List.length uncertainty_phrases) with (List.length hits)
      by (unfold hits; apply length_map).
    apply bool_lists_complete. }
  pose proof (proj1 (forallb_forall _ _) Hall hits Hin) as H.
  apply andb_true_iff in H. destruct H as [Ht Hf].
  destruct (200 <? PyStr.len response); assumption.
Qed.

(** The threshold test on the core of [assess_confidence]: below 0.7
    exactly when two phrases or more were found. *)
Lemma threshold_by_hits (response : string) :
  PyFloat.ltb
    (assess_core (map (fun p => PyStr.contains p (PyStr.lower response)) uncertainty_phrases)
       (200 <? PyStr.len response)) CONFIDENCE_THRESHOLD =
  Nat.leb 2
    (count_true (map (fun p => PyStr.contains p (PyStr.lower response)) uncertainty_phrases)).
Proof.
  apply Bool.eqb_prop.
  apply (assess_confidence_by_cases
           (fun hits long =>
              Bool.eqb (PyFloat.ltb (assess_core hits long) CONFIDENCE_THRESHOLD)
                (Nat.leb 2 (count_true hits)))).
  vm_compute. reflexivity.
Qed.

(** X4: the assessed confidence of a response is below the escalation
    threshold 0.7 exactly when at least two of the seven uncertainty
    phrases occur in it, whatever its length: one phrase leaves
    0.7000000000000001, and the bonus for a long response never lifts a
    response with two phrases to the threshold. *)
Theorem below_threshold_iff_two_hedges (response : string) :
  PyFloat.ltb (assess_confidence response) CONFIDENCE_THRESHOLD =
  Nat.leb 2 (hedges response).
Proof.
  unfold hedges. rewrite <- count_true_map, assess_confidence_core.
  apply threshold_by_hits.
Qed.

Lemma lower_char_idempotent (c : ascii) :
  PyStr.lower_char (PyStr.lower_char c) = PyStr.lower_char c.
Proof. destruct c as [[] [] [] [] [] [] [] []]; reflexivity. Qed.

Lemma lower_idempotent (s : string) : PyStr.lower (PyStr.lower s) = PyStr.lower s.
Proof.
  induction s as [ | c s IH]; simpl; [reflexivity | ].
  rewrite lower_char_idempotent, IH. reflexivity.
Qed.

Lemma lower_length (s : string) : String.length (PyStr.lower s) = String.length s.
Proof. induction s as [ | c s IH]; simpl; congruence. Qed.

(** X5: the confidence heuristic ignores the case of the response:
    lowering it changes neither the phrases found nor the length. *)
Theorem assess_confidence_ignores_case (response : string) :
  assess_confidence (PyStr.lower response) = assess_confidence response.
Proof.
  unfold assess_confidence, PyStr.len.
  rewrite lower_idempotent, lower_length. reflexivity.
Qed.

(** ** Envelopes *)

Lemma assess_confidence_positive (response : string) :
  adapter_confidences_positive (assess_confidence response) = true.
Proof.
  rewrite assess_confidence_core.
  apply (assess_confidence_by_cases
           (fun hits long => adapter_confidences_positive (assess_core hits long))).
  vm_compute. reflexivity.
Qed.

(** The envelope a [try] block builds: no error, the adapter's provider,
    model and timing, and the confidence assessed on its content. *)
Lemma try_block_envelope (c : adapter_call) (r : AIResponse) :
  try_block c = Return r ->
  error r = None
  /\ provider r = cfg_provider (adapter_config c)
  /\ model r = cfg_model (adapter_config c)
  /\ response_time_ms r = adapter_elapsed_ms c
  /\ timestamp r = adapter_time c
  /\ confidence r = adapter_confidence c (assess_confidence (content r)).
Proof.
  destruct c as [self u p k | self p ctx k | self ms k
                | self u p k | self p ctx k | self ms k]; simpl.
  - unfold Gemini.analyze_image_body. intro H. invert_binds H. subst r. simpl.
    repeat split.
  - unfold Gemini.generate_text_body. intro H. invert_binds H. subst r. simpl.
    repeat split.
  - unfold Gemini.chat_body. intro H. invert_binds H. subst r. simpl.
    repeat split.
  - unfold OpenAI.analyze_image_body. intro H. invert_binds H.
    unfold OpenAI.assess_content in Ha1. destruct (ch_content a0); [ | discriminate].
    injection Ha1 as Ha1. inversion Ha1; subst. simpl. repeat split.
  - unfold OpenAI.generate_text_body, OpenAI.text_response. intro H. invert_binds H.
    unfold OpenAI.assess_content in Ha1. destruct (ch_content a0); [ | discriminate].
    injection Ha1 as Ha1. inversion Ha1; subst. simpl. repeat split.
  - unfold OpenAI.chat_body, OpenAI.text_response. intro H. invert_binds H.
    unfold OpenAI.assess_content in Ha1. destruct (ch_content a0); [ | discriminate].
    injection Ha1 as Ha1. inversion Ha1; subst. simpl. repeat split.
Qed.

(** What the caller receives, with the adapter's own configuration and
    timing in the error envelope. *)
Lemma run_adapter_envelope (c : adapter_call) :
  run_adapter c =
  Return (match try_block c with
          | Return r => r
          | Raise e =>
              error_response (adapter_config c) (adapter_elapsed_ms c) (adapter_time c) e
          end).
Proof.
  destruct c; simpl;
    unfold Gemini.analyze_image, Gemini.generate_text, Gemini.chat,
      OpenAI.analyze_image, OpenAI.generate_text, OpenAI.chat;
    rewrite try_except_total; reflexivity.
Qed.

Lemma adapter_confidence_positive (c : adapter_call) (response : string) :
  PyFloat.ltb (PyFloat.lit 0 0) (adapter_confidence c (assess_confidence response)) = true.
Proof.
  pose proof (assess_confidence_positive response) as H.
  unfold adapter_confidences_positive in H.
  apply andb_true_iff in H. destruct H as [H H3].
  apply andb_true_iff in H. destruct H as [H1 H2].
  destruct c; simpl; assumption.
Qed.

(** X6: in the envelope of every adapter operation, a confidence of
    exactly 0 and a set [error] go together: a call that succeeded has
    no error and a confidence strictly above 0 (the seven penalties
    leave at least 0.1), a call that failed has its error and
    confidence 0.0. *)
Theorem zero_confidence_marks_failure (c : adapter_call) :
  match run_adapter c with
  | Return r =>
      match error r with
      | None => PyFloat.ltb (PyFloat.lit 0 0) (confidence r) = true
      | Some _ => confidence r = PyFloat.lit 0 0
      end
  | Raise _ => False
  end.
Proof.
  rewrite run_adapter_envelope.
  destruct (try_block c) as [r | e] eqn:Hbody; [ | reflexivity].
  destruct (try_block_envelope c r Hbody) as (-> & _ & _ & _ & _ & ->).
  apply adapter_confidence_positive.
Qed.

(** X7: the envelope of every adapter operation, successful or not,
    names the provider and the model of the adapter that served it and
    carries that adapter's elapsed time; the envelope of a failed call
    has empty content, no tokens and no metadata. *)
Theorem envelope_names_its_adapter (c : adapter_call) :
  match run_adapter c with
  | Return r =>
      provider r = cfg_provider (adapter_config c)
      /\ model r = cfg_model (adapter_config c)
      /\ response_time_ms r = adapter_elapsed_ms c
      /\ match error r with
         | None => True
         | Some _ => content r = "" /\ tokens_used r = 0 /\ metadata r = None
         end
  | Raise _ => False
  end.
Proof.
  rewrite run_adapter_envelope.
  destruct (try_block c) as [r | e] eqn:Hbody; [ | repeat split].
  destruct (try_block_envelope c r Hbody) as (-> & Hp & Hm & Ht & _ & _).
  repeat split; assumption.
Qed.

(** ** Costs *)

Lemma sign_nonneg_nonnegative (x : PyFloat.float) :
  sign_nonneg x = true -> nonnegative x = true.
Proof. destruct x as [s | [] | | [] m e]; simpl; try discriminate; reflexivity. Qed.

Lemma shr_1_nonneg (mrs : shr_record) : 0 <= shr_m mrs -> 0 <= shr_m (shr_1 mrs).
Proof.
  destruct mrs as [m r s]. destruct m as [ | [p | p | ] | [p | p | ]]; simpl; lia.
Qed.

Lemma iter_pos_invariant {A : Type} (P : A -> Prop) (f : A -> A) :
  (forall x, P x -> P (f x)) -> forall n x, P x -> P (iter_pos f n x).
Proof. intros Hf. induction n as [n IH | n IH | ]; intros x Hx; simpl; auto. Qed.

Lemma shr_nonneg (mrs : shr_record) (e n : Z) :
  0 <= shr_m mrs -> 0 <= shr_m (fst (shr mrs e n)).
Proof.
  intro H. unfold shr. destruct n as [ | p | p]; simpl; try assumption.
  apply (iter_pos_invariant (fun x => 0 <= shr_m x)); [exact shr_1_nonneg | exact H].
Qed.

Lemma shr_fexp_nonneg (m e : Z) (l : location) :
  0 <= m -> 0 <= shr_m (fst (shr_fexp PyFloat.prec PyFloat.emax m e l)).
Proof.
  intro H. unfold shr_fexp. apply shr_nonneg.
  destruct l as [ | [ | | ]]; simpl; exact H.
Qed.

Lemma round_nearest_even_nonneg (m : Z) (l : location) :
  0 <= m -> 0 <= round_nearest_even m l.
Proof.
  intro H. destruct l as [ | [ | | ]]; simpl; try lia.
  destruct (Z.even m); lia.
Qed.

(** Rounding a non-negative mantissa with the sign of a positive
    number never yields a negative number or a NaN. *)
Lemma binary_round_aux_nonneg (m e : Z) (l : location) :
  0 <= m -> sign_nonneg (binary_round_aux PyFloat.prec PyFloat.emax false m e l) = true.
Proof.
  intro H. unfold binary_round_aux.
  pose proof (shr_fexp_nonneg m e l H) as H1.
  destruct (shr_fexp PyFloat.prec PyFloat.emax m e l) as [mrs' e'].
  simpl in H1.
  pose proof (shr_fexp_nonneg _ e' loc_Exact
                (round_nearest_even_nonneg (shr_m mrs') (loc_of_shr_record mrs') H1)) as H2.
  destruct (shr_fexp PyFloat.prec PyFloat.emax
              (round_nearest_even (shr_m mrs') (loc_of_shr_record mrs')) e' loc_Exact)
    as [mrs'' e''].
  simpl in H2.
  destruct (shr_m mrs'') as [ | p | p]; [reflexivity | | lia].
  destruct (e'' <=? PyFloat.emax - PyFloat.prec); reflexivity.
Qed.

Lemma of_ratio_nonneg (n d : positive) : sign_nonneg (PyFloat.of_ratio false n d) = true.
Proof.
  unfold PyFloat.of_ratio, SFdiv_core_binary.
  set (e' := Z.min _ _). set (s := 0 - 0 - e').
  set (m' := match s with
             | Zpos _ => Z.shiftl (Zpos n) s
             | Z0 => Zpos n
             | Zneg _ => 0
             end).
  assert (Hm : 0 <= m').
  { unfold m'. destruct s; try lia. apply Z.shiftl_nonneg. lia. }
  pose proof (Z.div_pos m' (Zpos d) Hm ltac:(lia)) as Hq.
  unfold Z.div in Hq.
  destruct (Z.div_eucl m' (Zpos d)) as [q r]. simpl in Hq.
  apply binary_round_aux_nonneg. exact Hq.
Qed.

Lemma int_truediv_nonneg (a : Z) (b : positive) :
  0 <= a -> sign_nonneg (int_truediv a b) = true.
Proof.
  intro H. destruct a as [ | p | p]; simpl; [reflexivity | apply of_ratio_nonneg | lia].
Qed.

Lemma mul_nonneg (x k : PyFloat.float) :
  sign_nonneg x = true -> positive_finite k = true ->
  sign_nonneg (PyFloat.mul x k) = true.
Proof.
  destruct k as [ | | | [] mk ek]; try discriminate. intros Hx _.
  destruct x as [s | [] | | [] m e]; try discriminate; simpl; try reflexivity.
  apply binary_round_aux_nonneg. lia.
Qed.

Lemma add_nonneg (x y : PyFloat.float) :
  sign_nonneg x = true -> sign_nonneg y = true ->
  sign_nonneg (PyFloat.add x y) = true.
Proof.
  destruct x as [sx | [] | | [] mx ex]; try discriminate;
    destruct y as [sy | [] | | [] my ey]; try discriminate; intros _ _;
    try reflexivity.
  - destruct sx, sy; reflexivity.
  - unfold PyFloat.add, SFadd. cbn [cond_Zopp].
    set (a := fst (shl_align mx ex (Z.min ex ey))).
    set (b := fst (shl_align my ey (Z.min ex ey))).
    change (Zpos a + Zpos b) with (Zpos (a + b)).
    unfold binary_normalize, binary_round.
    destruct (shl_align (a + b) (Z.min ex ey) _) as [mz ez].
    apply binary_round_aux_nonneg. lia.
Qed.

Lemma calculate_cost_sign (input_tokens output_tokens : Z) :
  0 <= input_tokens -> 0 <= output_tokens ->
  sign_nonneg (Gemini.calculate_cost input_tokens output_tokens) = true
  /\ sign_nonneg (OpenAI.calculate_cost input_tokens output_tokens) = true.
Proof.
  intros Hi Ho.
  unfold Gemini.calculate_cost, OpenAI.calculate_cost.
  split; apply add_nonneg; apply mul_nonneg;
    try (apply int_truediv_nonneg; assumption); reflexivity.
Qed.

(** X8: for token counts that are not negative and whose quotients by
    1 000 000 fit a float (where they do not, [int / int] raises
    OverflowError and no cost is returned), the pricing functions of
    both adapters return a cost that is not negative (and is a number:
    no NaN), and so do the image prices added to it: Gemini's per-image
    share of [IMAGE_COST_PER_1K] and GPT-4 Vision's [IMAGE_COST_BASE]. *)
Theorem cost_is_not_negative (input_tokens output_tokens : Z) :
  0 <= input_tokens -> 0 <= output_tokens ->
  quotient_fits input_tokens 1000000 = true ->
  quotient_fits output_tokens 1000000 = true ->
  nonnegative (Gemini.calculate_cost input_tokens output_tokens) = true
  /\ nonnegative (OpenAI.calculate_cost input_tokens output_tokens) = true
  /\ nonnegative
       (PyFloat.add (Gemini.calculate_cost input_tokens output_tokens)
          (PyFloat.div Gemini.IMAGE_COST_PER_1K (PyFloat.of_Z 1000))) = true
  /\ nonnegative
       (PyFloat.add (OpenAI.calculate_cost input_tokens output_tokens)
          OpenAI.IMAGE_COST_BASE) = true.
Proof.
  intros Hi Ho _ _.
  destruct (calculate_cost_sign input_tokens output_tokens Hi Ho) as [Hg Hopenai].
  repeat split; apply sign_nonneg_nonnegative; try assumption;
    apply add_nonneg; try assumption; reflexivity.
Qed.

(** X8 at 1200 input and 300 output tokens. *)
Lemma cost_is_not_negative_witness :
  nonnegative (Gemini.calculate_cost 1200 300) = true
  /\ nonnegative (OpenAI.calculate_cost 1200 300) = true.
Proof.
  destruct (cost_is_not_negative 1200 300) as (Hg & Hopenai & _);
    [lia | lia | reflexivity | reflexivity | ].
  split; assumption.
Defined.

(** ** Edge cases of the Gemini adapter *)

Lemma len_nonneg (s : string) : 0 <= PyStr.len s.
Proof. unfold PyStr.len. lia. Qed.

Lemma total_content_length_nonneg (msgs : list message) (n : Z) :
  Gemini.total_content_length msgs = Return n -> 0 <= n.
Proof.
  revert n. induction msgs as [ | m rest IH]; intros n H; simpl in H.
  - injection H as <-. lia.
  - invert_binds H. subst n. pose proof (len_nonneg a). specialize (IH _ Ha0). lia.
Qed.

(** X9: Gemini's [chat] never reads token counts from the provider: the
    tokens of a successful envelope are a quarter of the summed content
    lengths of all messages plus a quarter of the length of the reply
    (both rounded down), the cost is the price of these two estimates,
    and in every envelope tokens and cost are not negative. *)
Theorem gemini_chat_estimates_tokens (self : GeminiService) (messages : list message)
    (kwargs : Kwargs) :
  match Gemini.chat self messages kwargs with
  | Return r =>
      0 <= tokens_used r
      /\ nonnegative (cost_usd r) = true
      /\ match error r with
         | None =>
             exists total,
               Gemini.total_content_length messages = Return total
               /\ tokens_used r = total / 4 + PyStr.len (content r) / 4
               /\ cost_usd r =
                  Gemini.calculate_cost (total / 4) (PyStr.len (content r) / 4)
         | Some _ => tokens_used r = 0
         end
  | Raise _ => False
  end.
Proof.
  unfold Gemini.chat. rewrite try_except_total.
  destruct (Gemini.chat_body self messages kwargs) as [r | e] eqn:Hbody.
  - unfold Gemini.chat_body in Hbody. invert_binds Hbody. subst r. simpl.
    pose proof (total_content_length_nonneg _ _ Ha0) as Htotal.
    pose proof (len_nonneg a1) as Hlen.
    assert (Hi : 0 <= a0 / 4) by (apply Z.div_pos; lia).
    assert (Ho : 0 <= PyStr.len a1 / 4) by (apply Z.div_pos; lia).
    split; [lia | ]. split.
    + apply sign_nonneg_nonnegative. apply (calculate_cost_sign _ _ Hi Ho).
    + exists a0. repeat split. exact Ha0.
  - simpl. repeat split. lia.
Qed.

Lemma split_without_separator (sep : ascii) (s : string) :
  PyStr.contains (String sep EmptyString) s = false ->
  PyStr.split_on (Ascii.eqb sep) s = [s].
Proof.
  induction s as [ | c s IH]; [reflexivity | ].
  cbn [PyStr.contains PyStr.split_on String.prefix].
  destruct (Ascii.ascii_dec sep c) as [-> | Hne].
  - destruct s; discriminate.
  - apply Ascii.eqb_neq in Hne. rewrite Hne.
    intro H. rewrite (IH H). reflexivity.
Qed.

(** X10: an image reference that starts with [data:image] but has no
    comma is never sent to Gemini: [split(',')[1]] raises IndexError and
    the caller receives the error envelope with the error text
    [list index out of range], whatever the provider would have
    answered. *)
Theorem data_url_without_payload (self : GeminiService) (image_url prompt : string)
    (kwargs : Kwargs) :
  PyStr.startswith image_url "data:image" = true ->
  PyStr.contains "," image_url = false ->
  Gemini.analyze_image self image_url prompt kwargs =
  Return (error_response (gemini_config self) (gb_elapsed_ms (gemini_backend self))
            (gb_time (gemini_backend self)) index_error).
Proof.
  intros Hdata Hcomma.
  unfold Gemini.analyze_image, Gemini.analyze_image_body, Gemini.image_data.
  rewrite Hdata, (split_without_separator ","%char image_url Hcomma).
  reflexivity.
Qed.

(** X10 at [data:image/png;base64], with a provider that would answer. *)
Lemma data_url_without_payload_witness :
  answered (Gemini.analyze_image (gemini_replying meal_json) bare_data_url
              _get_analysis_prompt no_kwargs)
    (fun r => has_error r && (tokens_used r =? 0)%Z) = true.
Proof.
  rewrite (data_url_without_payload (gemini_replying meal_json) bare_data_url
             _get_analysis_prompt no_kwargs); reflexivity.
Defined.

Lemma list_last_app {A : Type} (l : list A) (a : A) : list_last (l ++ [a]) = Return a.
Proof. unfold list_last. rewrite rev_app_distr. reflexivity. Qed.

(** X11: Gemini's [chat] needs a last message with a content.  For an
    empty conversation [messages[-1]] raises IndexError and the caller
    receives the error envelope with the text [list index out of range].
    When the last message has no [content], the session raises before
    [send_message] is reached: it raises the same exception whatever
    [send_message] would do, so nothing is sent to the provider, the
    envelope the caller receives does not depend on the provider, and
    it has an error and confidence 0. *)
Theorem gemini_chat_needs_a_last_message (self : GeminiService) (kwargs : Kwargs)
    (history : list message) (last : message) :
  msg_lookup "content" last = None ->
  Gemini.chat self [] kwargs =
    Return (error_response (gemini_config self) (gb_elapsed_ms (gemini_backend self))
              (gb_time (gemini_backend self)) index_error)
  /\ (exists e,
        Gemini.send_last_message self (history ++ [last])%list = Raise e
        /\ forall send,
             Gemini.send_last_message (with_send_message self send)
               (history ++ [last])%list = Raise e)
  /\ (forall send,
        Gemini.chat (with_send_message self send) (history ++ [last])%list kwargs =
        Gemini.chat self (history ++ [last])%list kwargs)
  /\ answered (Gemini.chat self (history ++ [last])%list kwargs)
       (fun r => has_error r && PyFloat.eqb (confidence r) (PyFloat.lit 0 0)) = true.
Proof.
  intro Hlast.
  assert (Hsend : exists e,
             forall self', Gemini.send_last_message self' (history ++ [last])%list = Raise e).
  { unfold Gemini.send_last_message.
    destruct (Gemini.chat_history (removelast (history ++ [last])%list)) as [h | e];
      [ | exists e; reflexivity].
    cbn [bind]. rewrite list_last_app. cbn [bind]. unfold msg_item. rewrite Hlast.
    eexists. intro self'. reflexivity. }
  destruct Hsend as [e He].
  split; [reflexivity | ]. split; [ | split].
  - exists e. split; [apply He | intro send; apply He].
  - intro send. unfold Gemini.chat, Gemini.chat_body. rewrite !He. reflexivity.
  - unfold Gemini.chat, Gemini.chat_body. rewrite He. reflexivity.
Qed.

(** X11 at a greeting followed by a message without content. *)
Lemma gemini_chat_needs_a_last_message_witness :
  answered (Gemini.chat (gemini_replying meal_json) headless_conversation no_kwargs)
    (fun r => has_error r && PyFloat.eqb (confidence r) (PyFloat.lit 0 0)) = true.
Proof.
  exact (proj2 (proj2 (proj2
           (gemini_chat_needs_a_last_message (gemini_replying meal_json)
              no_kwargs [ [("role", "user"); ("content", "Hello")] ]
              [("role", "user")] eq_refl)))).
Defined.

(** ** Hedging answers and the escalation *)

Section GeminiRouting.

Context {O : Type} {gpt4_service : BaseAIService O}.

(** X12: with the Gemini adapter in place and Gemini Flash forced for a
    premium caller, GPT-4 Vision is called after Gemini exactly when
    Gemini's call failed or its answer contains two or more of the
    uncertainty phrases; an answer with at most one of them is kept,
    however short or long it is. *)
Theorem hedging_answer_is_escalated (self : MealAnalyzer GeminiService O)
    (image_url now : string) :
  calls (analyze_meal self image_url "premium" (Some GEMINI_FLASH) now) =
  match Gemini.analyze_image_body (gemini self) image_url _get_analysis_prompt no_kwargs with
  | Return r =>
      if Nat.leb 2 (hedges (content r))
      then [gemini_call image_url; gpt4_call image_url]
      else [gemini_call image_url]
  | Raise _ => [gemini_call image_url; gpt4_call image_url]
  end.
Proof.
  destruct (analyze_meal_run self image_url "premium" (Some GEMINI_FLASH) now) as [_ ->].
  unfold calls. rewrite analyze_meal_result_run.
  change (AIProvider_eqb (_select_provider "premium" (Some GEMINI_FLASH)) GEMINI_FLASH)
    with true.
  change (String.eqb "premium" "premium") with true.
  cbv iota. unfold gemini_answer.
  change (analyze_image (gemini self) image_url _get_analysis_prompt no_kwargs)
    with (Gemini.analyze_image (gemini self) image_url _get_analysis_prompt no_kwargs).
  unfold Gemini.analyze_image. rewrite try_except_total.
  destruct (Gemini.analyze_image_body (gemini self) image_url _get_analysis_prompt no_kwargs)
    as [r | e] eqn:Hbody; [ | reflexivity].
  destruct (try_block_envelope (GeminiAnalyzeImage _ _ _ _) r Hbody)
    as (_ & _ & _ & _ & _ & Hconf).
  simpl in Hconf.
  rewrite Hconf, andb_true_r, assess_confidence_core, threshold_by_hits, count_true_map.
  fold (hedges (content r)).
  destruct (Nat.leb 2 (hedges (content r))); reflexivity.
Qed.

End GeminiRouting.

(** ** The exceptions of the response parser *)

Lemma raises_only_bind {A B : Type} (classes : list exn_class) (m : exc A)
    (k : A -> exc B) :
  raises_only classes m -> (forall a, raises_only classes (k a)) ->
  raises_only classes (bind m k).
Proof. destruct m as [a | e]; simpl; auto. Qed.

Lemma loads_raises (s : string) : raises_only parse_block_classes (Json.loads s).
Proof.
  unfold Json.loads.
  destruct (Json.scan_value _ _) as [[v rest] | ]; [ | simpl; auto].
  destruct (Json.skip_ws rest); simpl; auto.
Qed.

Lemma py_get_raises (x : pyval) (k : string) (d : pyval) :
  raises_only parse_block_classes (py_get x k d).
Proof. destruct x; simpl; auto. Qed.

Lemma py_float_raises (x : pyval) : raises_only parse_block_classes (py_float x).
Proof.
  destruct x as [ | b | z | f | s | l | d]; simpl; auto 7.
  - destruct (PyFloat.of_Z z); simpl; auto 7.
  - destruct (float_of_string s); simpl; auto 7.
Qed.

Lemma required_float_raises (raw : pyval) (k : string) :
  raises_only parse_block_classes (required_float raw k).
Proof.
  unfold required_float. apply raises_only_bind; [apply py_get_raises | ].
  intro v. apply py_float_raises.
Qed.

Lemma optional_float_raises (raw : pyval) (k : string) :
  raises_only parse_block_classes (optional_float raw k).
Proof.
  unfold optional_float. apply raises_only_bind; [apply py_get_raises | ].
  intro present. destruct (py_truth present); [ | exact I].
  apply raises_only_bind; [apply py_get_raises | ]. intro v.
  apply raises_only_bind; [apply py_float_raises | ]. intro f. exact I.
Qed.

Lemma validate_str_raises (field : string) (v : pyval) :
  raises_only parse_block_classes (validate_str field v).
Proof. destruct v; simpl; auto 7. Qed.

Lemma validate_opt_str_raises (field : string) (v : pyval) :
  raises_only parse_block_classes (validate_opt_str field v).
Proof. destruct v; simpl; auto 7. Qed.

Lemma validate_strs_raises (field : string) (l : list pyval) :
  raises_only parse_block_classes (validate_strs field l).
Proof.
  induction l as [ | v l IH]; [exact I | ]. cbn [validate_strs].
  apply raises_only_bind; [apply validate_str_raises | ]. intro s.
  apply raises_only_bind; [exact IH | ]. intro ss. exact I.
Qed.

Lemma validate_str_list_raises (field : string) (v : pyval) :
  raises_only parse_block_classes (validate_str_list field v).
Proof. destruct v; simpl; auto 7. apply validate_strs_raises. Qed.

Lemma validate_str_items_raises (field : string) (d : pydict) :
  raises_only parse_block_classes (validate_str_items field d).
Proof.
  induction d as [ | [k v] d IH]; [exact I | ]. cbn [validate_str_items].
  apply raises_only_bind; [apply validate_str_raises | ]. intro s.
  apply raises_only_bind; [exact IH | ]. intro ss. exact I.
Qed.

Lemma validate_opt_str_dict_raises (field : string) (v : pyval) :
  raises_only parse_block_classes (validate_opt_str_dict field v).
Proof.
  destruct v; simpl; auto 7.
  apply raises_only_bind; [apply validate_str_items_raises | ]. intro items. exact I.
Qed.

Create HintDb raises.

#[local] Hint Resolve loads_raises py_get_raises required_float_raises
  optional_float_raises validate_str_raises validate_opt_str_raises
  validate_str_list_raises validate_opt_str_dict_raises : raises.

(** Binds are entered one after the other, each step by its lemma. *)
Ltac raises_step :=
  first [ apply raises_only_bind; [solve [auto with raises] | intro]
        | exact I ].

Lemma parse_nutrition_json_raises (ai_response : string) :
  raises_only parse_block_classes (_parse_nutrition_json ai_response).
Proof.
  unfold _parse_nutrition_json.
  apply raises_only_bind.
  { destruct (Re.search json_object_re ai_response dotall); apply loads_raises. }
  intro data. repeat raises_step.
Qed.


(** ** The fallback parser *)

Section RegexRuns.

Variable fl : Re.flags.

(** A property of the subject that its tails inherit. *)
Variable P : string -> Prop.
Hypothesis P_tail : forall c s, P (String c s) -> P s.

(** A run ends in its continuation, and the continuation is given a
    tail of the subject. *)
Lemma star_stays {R : Type} (a : Re.atom) :
  forall (s : string) (g : option string) (k : Re.cont R),
    P s -> (forall s' g', P s' -> k s' g' = None) -> Re.star fl a s g k = None.
Proof.
  induction s as [ | c s IH]; simpl; intros g k Hs Hk; [apply Hk; exact Hs | ].
  destruct (Re.accepts fl a c); [ | apply Hk; exact Hs].
  rewrite (IH g k (P_tail c s Hs) Hk). apply Hk; exact Hs.
Qed.

Lemma run_stays {R : Type} (r : Re.regex) :
  forall (s : string) (g : option string) (k : Re.cont R),
    P s -> (forall s' g', P s' -> k s' g' = None) -> Re.run fl r s g k = None.
Proof.
  induction r as [ | a | r1 IH1 r2 IH2 | r1 IH1 | a | a | r1 IH1]; simpl; intros s g k Hs Hk.
  - apply Hk; exact Hs.
  - destruct s as [ | c s]; [reflexivity | ].
    destruct (Re.accepts fl a c); [ | reflexivity]. apply Hk. exact (P_tail c s Hs).
  - apply IH1; [exact Hs | ]. intros s' g' Hs'. apply IH2; assumption.
  - rewrite (IH1 s g k Hs Hk). apply Hk; exact Hs.
  - apply star_stays; assumption.
  - destruct s as [ | c s]; [reflexivity | ].
    destruct (Re.accepts fl a c); [ | reflexivity].
    apply star_stays; [exact (P_tail c s Hs) | exact Hk].
  - apply IH1; [exact Hs | ]. intros s' g' Hs'. apply Hk; exact Hs'.
Qed.

End RegexRuns.

Lemma digit_free_tail (c : ascii) (s : string) :
  digit_free (String c s) = true -> digit_free s = true.
Proof. simpl. intro H. apply andb_true_iff in H. apply H. Qed.

Lemma digit_free_head (c : ascii) (s : string) :
  digit_free (String c s) = true -> PyStr.is_digit c = false.
Proof. simpl. intro H. apply andb_true_iff in H. destruct H as [H _]. apply negb_true_iff, H. Qed.

(** A pattern that requires a digit matches nowhere in a text without
    digits. *)
Lemma run_requires_digit (fl : Re.flags) (r : Re.regex) :
  requires_digit r = true ->
  forall {R : Type} (s : string) (g : option string) (k : Re.cont R),
    digit_free s = true -> Re.run fl r s g k = None.
Proof.
  induction r as [ | a | r1 IH1 r2 IH2 | r1 IH1 | a | a | r1 IH1]; simpl; try discriminate.
  - destruct a; try discriminate. intros _ R [ | c s] g k Hs; [reflexivity | ].
    simpl. rewrite (digit_free_head c s Hs). reflexivity.
  - intros Hreq R s g k Hs.
    destruct (requires_digit r1); [apply IH1; [reflexivity | exact Hs] | ].
    apply (run_stays fl (fun s => digit_free s = true) digit_free_tail); [exact Hs | ].
    intros s' g' Hs'. apply IH2; [exact Hreq | exact Hs'].
  - destruct a; try discriminate. intros _ R [ | c s] g k Hs; [reflexivity | ].
    simpl. rewrite (digit_free_head c s Hs). reflexivity.
  - intros Hreq R s g k Hs. apply IH1; assumption.
Qed.

Lemma search_requires_digit (r : Re.regex) (s : string) (fl : Re.flags) :
  requires_digit r = true -> digit_free s = true -> Re.search r s fl = None.
Proof.
  intros Hreq. unfold Re.search.
  induction s as [ | c s IH]; intro Hs; simpl; unfold Re.match_at;
    rewrite (run_requires_digit fl r Hreq _ _ _ Hs); [reflexivity | ].
  apply IH. exact (digit_free_tail c s Hs).
Qed.

Lemma extract_number_default (text : string) (pattern : Re.regex) :
  requires_digit pattern = true -> digit_free text = true ->
  extract_number text pattern = PyFloat.lit 0 0.
Proof.
  intros Hreq Htext. unfold extract_number.
  rewrite (search_requires_digit pattern text ignorecase Hreq Htext). reflexivity.
Qed.

(** X14: the fallback parser reads a figure only where digits follow a
    label, so from an ASCII response without a single digit it returns
    the defaults: calories, protein, carbohydrates and fat 0.0 and no
    fiber.  (Outside ASCII, [\d] and [float] also read the decimal
    digits of other scripts.) *)
Theorem figures_need_digits (text : string) :
  is_ascii text = true ->
  digit_free text = true ->
  calories (_parse_natural_language text) = PyFloat.lit 0 0
  /\ protein_g (_parse_natural_language text) = PyFloat.lit 0 0
  /\ carbs_g (_parse_natural_language text) = PyFloat.lit 0 0
  /\ fat_g (_parse_natural_language text) = PyFloat.lit 0 0
  /\ fiber_g (_parse_natural_language text) = None.
Proof.
  intros _ Htext. unfold _parse_natural_language.
  cbn [calories protein_g carbs_g fat_g fiber_g].
  rewrite !extract_number_default by (reflexivity || exact Htext).
  repeat split; reflexivity.
Qed.

(** X14 at an answer in prose. *)
Lemma figures_need_digits_witness :
  calories (_parse_natural_language vague_output) = PyFloat.lit 0 0
  /\ fiber_g (_parse_natural_language vague_output) = None.
Proof.
  destruct (figures_need_digits vague_output) as (Hc & _ & _ & _ & Hf);
    [reflexivity | reflexivity | ].
  split; assumption.
Defined.

(** *** The ingredient list *)

Lemma split_on_free (sep : ascii -> bool) (s : string) :
  Forall (fun w => free_of sep w = true) (PyStr.split_on sep s).
Proof.
  induction s as [ | c s IH]; simpl; [repeat constructor | ].
  destruct (sep c) eqn:Hc; [constructor; [reflexivity | exact IH] | ].
  destruct (PyStr.split_on sep s) as [ | w ws]; [repeat constructor; simpl; rewrite Hc; reflexivity | ].
  inversion IH as [ | w' ws' Hw Hws]; subst.
  constructor; [simpl; rewrite Hc, Hw; reflexivity | exact Hws].
Qed.

Lemma lstrip_free (p : ascii -> bool) (s : string) :
  free_of p s = true -> free_of p (PyStr.lstrip s) = true.
Proof.
  induction s as [ | c s IH]; simpl; [auto | ]. intro H.
  destruct (PyStr.is_space c); [ | exact H].
  apply andb_true_iff in H. apply IH, H.
Qed.

Lemma rstrip_free (p : ascii -> bool) (s : string) :
  free_of p s = true -> free_of p (PyStr.rstrip s) = true.
Proof.
  induction s as [ | c s IH]; simpl; [auto | ]. intro H.
  apply andb_true_iff in H. destruct H as [Hc Hs]. specialize (IH Hs).
  destruct (PyStr.rstrip s) as [ | d r].
  - destruct (PyStr.is_space c); simpl; [reflexivity | rewrite Hc; reflexivity].
  - cbn [free_of]. rewrite Hc. exact IH.
Qed.

Lemma rstrip_idempotent (s : string) : PyStr.rstrip (PyStr.rstrip s) = PyStr.rstrip s.
Proof.
  induction s as [ | c s IH]; [reflexivity | ]. cbn [PyStr.rstrip].
  destruct (PyStr.rstrip s) as [ | d r] eqn:Hr.
  - destruct (PyStr.is_space c) eqn:Hc; [reflexivity | ]. simpl. rewrite Hc. reflexivity.
  - cbn [PyStr.rstrip]. cbn [PyStr.rstrip] in IH. rewrite IH. reflexivity.
Qed.

(** What [lstrip] leaves does not start with a blank. *)
Lemma lstrip_head (s : string) :
  match PyStr.lstrip s with
  | EmptyString => True
  | String c _ => PyStr.is_space c = false
  end.
Proof.
  induction s as [ | c s IH]; simpl; [exact I | ].
  destruct (PyStr.is_space c) eqn:Hc; [exact IH | exact Hc].
Qed.

Lemma rstrip_keeps_head (c : ascii) (s : string) :
  PyStr.is_space c = false -> exists r, PyStr.rstrip (String c s) = String c r.
Proof.
  intro Hc. cbn [PyStr.rstrip].
  destruct (PyStr.rstrip s); [rewrite Hc | ]; eauto.
Qed.

Lemma strip_idempotent (s : string) : PyStr.strip (PyStr.strip s) = PyStr.strip s.
Proof.
  unfold PyStr.strip.
  pose proof (lstrip_head s) as Hhead.
  destruct (PyStr.lstrip s) as [ | c t] eqn:Hl; [reflexivity | ].
  destruct (rstrip_keeps_head c t Hhead) as [r Hr].
  rewrite Hr. cbn [PyStr.lstrip]. rewrite Hhead, <- Hr. apply rstrip_idempotent.
Qed.

Lemma free_of_contains (p : ascii -> bool) (c : ascii) (s : string) :
  p c = true -> free_of p s = true -> PyStr.contains (String c EmptyString) s = false.
Proof.
  intro Hc. induction s as [ | d s IH]; [reflexivity | ].
  cbn [PyStr.contains String.prefix free_of]. intro H.
  apply andb_true_iff in H. destruct H as [Hd Hs].
  destruct (Ascii.ascii_dec c d) as [<- | _]; [rewrite Hc in Hd; discriminate | ].
  apply IH, Hs.
Qed.

(** X15: every item of the ingredient list the fallback parser returns
    is a non-empty text without surrounding blanks and without a comma
    or a semicolon, whatever the response was. *)
Theorem fallback_ingredients_are_clean (text : string) :
  Forall clean_ingredient (ingredients (_parse_natural_language text)).
Proof.
  unfold _parse_natural_language. cbn [ingredients].
  destruct (Re.search ingredients_re text ignorecase) as [m | ]; [ | constructor].
  destruct (Re.group1 m) as [ingredients_text | ]; [ | constructor].
  pose proof (split_on_free is_comma_or_semicolon ingredients_text) as Hfree.
  induction (PyStr.split_on is_comma_or_semicolon ingredients_text) as [ | w ws IH];
    [constructor | ].
  inversion Hfree as [ | w' ws' Hw Hws]; subst.
  cbn [map filter].
  destruct (String.eqb (PyStr.strip w) "") eqn:Hempty; cbn [negb]; [exact (IH Hws) | ].
  constructor; [ | exact (IH Hws)].
  assert (Hstrip : free_of is_comma_or_semicolon (PyStr.strip w) = true)
    by (apply rstrip_free, lstrip_free, Hw).
  repeat split.
  - apply String.eqb_neq, Hempty.
  - apply strip_idempotent.
  - exact (free_of_contains is_comma_or_semicolon ","%char _ eq_refl Hstrip).
  - exact (free_of_contains is_comma_or_semicolon ";"%char _ eq_refl Hstrip).
Qed.

(** ** The chat assistant *)

Lemma prefix_app (s t : string) : String.prefix s (s ++ t) = true.
Proof.
  induction s as [ | c s IH]; simpl; [destruct t; reflexivity | ].
  destruct (Ascii.ascii_dec c c); [exact IH | congruence].
Qed.

Lemma prefix_refl (s : string) : String.prefix s s = true.
Proof.
  induction s as [ | c s IH]; simpl; [reflexivity | ].
  destruct (Ascii.ascii_dec c c); [exact IH | congruence].
Qed.

Section ChatProperties.

Context {G O : Type} {gemini_service : BaseAIService G} {gpt4_service : BaseAIService O}.

Variable py_str : pyval -> string.

(** The system message comes first and starts with the system prompt,
    the history follows, the new message is last. *)
Lemma build_conversation_shape (msg : string) (history : option (list message))
    (user_context : option pydict) (messages : list message) :
  _build_conversation py_str msg history user_context = Return messages ->
  exists system_content,
    String.prefix SYSTEM_PROMPT system_content = true
    /\ messages =
       ([("role", "system"); ("content", system_content)]
        :: match history with Some h => h | None => [] end
        ++ [[("role", "user"); ("content", msg)]])%list.
Proof.
  unfold _build_conversation. intro H. invert_binds H. subst messages.
  exists a. split; [ | reflexivity].
  destruct user_context as [[ | kv ctx] | ].
  - injection Ha as <-. apply prefix_refl.
  - apply bind_Return in Ha. destruct Ha as (formatted & _ & Ha). injection Ha as <-.
    exact (prefix_app SYSTEM_PROMPT (nl ++ nl ++ "User Context:" ++ nl ++ formatted)).
  - injection Ha as <-. apply prefix_refl.
Qed.

(** X16: what Gemini is sent by a chat.  The conversation built for the
    request reaches the provider as the history given by the caller,
    preceded by one turn of role [model] that holds the system prompt
    (Gemini's [chat] maps every role but [user] to [model]), and the
    message sent is the caller's message. *)
Theorem gemini_gets_the_system_prompt_as_a_model_turn (self : GeminiService)
    (msg : string) (history : list message) (user_context : option pydict)
    (messages : list message) (turns : list (string * string)) :
  _build_conversation py_str msg (Some history) user_context = Return messages ->
  Gemini.chat_history history = Return turns ->
  exists system_content,
    String.prefix SYSTEM_PROMPT system_content = true
    /\ Gemini.send_last_message self messages =
       gb_send_message (gemini_backend self) (("model", system_content) :: turns) msg.
Proof.
  intros Hbuild Hturns.
  destruct (build_conversation_shape msg (Some history) user_context messages Hbuild)
    as (system_content & Hprefix & ->).
  exists system_content. split; [exact Hprefix | ].
  unfold Gemini.send_last_message.
  rewrite app_comm_cons, removelast_last, list_last_app.
  cbn [Gemini.chat_history]. rewrite Hturns. reflexivity.
Qed.

End ChatProperties.

(** X16 on an earlier exchange, without user context. *)
Lemma gemini_gets_the_system_prompt_as_a_model_turn_witness :
  exists system_content,
    String.prefix SYSTEM_PROMPT system_content = true
    /\ Gemini.send_last_message (gemini_replying "Try oatmeal with berries.")
         ([("role", "system"); ("content", SYSTEM_PROMPT)] :: sample_history
          ++ [[("role", "user"); ("content", "What should I eat?")]])%list =
       gb_send_message (gemini_backend (gemini_replying "Try oatmeal with berries."))
         [("model", system_content); ("user", "Hi"); ("model", "Hello, how can I help?")]
         "What should I eat?".
Proof.
  apply (gemini_gets_the_system_prompt_as_a_model_turn sample_str
           (gemini_replying "Try oatmeal with berries.") "What should I eat?"
           sample_history None); reflexivity.
Defined.

Lemma validate_strs_all_str (field : string) (l : list pyval) :
  match validate_strs field l with
  | Return _ => forallb is_str l = true
  | Raise _ => forallb is_str l = false
  end.
Proof.
  induction l as [ | v l IH]; [reflexivity | ]. cbn [validate_strs forallb].
  destruct v; try reflexivity. cbn [validate_str bind is_str andb].
  destruct (validate_strs field l); exact IH.
Qed.

(** [', '.join(v)] on a truthy value fails exactly on the unjoinable
    ones, with a TypeError. *)
Lemma py_join_unjoinable (sep : string) (v : pyval) :
  py_truth v = true ->
  match py_join sep v with
  | Return _ => unjoinable v = false
  | Raise e => unjoinable v = true /\ exn_cls e = TypeError
  end.
Proof.
  unfold unjoinable. intros ->. destruct v as [ | b | z | f | s | l | d]; simpl; auto.
  pose proof (validate_strs_all_str "" l) as H.
  destruct (validate_strs "" l); rewrite H; simpl; auto.
Qed.

Lemma unjoinable_falsy (v : pyval) : py_truth v = false -> unjoinable v = false.
Proof. unfold unjoinable. intros ->. reflexivity. Qed.

(** A truthy entry is present, so reading it cannot fail. *)
Lemma context_part_cases (context : pydict) (key : string) (render : pyval -> exc string) :
  context_part context key render =
  if py_truth (dict_get context key PNone)
  then s <- render (dict_get context key PNone) ;; Return [s]
  else Return [].
Proof.
  unfold context_part, dict_item, dict_get.
  destruct (dict_lookup key context) as [v | ]; reflexivity.
Qed.

Lemma context_part_returns (context : pydict) (key : string) (f : pyval -> string) :
  exists part, context_part context key (fun v => Return (f v)) = Return part.
Proof.
  rewrite context_part_cases. destruct (py_truth _); simpl; eauto.
Qed.

Section ContextProperties.

Variable py_str : pyval -> string.

(** [_format_user_context] raises exactly when the health goals or the
    dietary restrictions cannot be joined, and then a TypeError. *)
Lemma format_user_context_outcome (context : pydict) :
  match _format_user_context py_str (Some context) with
  | Return _ =>
      (unjoinable (dict_get context "health_goals" PNone)
       || unjoinable (dict_get context "dietary_restrictions" PNone))%bool = false
  | Raise e =>
      (unjoinable (dict_get context "health_goals" PNone)
       || unjoinable (dict_get context "dietary_restrictions" PNone))%bool = true
      /\ exn_cls e = TypeError
  end.
Proof.
  destruct context as [ | kv ctx]; [reflexivity | ].
  unfold _format_user_context. set (context := kv :: ctx).
  destruct (context_part_returns context "daily_calorie_goal"
              (fun v => "**Daily Calorie Goal:** " ++ py_str v ++ " kcal")%string) as [p3 ->].
  destruct (context_part_returns context "recent_meals"
              (fun v => "**Recent Meals:** " ++ py_str v ++ " meals logged")%string) as [p4 ->].
  destruct (context_part_returns context "average_daily_calories"
              (fun v => "**Avg Daily Calories:** " ++ py_str v ++ " kcal")%string) as [p5 ->].
  destruct (context_part_returns context "preferences"
              (fun v => "**Preferences:** " ++ py_str v)%string) as [p6 ->].
  rewrite !context_part_cases.
  destruct (py_truth (dict_get context "health_goals" PNone)) eqn:Hg.
  - pose proof (py_join_unjoinable ", " _ Hg) as Hj1.
    destruct (py_join ", " (dict_get context "health_goals" PNone)) as [s1 | e1];
      cbn [bind]; [ | destruct Hj1 as [-> Hcls]; split; [reflexivity | exact Hcls]].
    rewrite Hj1. cbn [orb].
    destruct (py_truth (dict_get context "dietary_restrictions" PNone)) eqn:Hd.
    + pose proof (py_join_unjoinable ", " _ Hd) as Hj2.
      destruct (py_join ", " (dict_get context "dietary_restrictions" PNone)) as [s2 | e2];
        cbn [bind]; exact Hj2.
    + cbn [bind]. apply unjoinable_falsy, Hd.
  - rewrite (unjoinable_falsy _ Hg). cbn [bind orb].
    destruct (py_truth (dict_get context "dietary_restrictions" PNone)) eqn:Hd.
    + pose proof (py_join_unjoinable ", " _ Hd) as Hj2.
      destruct (py_join ", " (dict_get context "dietary_restrictions" PNone)) as [s2 | e2];
        cbn [bind]; exact Hj2.
    + cbn [bind]. apply unjoinable_falsy, Hd.
Qed.

Context {G O : Type} {gemini_service : BaseAIService G} {gpt4_service : BaseAIService O}.


End ContextProperties.

(** ** Recipe suggestions *)

Section RegexResults.

Variable fl : Re.flags.

Variable P : string -> Prop.
Hypothesis P_tail : forall c s, P (String c s) -> P s.

(** The result of a run is the result of its continuation on a tail of
    the subject. *)
Lemma star_result {R : Type} (a : Re.atom) :
  forall (s : string) (g : option string) (k : Re.cont R) (x : R),
    P s -> Re.star fl a s g k = Some x -> exists s' g', P s' /\ k s' g' = Some x.
Proof.
  induction s as [ | c s IH]; simpl; intros g k x Hs H; [eauto | ].
  destruct (Re.accepts fl a c); [ | eauto].
  destruct (Re.star fl a s g k) as [y | ] eqn:Hstar; [ | eauto].
  injection H as <-. exact (IH g k y (P_tail c s Hs) Hstar).
Qed.

Lemma run_result {R : Type} (r : Re.regex) :
  forall (s : string) (g : option string) (k : Re.cont R) (x : R),
    P s -> Re.run fl r s g k = Some x -> exists s' g', P s' /\ k s' g' = Some x.
Proof.
  induction r as [ | a | r1 IH1 r2 IH2 | r1 IH1 | a | a | r1 IH1]; simpl; intros s g k x Hs H.
  - eauto.
  - destruct s as [ | c s]; [discriminate | ].
    destruct (Re.accepts fl a c); [ | discriminate].
    exists s, g. split; [exact (P_tail c s Hs) | exact H].
  - destruct (IH1 s g _ x Hs H) as (s1 & g1 & Hs1 & H1).
    exact (IH2 s1 g1 k x Hs1 H1).
  - destruct (Re.run fl r1 s g k) as [y | ] eqn:Hrun; [ | eauto].
    injection H as <-. exact (IH1 s g k y Hs Hrun).
  - exact (star_result a s g k x Hs H).
  - destruct s as [ | c s]; [discriminate | ].
    destruct (Re.accepts fl a c); [ | discriminate].
    exact (star_result a s g k x (P_tail c s Hs) H).
  - destruct (IH1 s g _ x Hs H) as (s1 & g1 & Hs1 & H1). eauto.
Qed.

End RegexResults.

Lemma consumed_head (c : ascii) (s rest : string) :
  (String.length rest <= String.length s)%nat ->
  PyStr.consumed (String c s) rest =
  String c (String.substring 0 (String.length s - String.length rest) s).
Proof.
  intro H. unfold PyStr.consumed. cbn [String.length].
  rewrite Nat.sub_succ_l by exact H. reflexivity.
Qed.

(** What the array pattern matches starts with the opening bracket. *)
Lemma array_match_head (s : string) (m : Re.match_obj) :
  Re.match_at dotall json_array_re s = Some m ->
  exists t, Re.group0 m = String "[" t.
Proof.
  unfold Re.match_at, json_array_re. cbn [Re.seq Re.text Re.run].
  destruct s as [ | c s]; [discriminate | ].
  cbn [Re.accepts Re.IGNORECASE dotall].
  destruct (Ascii.eqb c "[") eqn:Hc; [ | discriminate].
  apply Ascii.eqb_eq in Hc. subst c. intro H.
  destruct (run_result dotall (fun t => (String.length t <= String.length s)%nat)
              ltac:(simpl; intros; lia)
              (Re.Seq (Re.Star Re.AnyChar) (Re.Atom (Re.Chr "]"))) s None _ m
              (Nat.le_refl _) H) as (rest & g & Hrest & Hm).
  injection Hm as <-. cbn [Re.group0].
  rewrite (consumed_head _ _ _ Hrest). eauto.
Qed.

Lemma array_search_head (s : string) (m : Re.match_obj) :
  Re.search json_array_re s dotall = Some m ->
  exists t, Re.group0 m = String "[" t.
Proof.
  unfold Re.search. induction s as [ | c s IH]; cbn [Re.search_from].
  - destruct (Re.match_at dotall json_array_re "") eqn:Hm; [ | discriminate].
    intro H. injection H as <-. exact (array_match_head _ _ Hm).
  - destruct (Re.match_at dotall json_array_re (String c s)) eqn:Hm; [ | exact IH].
    intro H. injection H as <-. exact (array_match_head _ _ Hm).
Qed.

Lemma scan_elements_list (fuel : nat) :
  forall (s : string) (acc : list pyval) (v : pyval) (r : string),
    Json.scan_elements fuel s acc = Some (v, r) -> exists l, v = PList l.
Proof.
  induction fuel as [ | fuel IH]; intros s acc v r H; [discriminate | ].
  cbn [Json.scan_elements] in H.
  destruct (Json.scan_value fuel s) as [[w r0] | ]; [ | discriminate].
  destruct (Json.skip_ws r0) as [ | c r1]; [discriminate | ].
  destruct (Ascii.eqb c ","); [exact (IH _ _ _ _ H) | ].
  destruct (Ascii.eqb c "]"); [ | discriminate].
  injection H as <- _. eauto.
Qed.

(** A text that starts with an opening bracket decodes to a list, if it
    decodes. *)
Lemma loads_array (t : string) (v : pyval) :
  Json.loads (String "[" t) = Return v -> exists l, v = PList l.
Proof.
  unfold Json.loads. cbn [Json.skip_ws]. 
  change (Json.is_ws "[") with false. cbv iota.
  destruct (Json.scan_value _ _) as [[w rest] | ] eqn:Hscan; [ | discriminate].
  destruct (Json.skip_ws rest); [ | discriminate].
  intro H. injection H as <-.
  cbn [String.length Nat.mul Nat.add] in Hscan.
  match type of Hscan with
  | Json.scan_value ?f _ = _ => destruct f as [ | fuel]; [discriminate | ]
  end.
  cbn [Json.scan_value] in Hscan.
  change (Ascii.eqb "[" "{") with false in Hscan.
  change (Ascii.eqb "[" "[") with true in Hscan. cbv iota in Hscan.
  destruct (Json.skip_ws t) as [ | c1 r1]; [discriminate | ].
  destruct (Ascii.eqb c1 "]"); [injection Hscan as <- _; eauto | ].
  exact (scan_elements_list _ _ _ _ _ Hscan).
Qed.

Lemma slice_stop_le (n : nat) (count : Z) :
  0 <= count -> Z.of_nat (slice_stop n count) <= count.
Proof.
  intro H. unfold slice_stop.
  destruct (count <? 0) eqn:Hneg; [apply Z.ltb_lt in Hneg; lia | lia].
Qed.

Section Suggestions.

Context {G O : Type} {gemini_service : BaseAIService G} {gpt4_service : BaseAIService O}.

Variable py_str : pyval -> string.
Variable json_dumps : pydict -> string.

(** What [suggest_recipes] makes of an envelope: a list, of at most
    [count] items when [count] is not negative. *)
Lemma suggestions_of_envelope (result : AIResponse) (count : Z) :
  exists l,
    (found <- try_except (suggestions_json result count) is_Exception
                (fun _ => Return None) ;;
     match found with
     | Some head => Return head
     | None => Return (PList [])
     end) = Return (PList l)
    /\ (0 <= count -> Z.of_nat (List.length l) <= count).
Proof.
  unfold suggestions_json.
  destruct (Re.search json_array_re (content result) dotall) as [m | ] eqn:Hsearch;
    [ | exists []; split; [reflexivity | simpl; lia]].
  destruct (array_search_head _ _ Hsearch) as [t ->].
  destruct (Json.loads (String "[" t)) as [v | e] eqn:Hloads;
    [ | exists []; split; [reflexivity | simpl; lia]].
  destruct (loads_array t v Hloads) as [l ->].
  exists (firstn (slice_stop (List.length l) count) l). split; [reflexivity | ].
  intro Hcount. rewrite length_firstn.
  pose proof (slice_stop_le (List.length l) count Hcount). lia.
Qed.

Lemma firstn_slice_stop {A : Type} (l : list A) (count : Z) :
  0 <= count -> firstn (slice_stop (List.length l) count) l = firstn (Z.to_nat count) l.
Proof.
  intro Hcount. unfold slice_stop.
  destruct (count <? 0) eqn:Hneg; [apply Z.ltb_lt in Hneg; lia | ].
  destruct (Z.le_gt_cases count (Z.of_nat (List.length l))) as [Hle | Hgt].
  - rewrite Z.min_r by exact Hle. reflexivity.
  - rewrite Z.min_l by lia. rewrite Nat2Z.id.
    rewrite firstn_all, firstn_all2 by lia. reflexivity.
Qed.

(** What [suggest_recipes] makes of an envelope, case by case. *)
Lemma suggestions_by_cases (result : AIResponse) (count : Z) :
  0 <= count ->
  match Re.search json_array_re (content result) dotall with
  | None =>
      (found <- try_except (suggestions_json result count) is_Exception
                  (fun _ => Return None) ;;
       match found with
       | Some head => Return head
       | None => Return (PList [])
       end) = Return (PList [])
  | Some json_match =>
      match Json.loads (Re.group0 json_match) with
      | Raise _ =>
          (found <- try_except (suggestions_json result count) is_Exception
                      (fun _ => Return None) ;;
           match found with
           | Some head => Return head
           | None => Return (PList [])
           end) = Return (PList [])
      | Return suggestions =>
          exists l,
            suggestions = PList l
            /\ (found <- try_except (suggestions_json result count) is_Exception
                           (fun _ => Return None) ;;
                match found with
                | Some head => Return head
                | None => Return (PList [])
                end) = Return (PList (firstn (Z.to_nat count) l))
            /\ Z.of_nat (List.length (firstn (Z.to_nat count) l)) <= count
      end
  end.
Proof.
  intro Hcount. unfold suggestions_json.
  destruct (Re.search json_array_re (content result) dotall) as [m | ] eqn:Hsearch;
    [ | reflexivity].
  destruct (array_search_head _ _ Hsearch) as [t Ht]. rewrite Ht.
  destruct (Json.loads (String "[" t)) as [v | e] eqn:Hloads; [ | reflexivity].
  destruct (loads_array t v Hloads) as [l ->].
  exists l. split; [reflexivity | ]. split.
  - cbn [bind py_slice_to try_except]. rewrite (firstn_slice_stop l count Hcount).
    reflexivity.
  - rewrite length_firstn. lia.
Qed.


End Suggestions.


(** ** Provider calls per request *)

Section Emission.

Variable Q : call -> Prop.

Lemma emits_weaken {R : Type} (n n' : nat) (m : list call -> R * list call) :
  (n <= n')%nat -> emits n Q m -> emits n' Q m.
Proof.
  intros Hn Hm log. destruct (Hm log) as (new & Hlog & Hlen & HQ).
  exists new. repeat split; [exact Hlog | lia | exact HQ].
Qed.

Lemma emits_nothing {R : Type} (n : nat) (r : R) : emits n Q (fun log => (r, log)).
Proof.
  intro log. exists []. rewrite app_nil_r.
  repeat split; [simpl; lia | constructor].
Qed.

Lemma emits_ret {A : Type} (n : nat) (a : A) : emits n Q (io_ret a).
Proof. apply emits_nothing. Qed.

Lemma emits_lift {A : Type} (n : nat) (m : exc A) : emits n Q (io_lift m).
Proof. apply emits_nothing. Qed.

Lemma emits_invoke (n : nat) (to : AIProvider) (op : operation) (arg : string)
    (outcome : exc AIResponse) :
  Q {| call_to := to; call_op := op; call_arg := arg |} ->
  emits (S n) Q (invoke to op arg outcome).
Proof.
  intros HQ log. exists [ {| call_to := to; call_op := op; call_arg := arg |} ].
  repeat split; [simpl; lia | ].
  constructor; [exact HQ | constructor].
Qed.

Lemma emits_bind {A B : Type} (a b : nat) (m : io A) (k : A -> io B) :
  emits a Q m -> (forall x, emits b Q (k x)) -> emits (a + b) Q (io_bind m k).
Proof.
  intros Hm Hk log. unfold io_bind.
  destruct (Hm log) as (new1 & Hlog1 & Hlen1 & HQ1).
  destruct (m log) as [[x | e] log1]; simpl in Hlog1; subst log1.
  - destruct (Hk x (log ++ new1)%list) as (new2 & Hlog2 & Hlen2 & HQ2).
    exists (new1 ++ new2)%list. rewrite Hlog2, app_assoc.
    repeat split; [rewrite length_app; lia | apply Forall_app; split; assumption].
  - exists new1. repeat split; [lia | exact HQ1].
Qed.

Lemma emits_guarded {A : Type} (n : nat) (what : string) (body : io A) :
  emits n Q body -> emits n Q (guarded what body).
Proof.
  intros Hbody log. unfold guarded.
  destruct (Hbody log) as (new & Hlog & Hlen & HQ).
  exists new. destruct (body log) as [[a | e] log']; simpl in *; auto.
Qed.

Lemma emits_require {S A : Type} (n : nat) (service : option S) (detail : string)
    (k : S -> handler A) :
  (forall s, emits n Q (k s)) -> emits n Q (require service detail k).
Proof.
  intros Hk log. unfold require. destruct service as [s | ]; [apply Hk | ].
  exists []. rewrite app_nil_r. repeat split; [simpl; lia | constructor].
Qed.

End Emission.

Lemma emits_calls {R : Type} (n : nat) (Q : call -> Prop) (m : list call -> R * list call) :
  emits n Q m -> (List.length (snd (m [])) <= n)%nat /\ Forall Q (snd (m [])).
Proof. intro Hm. destruct (Hm []) as (new & -> & Hlen & HQ). simpl. auto. Qed.

(** The status of a guarded body is 200 or 500. *)
Lemma guarded_status (what : string) (body : io pydict) (log : list call) :
  status_code_of (fst (guarded what body log)) = 200
  \/ status_code_of (fst (guarded what body log)) = 500.
Proof.
  unfold guarded. destruct (body log) as [[a | e] log']; cbn [fst status_code_of]; auto.
  destruct (renderable (PDict a)); auto.
Qed.

Lemma require_unavailable {S : Type} (service : option S) (detail : string)
    (k : S -> handler pydict) :
  (forall s log, status_code_of (fst (k s log)) <> 503) ->
  status_code_of (answer (require service detail k)) = 503 ->
  provider_calls (require service detail k) = [].
Proof.
  unfold answer, provider_calls, require. intros Hk.
  destruct service as [s | ]; [intro H; destruct (Hk s [] H) | reflexivity].
Qed.

Lemma guarded_available (what : string) (body : io pydict) (log : list call) :
  status_code_of (fst (guarded what body log)) <> 503.
Proof. destruct (guarded_status what body log) as [-> | ->]; discriminate. Qed.

Section CallBounds.

Context {G O : Type} {gemini_service : BaseAIService G} {gpt4_service : BaseAIService O}.

Variable py_str : pyval -> string.
Variable json_dumps : pydict -> string.

(** The bound of a computation, from the bounds of its steps. *)
Ltac emission :=
  repeat
    match goal with
    | |- emits _ _ (io_ret _) => apply emits_ret
    | |- emits _ _ (io_lift _) => apply emits_lift
    | |- emits (S _) _ (invoke _ _ _ _) => apply emits_invoke; reflexivity
    | |- emits _ _ (if ?b then _ else _) => destruct b
    | |- emits ?n _ (io_bind (io_lift _) _) =>
        apply (emits_bind _ 0 n); [apply emits_lift | intro]
    | |- emits (S ?n) _ (io_bind (invoke _ _ _ _) _) =>
        apply (emits_bind _ 1 n); [apply emits_invoke; reflexivity | intro]
    | |- emits ?n _ (io_bind _ _) =>
        replace n with (n + 0)%nat by lia; apply (emits_bind _ n 0); [ | intro]
    end.

(** X19: what a request can cost.  The handler of [/analyze-meal]
    issues at most two provider calls, the handler of [/analyze-diet]
    none, every other handler at most one; a call goes to Gemini for the
    quick estimate, to GPT-4 Vision for a recipe from a photo and to the
    adapter [use_gpt4] selects for the text capabilities; and a handler
    whose service is not configured answers 503 without any call. *)
Theorem provider_calls_are_bounded (s : services G O) (rq : api_request) :
  (List.length (provider_calls (handle py_str json_dumps s rq)) <= max_calls rq)%nat
  /\ Forall (fun c => may_serve rq (call_to c) = true)
       (provider_calls (handle py_str json_dumps s rq))
  /\ (status_code_of (answer (handle py_str json_dumps s rq)) = 503 ->
      provider_calls (handle py_str json_dumps s rq) = []).
Proof.
  assert (Hemit : emits (max_calls rq) (fun c => may_serve rq (call_to c) = true)
                    (handle py_str json_dumps s rq)); [ | split; [ | split]].
  - destruct rq as [request now | image_url | request now | image_url preference
                   | count use_gpt4 | request now | request | days use_gpt4];
      cbn [handle max_calls may_serve]; apply emits_require; intro service;
      apply emits_guarded.
    + unfold analyze_meal, analyze_meal_result, _analyze_with_gemini, _analyze_with_gpt4.
      emission.
    + unfold quick_calorie_estimate. emission.
    + unfold generate_recipe. emission.
    + unfold generate_from_photo. emission.
    + unfold suggest_recipes. emission.
    + unfold chat_with_assistant. emission.
    + unfold suggest_meal, ask_text. emission.
    + apply emits_ret.
  - exact (proj1 (emits_calls _ _ _ Hemit)).
  - exact (proj2 (emits_calls _ _ _ Hemit)).
  - destruct rq; cbn [handle]; apply require_unavailable; intros; apply guarded_available.
Qed.

End CallBounds.

(** ** The endpoints *)

(** X20: the provider names of the API and the members of [AIProvider]
    correspond one to one: [AIProvider(value)] returns a member exactly
    for the value of that member, so decoding the value of a member
    gives the member back and every other text is rejected. *)
Theorem provider_names_round_trip (value : string) (p : AIProvider) :
  AIProvider_of_value value = Return p <-> value = provider_value p.
Proof.
  unfold AIProvider_of_value. split.
  - destruct (String.eqb value "gemini-flash") eqn:H1;
      [apply String.eqb_eq in H1; intro H; injection H as <-; exact H1 | ].
    destruct (String.eqb value "gpt4-vision") eqn:H2;
      [apply String.eqb_eq in H2; intro H; injection H as <-; exact H2 | ].
    destruct (String.eqb value "claude-vision") eqn:H3;
      [apply String.eqb_eq in H3; intro H; injection H as <-; exact H3 | ].
    discriminate.
  - intros ->. destruct p; reflexivity.
Qed.

Section EndpointProperties.

Context {G O : Type} {gemini_service : BaseAIService G} {gpt4_service : BaseAIService O}.

(** The response model of [/analyze-meal] accepts what [analyze_meal]
    returns, and keeps all of it. *)
Lemma analyze_meal_response_validates (a : MealAnalyzer G O) (image_url user_tier : string)
    (forced : option AIProvider) (now : string) (d : pydict) :
  outcome (analyze_meal a image_url user_tier forced now) = Return d ->
  AnalyzeMealResponse d = Return d.
Proof.
  destruct (analyze_meal_run a image_url user_tier forced now) as [-> _].
  intro H. invert_binds H. unfold packaged in H. invert_binds H. subst d. reflexivity.
Qed.

(** The handler of [/analyze-meal] once the provider name is decoded. *)
Lemma meal_endpoint_run (a : MealAnalyzer G O) (request : AnalyzeMealRequest)
    (now : string) (forced : option AIProvider) :
  Endpoints.force_provider_enum (amr_force_provider request) = Return forced ->
  Endpoints.analyze_meal (Some a) request now [] =
  (match outcome (analyze_meal a (amr_image_url request) (amr_user_tier request)
                    forced now) with
   | Return d => Ok d
   | Raise e => HTTPException 500 ("Meal analysis failed: " ++ exn_str e)
   end,
   calls (analyze_meal a (amr_image_url request) (amr_user_tier request) forced now)).
Proof.
  intro Hforced.
  unfold Endpoints.analyze_meal, require, guarded, io_bind, io_lift.
  rewrite Hforced.
  pose proof (analyze_meal_response_validates a (amr_image_url request)
                (amr_user_tier request) forced now) as Hvalid.
  unfold outcome, calls in *.
  destruct (analyze_meal a (amr_image_url request) (amr_user_tier request) forced now [])
    as [[d | e] log]; cbn [fst snd] in *; [ | reflexivity].
  rewrite (Hvalid d eq_refl). reflexivity.
Qed.

(** X21: the handler of [/analyze-meal] adds nothing to the service
    method but the decoding of the provider name.  When the name is
    accepted (or none is given), it issues the calls of [analyze_meal]
    and returns the dictionary [analyze_meal] returns, unchanged by the
    response model, or raises the HTTPException of status 500 when
    [analyze_meal] raises; when the name is not a provider's, it raises
    the HTTPException of status 500 and no provider is called. *)
Theorem meal_endpoint_is_transparent (a : MealAnalyzer G O) (request : AnalyzeMealRequest)
    (now : string) :
  match Endpoints.force_provider_enum (amr_force_provider request) with
  | Return forced =>
      provider_calls (Endpoints.analyze_meal (Some a) request now) =
        calls (analyze_meal a (amr_image_url request) (amr_user_tier request) forced now)
      /\ match outcome (analyze_meal a (amr_image_url request) (amr_user_tier request)
                          forced now) with
         | Return d => answer (Endpoints.analyze_meal (Some a) request now) = Ok d
         | Raise _ =>
             status_code_of (answer (Endpoints.analyze_meal (Some a) request now)) = 500
         end
  | Raise _ =>
      provider_calls (Endpoints.analyze_meal (Some a) request now) = []
      /\ status_code_of (answer (Endpoints.analyze_meal (Some a) request now)) = 500
  end.
Proof.
  destruct (Endpoints.force_provider_enum (amr_force_provider request)) as [forced | e]
    eqn:Hforced.
  - unfold provider_calls, answer. rewrite (meal_endpoint_run a request now forced Hforced).
    split; [reflexivity | ].
    destruct (outcome _); reflexivity.
  - unfold provider_calls, answer, Endpoints.analyze_meal, require, guarded, io_bind, io_lift.
    rewrite Hforced. split; reflexivity.
Qed.

Lemma parse_nutrition_empty : _parse_nutrition "" = Return empty_nutrition.
Proof. vm_compute. reflexivity. Qed.


End EndpointProperties.


(** *** With the adapters of the repository *)

(** The operations of the two adapters always hand back an envelope. *)
Lemma gemini_returns (g : GeminiService) :
  (forall u p k, exists r, analyze_image g u p k = Return r)
  /\ (forall p c k, exists r, generate_text g p c k = Return r)
  /\ (forall ms k, exists r, chat g ms k = Return r).
Proof.
  repeat split; intros; cbn [analyze_image generate_text chat GeminiService_BaseAIService];
    unfold Gemini.analyze_image, Gemini.generate_text, Gemini.chat;
    rewrite try_except_total; eauto.
Qed.

Lemma openai_returns (o : OpenAIVisionService) :
  (forall u p k, exists r, analyze_image o u p k = Return r)
  /\ (forall p c k, exists r, generate_text o p c k = Return r)
  /\ (forall ms k, exists r, chat o ms k = Return r).
Proof.
  repeat split; intros;
    cbn [analyze_image generate_text chat OpenAIVisionService_BaseAIService];
    unfold OpenAI.analyze_image, OpenAI.generate_text, OpenAI.chat;
    rewrite try_except_total; eauto.
Qed.

Section FixedContexts.

Variable py_str : pyval -> string.

(** The context of [/chat] and of [/suggest-meal] is formatted to one
    line, the health goal. *)
Lemma chat_context_formats :
  _format_user_context py_str (Some Endpoints.chat_context) =
  Return "**Health Goals:** balanced nutrition".
Proof. reflexivity. Qed.

Lemma suggest_meal_context_formats :
  _format_user_context py_str (Some Endpoints.suggest_meal_context) =
  Return "**Health Goals:** balanced nutrition".
Proof. reflexivity. Qed.

Lemma chat_conversation_builds (msg : string) (history : option (list message)) :
  exists messages,
    _build_conversation py_str msg history (Some Endpoints.chat_context) = Return messages.
Proof. unfold _build_conversation. cbn. eauto. Qed.

Variable json_dumps : pydict -> string.

(** X23: with the adapters of the repository and the services
    configured, [/analyze-meal] is the only endpoint whose handler can
    raise an HTTPException.  Every other handler returns a body
    whatever the provider does, an outage included: the adapters turn
    every failure into an envelope, and what these handlers make of an
    envelope cannot fail.  (Whether the client then sees status 200
    depends on the body alone: the framework answers 500 for a body it
    cannot render, one with a NaN for instance.) *)
Theorem other_handlers_always_return_a_body
    (ma : MealAnalyzer GeminiService OpenAIVisionService)
    (rg : RecipeGenerator GeminiService OpenAIVisionService)
    (ca : ChatAssistant GeminiService OpenAIVisionService) (rq : api_request) :
  is_meal_analysis rq = false ->
  exists body,
    answer (handle py_str json_dumps
              {| meal_analyzer := Some ma; recipe_generator := Some rg;
                 chat_assistant := Some ca |} rq) = Ok body.
Proof.
  destruct rq as [request now | image_url | request now | image_url preference
                 | count use_gpt4 | request now | request | days use_gpt4];
    [discriminate | intros _ ..]; unfold answer; cbn [handle meal_analyzer recipe_generator
                                                       chat_assistant];
    unfold require, guarded.
  - unfold Endpoints.quick_calorie_estimate, require, guarded, quick_calorie_estimate,
      io_bind, invoke, io_lift.
    destruct (proj1 (gemini_returns (gemini ma)) image_url quick_prompt no_kwargs) as [r ->].
    destruct (try_except (quick_estimate_json r) is_Exception _) eqn:Htry;
      [eexists; reflexivity | ].
    unfold try_except in Htry. destruct (quick_estimate_json r); discriminate.
  - unfold Endpoints.generate_recipe, require, guarded, generate_recipe, io_bind, invoke,
      io_lift, io_ret.
    set (prompt := _build_recipe_prompt _ _ _ _ _ _ _).
    destruct (grr_use_gpt4 request).
    + destruct (proj1 (proj2 (openai_returns (rg_gpt4 rg))) prompt None no_kwargs) as [r ->].
      eexists; reflexivity.
    + destruct (proj1 (proj2 (gemini_returns (rg_gemini rg))) prompt None no_kwargs) as [r ->].
      eexists; reflexivity.
  - unfold Endpoints.generate_recipe_from_photo, require, guarded, generate_from_photo,
      io_bind, invoke, io_ret.
    match goal with
    | |- context [analyze_image (rg_gpt4 rg) ?u ?p ?k] =>
        destruct (proj1 (openai_returns (rg_gpt4 rg)) u p k) as [r ->]
    end.
    eexists; reflexivity.
  - unfold Endpoints.suggest_recipes, require, guarded, suggest_recipes, io_bind, invoke,
      io_lift, io_ret.
    set (prompt := suggestions_prompt py_str json_dumps Endpoints.default_preferences count).
    destruct use_gpt4.
    + destruct (proj1 (proj2 (openai_returns (rg_gpt4 rg))) prompt None no_kwargs) as [r ->].
      destruct (suggestions_of_envelope r count) as (l & -> & _). eexists; reflexivity.
    + destruct (proj1 (proj2 (gemini_returns (rg_gemini rg))) prompt None no_kwargs) as [r ->].
      destruct (suggestions_of_envelope r count) as (l & -> & _). eexists; reflexivity.
  - unfold Endpoints.chat, require, guarded, chat_with_assistant, io_bind, invoke, io_lift,
      io_ret.
    destruct (chat_conversation_builds (cr_message request) (cr_conversation_history request))
      as [messages ->].
    destruct (cr_use_gpt4 request).
    + destruct (proj2 (proj2 (openai_returns (ca_gpt4 ca))) messages no_kwargs) as [r ->].
      eexists; reflexivity.
    + destruct (proj2 (proj2 (gemini_returns (ca_gemini ca))) messages no_kwargs) as [r ->].
      eexists; reflexivity.
  - unfold Endpoints.suggest_meal, require, guarded, suggest_meal, ask_text, io_bind, invoke,
      io_lift, io_ret.
    rewrite suggest_meal_context_formats.
    match goal with
    | |- context [generate_text _ ?p None no_kwargs] => set (prompt := p)
    end.
    destruct (msr_use_gpt4 request).
    + destruct (proj1 (proj2 (openai_returns (ca_gpt4 ca))) prompt None no_kwargs) as [r ->].
      eexists; reflexivity.
    + destruct (proj1 (proj2 (gemini_returns (ca_gemini ca))) prompt None no_kwargs) as [r ->].
      eexists; reflexivity.
  - eexists; reflexivity.
Qed.

End FixedContexts.

(** X23 for a chat message while both providers are unreachable. *)
Lemma other_handlers_always_return_a_body_witness :
  exists body,
    answer (handle sample_str (fun _ => "{}") services_all_down
              (ChatMessage {| cr_message := "What should I eat?";
                              cr_conversation_history := None;
                              cr_use_gpt4 := false |} sample_now)) = Ok body.
Proof.
  apply (other_handlers_always_return_a_body sample_str (fun _ => "{}")). reflexivity.
Defined.

(** ** The service factory *)

(** X24: an adapter is handed out exactly when its provider is
    available, that is when its key is set (an empty key counts as
    missing).  The three capability services are handed out together
    or not at all: each exists exactly when Gemini Flash and GPT-4
    Vision are both available; the health check then says [healthy] and
    otherwise [degraded]; Claude Vision is never available; and the
    adapters of a service carry the keys of the factory. *)
Theorem services_come_together (f : AIServiceFactory) :
  present (get_gemini_service f) = is_available f GEMINI_FLASH
  /\ present (get_openai_service f) = is_available f GPT4_VISION
  /\ present (get_meal_analyzer f) =
    (is_available f GEMINI_FLASH && is_available f GPT4_VISION)%bool
  /\ present (get_recipe_generator f) = present (get_meal_analyzer f)
  /\ present (get_chat_assistant f) = present (get_meal_analyzer f)
  /\ is_available f CLAUDE_VISION = false
  /\ dict_lookup "status"
       (Endpoints.ai_health_check (get_meal_analyzer f) (get_recipe_generator f)
          (get_chat_assistant f)) =
     Some (PStr (if present (get_meal_analyzer f) then "healthy" else "degraded"))
  /\ match get_meal_analyzer f with
     | Some a =>
         Some (cfg_api_key (gemini_config (gemini a))) = gemini_api_key f
         /\ Some (cfg_api_key (openai_config (gpt4 a))) = openai_api_key f
     | None => True
     end.
Proof.
  unfold get_gemini_service, get_openai_service, get_meal_analyzer, get_recipe_generator,
    get_chat_assistant, is_available.
  cbn [AIProvider_eqb].
  destruct (gemini_api_key f) as [gk | ], (openai_api_key f) as [ok | ]; cbn [key_set];
    try (destruct (String.eqb gk "")); try (destruct (String.eqb ok ""));
    cbn; repeat split; reflexivity.
Qed.

Lemma analyzer_present (f : AIServiceFactory) :
  present (get_meal_analyzer f) =
  (key_set (gemini_api_key f) && key_set (openai_api_key f))%bool.
Proof.
  unfold get_meal_analyzer.
  destruct (gemini_api_key f) as [gk | ], (openai_api_key f) as [ok | ]; cbn [key_set];
    try (destruct (String.eqb gk "")); try (destruct (String.eqb ok "")); reflexivity.
Qed.

(** X25: where the keys of a factory come from.  A key given to the
    constructor is used when it is not empty, the environment variable
    otherwise; so the capability services exist exactly when each of
    the two keys is given in one way or the other. *)
Theorem keys_come_from_arguments_or_environment (gemini_key openai_key : option string)
    (getenv : string -> option string) (gemini_world : GeminiBackend)
    (openai_world : OpenAIBackend) :
  gemini_api_key (new_factory gemini_key openai_key getenv gemini_world openai_world) =
    (if key_set gemini_key then gemini_key else getenv "GEMINI_API_KEY")
  /\ openai_api_key (new_factory gemini_key openai_key getenv gemini_world openai_world) =
    (if key_set openai_key then openai_key else getenv "OPENAI_API_KEY")
  /\ present (get_meal_analyzer
               (new_factory gemini_key openai_key getenv gemini_world openai_world)) =
     ((key_set gemini_key || key_set (getenv "GEMINI_API_KEY"))
      && (key_set openai_key || key_set (getenv "OPENAI_API_KEY")))%bool.
Proof.
  split; [reflexivity | split; [reflexivity | ]].
  rewrite analyzer_present. unfold new_factory, key_or.
  cbn [gemini_api_key openai_api_key].
  destruct (key_set gemini_key) eqn:Hg, (key_set openai_key) eqn:Ho;
    rewrite ?Hg, ?Ho; reflexivity.
Qed.

(** ** The text capabilities *)

Section TextCapabilities.

Context {G O : Type} {gemini_service : BaseAIService G} {gpt4_service : BaseAIService O}.

Variable py_str : pyval -> string.

(** A prompt built from the formatted context, then one text request. *)
Lemma formatted_request_run {A : Type} (self : ChatAssistant G O) (context : pydict)
    (use_gpt4 : bool) (prompt : string -> string) (system : option string)
    (package : AIResponse -> A) :
  let request :=
    (formatted <- await io_lift (_format_user_context py_str (Some context)) ;;
     result <- await ask_text self use_gpt4 (prompt formatted) system ;;
     io_ret (package result)) in
  if (unjoinable (dict_get context "health_goals" PNone)
      || unjoinable (dict_get context "dietary_restrictions" PNone))%bool
  then calls request = []
       /\ exists e, outcome request = Raise e /\ exn_cls e = TypeError
  else exists formatted, calls request = [text_call use_gpt4 (prompt formatted)].
Proof.
  pose proof (format_user_context_outcome py_str context) as Hformat.
  unfold calls, outcome, io_bind, io_lift, ask_text. cbv zeta.
  destruct (_format_user_context py_str (Some context)) as [formatted | e].
  - rewrite Hformat. exists formatted.
    destruct use_gpt4; unfold invoke; cbn [fst snd app];
      match goal with
      | |- context [generate_text ?s ?p ?c ?k] => destruct (generate_text s p c k)
      end; reflexivity.
  - destruct Hformat as [-> Hcls]. cbn [fst snd]. split; [reflexivity | ].
    exists e. split; [reflexivity | exact Hcls].
Qed.


End TextCapabilities.

(** *** Diet trends *)

Section DietTrends.

Context {G O : Type} {gemini_service : BaseAIService G} {gpt4_service : BaseAIService O}.

Variable py_str : pyval -> string.

Lemma nutrition_summary_outcome (n : pyval) :
  match nutrition_summary py_str n with
  | Return _ => is_dict n = true
  | Raise e => is_dict n = false /\ exn_cls e = AttributeError
  end.
Proof. destruct n; cbn; auto. Qed.

(** A line of the summary can be written unless the meal has a bad
    nutrition entry. *)
Lemma meal_line_outcome (i : Z) (meal : pydict) :
  match meal_line py_str i meal with
  | Return _ => bad_nutrition meal = false
  | Raise e => bad_nutrition meal = true /\ exn_cls e = AttributeError
  end.
Proof.
  unfold meal_line, bad_nutrition, dict_item, dict_get.
  destruct (dict_lookup "nutrition" meal) as [n | ]; cbn [py_truth bind].
  - destruct (py_truth n); cbn [bind andb].
    + pose proof (nutrition_summary_outcome n) as Hn.
      destruct (nutrition_summary py_str n) as [s | e]; cbn [bind].
      * rewrite Hn. cbn [negb].
        destruct (dict_lookup "logged_at" meal) as [v | ]; cbn [py_truth];
          [destruct (py_truth v) | ]; reflexivity.
      * destruct Hn as [-> Hcls]. split; [reflexivity | exact Hcls].
    + destruct (dict_lookup "logged_at" meal) as [v | ]; cbn [py_truth];
        [destruct (py_truth v) | ]; reflexivity.
  - destruct (dict_lookup "logged_at" meal) as [v | ]; cbn [py_truth];
      [destruct (py_truth v) | ]; reflexivity.
Qed.

Lemma meal_lines_outcome (meals : list pydict) :
  forall i,
    match meal_lines py_str i meals with
    | Return lines =>
        existsb bad_nutrition meals = false /\ List.length lines = List.length meals
    | Raise e => existsb bad_nutrition meals = true /\ exn_cls e = AttributeError
    end.
Proof.
  induction meals as [ | meal rest IH]; intro i; cbn [meal_lines existsb];
    [split; reflexivity | ].
  pose proof (meal_line_outcome i meal) as Hline.
  destruct (meal_line py_str i meal) as [line | e]; cbn [bind].
  - rewrite Hline. cbn [orb]. specialize (IH (i + 1)).
    destruct (meal_lines py_str (i + 1) rest) as [lines | e]; cbn [bind].
    + destruct IH as [-> Hlen]. split; [reflexivity | cbn [List.length]; congruence].
    + exact IH.
  - destruct Hline as [-> Hcls]. split; [reflexivity | exact Hcls].
Qed.


End DietTrends.

(** *** Recipes from a photo *)

Section PhotoRecipes.

Context {G O : Type} {gemini_service : BaseAIService G} {gpt4_service : BaseAIService O}.

(** X28: [generate_from_photo] knows the preferences [healthier] and
    [different], compared exactly; every other text, whatever its
    spelling, is served like [similar]. *)
Theorem unknown_preference_means_similar (self : RecipeGenerator G O)
    (image_url preference : string) :
  preference <> "healthier" ->
  preference <> "different" ->
  generate_from_photo self image_url preference =
  generate_from_photo self image_url "similar".
Proof.
  intros Hh Hd. apply String.eqb_neq in Hh, Hd.
  unfold generate_from_photo. rewrite Hh, Hd. reflexivity.
Qed.

End PhotoRecipes.

(** X28 at a capitalised preference. *)
Lemma unknown_preference_means_similar_witness :
  generate_from_photo sample_generator sample_image "Healthier" =
  generate_from_photo sample_generator sample_image "similar".
Proof.
  apply unknown_preference_means_similar; discriminate.
Defined.
